(** * Clinic appointment service (app/app.py): slot generation, request
      validation, availability scan, booking and cancellation.

    A shallow embedding of [app.py] and of the parts of Python's
    [datetime], [_strptime] and of the database session it relies on.

    - [str]: the Rocq [string] of its UTF-8 bytes.  [len] counts code
      points; [str.isdigit], the regex class [\d] and [int] follow the
      digit tables of Unicode 14.0 (CPython 3.11).
    - [datetime.date]: its proleptic Gregorian ordinal (what
      [date.toordinal()] returns), 1 = 0001-01-01, 3652059 = 9999-12-31.
    - [datetime.time]: microseconds since midnight.
    - [datetime.datetime] (naive): microseconds since the midnight that
      starts ordinal 0, so comparison is comparison in [Z] and
      [datetime.combine d t] is [d * 86400000000 + t].
    - Adding a [timedelta] raises [OverflowError] when the resulting date
      leaves [1, 3652059], as [date.__add__] and [datetime.__add__] do.
    - [datetime.strptime]: the backtracking match of the regular expression
      [_strptime.py] builds from the format, which must consume the whole
      text, followed by the range checks of the constructors.
    - [while] loops run on fuel; the theorems say which fuel suffices.
    - The store: one list of rows per table, with the columns the SQL text
      names; a statement is the function on the store its text denotes.
      A text parameter compared with a [date] or [time] column is cast by
      the store, which refuses some texts [strptime] accepts.  A text
      parameter is taken to hold no NUL character, which the driver does
      not send.
    - Database failures: every call a request makes inside
      [with conn.transaction()] may fail, as an oracle decides; a refused
      cast fails the call that carries it.
    - [isoformat()] is left out of the listing: a slot is the pair
      [(h.date(), h.time())] whose texts the response carries. *)

From Stdlib Require Import ZArith List String Ascii Bool Lia Sorted.
Import ListNotations.
Local Open Scope string_scope.
Local Open Scope list_scope.
Local Open Scope Z_scope.

(* ===================================================================== *)
(** ** The datetime library, as far as app.py uses it *)
(* ===================================================================== *)

Module Py.

(** Exceptions that reach the program, with the text [str(e)] gives. *)
Inductive exn : Type :=
| OverflowError (msg : string)
| ValueError (msg : string)
| AttributeError (msg : string)
| DatabaseError (msg : string).

Definition str_exn (e : exn) : string :=
  match e with
  | OverflowError m | ValueError m | AttributeError m | DatabaseError m => m
  end.

(** A computation that either returns or raises. *)
Definition result (A : Type) : Type := (exn + A)%type.

Definition date : Type := Z.
Definition time : Type := Z.
Definition datetime : Type := Z.
Definition timedelta : Type := Z.

Definition MAXORDINAL : Z := 3652059.
Definition US_PER_SECOND : Z := 1000000.
Definition US_PER_DAY : Z := 86400000000.

Definition timedelta_minutes (m : Z) : timedelta := m * 60 * US_PER_SECOND.
Definition timedelta_days (d : Z) : Z := d.

(** [time(h, m, s)] *)
Definition mk_time (h m s : Z) : time := ((h * 60 + m) * 60 + s) * US_PER_SECOND.

Definition combine (d : date) (t : time) : datetime := d * US_PER_DAY + t.
Definition dt_date (x : datetime) : date := x / US_PER_DAY.
Definition dt_time (x : datetime) : time := x mod US_PER_DAY.

Definition date_overflow : exn := OverflowError "date value out of range".

(** [date + timedelta(days=n)] *)
Definition date_add (d : date) (n : Z) : result date :=
  let o := d + n in
  if (0 <? o) && (o <=? MAXORDINAL) then inr o else inl date_overflow.

(** [datetime + timedelta] *)
Definition datetime_add (x : datetime) (delta : timedelta) : result datetime :=
  let r := x + delta in
  if (0 <? dt_date r) && (dt_date r <=? MAXORDINAL) then inr r
  else inl date_overflow.

(** [date.weekday()]: Monday is 0. *)
Definition weekday (d : date) : Z := (d + 6) mod 7.

(** *** Calendar arithmetic of [datetime.py] *)

Definition is_leap (year : Z) : bool :=
  (year mod 4 =? 0) && (negb (year mod 100 =? 0) || (year mod 400 =? 0)).

Definition days_before_year (year : Z) : Z :=
  let y := year - 1 in y * 365 + y / 4 - y / 100 + y / 400.

Definition DAYS_IN_MONTH : list Z :=
  [-1; 31; 28; 31; 30; 31; 30; 31; 31; 30; 31; 30; 31].

Definition DAYS_BEFORE_MONTH : list Z :=
  [-1; 0; 31; 59; 90; 120; 151; 181; 212; 243; 273; 304; 334].

Definition days_in_month (year month : Z) : Z :=
  if (month =? 2) && is_leap year then 29
  else nth (Z.to_nat month) DAYS_IN_MONTH 0.

Definition days_before_month (year month : Z) : Z :=
  nth (Z.to_nat month) DAYS_BEFORE_MONTH 0
  + (if (2 <? month) && is_leap year then 1 else 0).

Definition ymd2ord (year month day : Z) : Z :=
  days_before_year year + days_before_month year month + day.

(** The range checks of the [date] and [time] constructors. *)
Definition check_date_fields (year month day : Z) : bool :=
  (1 <=? year) && (year <=? 9999) && (1 <=? month) && (month <=? 12)
  && (1 <=? day) && (day <=? days_in_month year month).

Definition check_time_fields (hour minute second : Z) : bool :=
  (0 <=? hour) && (hour <=? 23) && (0 <=? minute) && (minute <=? 59)
  && (0 <=? second) && (second <=? 59).

(** *** Text

    A [str] is a sequence of code points; it is held as the [string] of its
    UTF-8 bytes, which is how the literals of this file are read.  A byte
    that starts no UTF-8 sequence stands for U+FFFD. *)

Definition codepoint : Type := N.

Definition continuation (b : N) : bool := (128 <=? b)%N && (b <? 192)%N.

Fixpoint utf8_decode (bytes : list N) : list codepoint :=
  match bytes with
  | [] => []
  | b :: rest =>
      if (b <? 128)%N then b :: utf8_decode rest
      else if (192 <=? b)%N && (b <? 224)%N then
        match rest with
        | c1 :: rest1 =>
            if continuation c1
            then ((b - 192) * 64 + (c1 - 128))%N :: utf8_decode rest1
            else 65533%N :: utf8_decode rest
        | [] => [65533%N]
        end
      else if (224 <=? b)%N && (b <? 240)%N then
        match rest with
        | c1 :: (c2 :: rest2) as rest1 =>
            if continuation c1 && continuation c2
            then ((b - 224) * 4096 + (c1 - 128) * 64 + (c2 - 128))%N
                 :: utf8_decode rest2
            else 65533%N :: utf8_decode rest1
        | _ => 65533%N :: utf8_decode rest
        end
      else if (240 <=? b)%N && (b <? 248)%N then
        match rest with
        | c1 :: (c2 :: (c3 :: rest3) as rest2) as rest1 =>
            if continuation c1 && continuation c2 && continuation c3
            then ((b - 240) * 262144 + (c1 - 128) * 4096 + (c2 - 128) * 64
                  + (c3 - 128))%N :: utf8_decode rest3
            else 65533%N :: utf8_decode rest1
        | _ => 65533%N :: utf8_decode rest
        end
      else 65533%N :: utf8_decode rest
  end.

(** The code points of a [str]. *)
Definition codepoints (x : string) : list codepoint :=
  utf8_decode (map N_of_ascii (list_ascii_of_string x)).

Definition in_ranges (ranges : list (N * N)) (c : codepoint) : bool :=
  existsb (fun r => (fst r <=? c)%N && (c <=? snd r)%N) ranges.

(** The decimal digits of Unicode 14.0 (category Nd, 660 characters), as
    the [unicodedata] of CPython 3.11 has them: each range is a run of
    digits 0 to 9, so the value of a digit is its offset in the range
    modulo 10.  These are the characters of [str.isdecimal], of the regex
    class [\d], and the digits [int] reads. *)
Definition DECIMAL_DIGITS : list (N * N) :=
  [(48, 57); (1632, 1641); (1776, 1785); (1984, 1993);
   (2406, 2415); (2534, 2543); (2662, 2671); (2790, 2799);
   (2918, 2927); (3046, 3055); (3174, 3183); (3302, 3311);
   (3430, 3439); (3558, 3567); (3664, 3673); (3792, 3801);
   (3872, 3881); (4160, 4169); (4240, 4249); (6112, 6121);
   (6160, 6169); (6470, 6479); (6608, 6617); (6784, 6793);
   (6800, 6809); (6992, 7001); (7088, 7097); (7232, 7241);
   (7248, 7257); (42528, 42537); (43216, 43225); (43264, 43273);
   (43472, 43481); (43504, 43513); (43600, 43609); (44016, 44025);
   (65296, 65305); (66720, 66729); (68912, 68921); (69734, 69743);
   (69872, 69881); (69942, 69951); (70096, 70105); (70384, 70393);
   (70736, 70745); (70864, 70873); (71248, 71257); (71360, 71369);
   (71472, 71481); (71904, 71913); (72016, 72025); (72784, 72793);
   (73040, 73049); (73120, 73129); (92768, 92777); (92864, 92873);
   (93008, 93017); (120782, 120831); (123200, 123209); (123632, 123641);
   (125264, 125273); (130032, 130041)]%N.

(** The other characters of [str.isdigit] (Numeric_Type = Digit, 128
    characters): superscripts, subscripts, circled digits and the like. *)
Definition OTHER_DIGITS : list (N * N) :=
  [(178, 179); (185, 185); (4969, 4977); (6618, 6618);
   (8304, 8304); (8308, 8313); (8320, 8329); (9312, 9320);
   (9332, 9340); (9352, 9360); (9450, 9450); (9461, 9469);
   (9471, 9471); (10102, 10110); (10112, 10120); (10122, 10130);
   (68160, 68163); (69216, 69224); (69714, 69722); (127232, 127242)]%N.

(** [c.isdecimal()] *)
Definition is_decimal (c : codepoint) : bool := in_ranges DECIMAL_DIGITS c.

(** [c.isdigit()] *)
Definition is_digit_char (c : codepoint) : bool :=
  is_decimal c || in_ranges OTHER_DIGITS c.

(** [int(c)] for a decimal digit [c]. *)
Definition decimal_value (c : codepoint) : Z :=
  match find (fun r => (fst r <=? c)%N && (c <=? snd r)%N) DECIMAL_DIGITS with
  | Some r => Z.of_N ((c - fst r) mod 10)
  | None => 0
  end.

(** *** [re.match] on the patterns [_strptime.py] builds

    A backtracking matcher: the result lists every way the pattern can
    match a prefix, in the order the engine tries them; [re.match] returns
    the first. *)

Inductive re : Type :=
| Lit (c : ascii)
| Rng (lo hi : ascii)
| Dig
| Cat (r1 r2 : re)
| Alt (r1 r2 : re)
| Grp (name : ascii) (r : re).

Definition chars : Type := list codepoint.
Definition groups : Type := list (ascii * chars).

Definition in_range (lo hi : ascii) (c : codepoint) : bool :=
  (N_of_ascii lo <=? c)%N && (c <=? N_of_ascii hi)%N.

(** The class [\d]. *)
Definition is_digit (c : codepoint) : bool := is_decimal c.

Fixpoint re_match (r : re) (s : chars) : list (groups * chars) :=
  match r with
  | Lit c =>
      match s with
      | x :: s' => if (x =? N_of_ascii c)%N then [([], s')] else []
      | [] => []
      end
  | Rng lo hi =>
      match s with
      | x :: s' => if in_range lo hi x then [([], s')] else []
      | [] => []
      end
  | Dig =>
      match s with
      | x :: s' => if is_digit x then [([], s')] else []
      | [] => []
      end
  | Cat r1 r2 =>
      flat_map (fun m1 =>
        map (fun m2 => (fst m1 ++ fst m2, snd m2)) (re_match r2 (snd m1)))
        (re_match r1 s)
  | Alt r1 r2 => re_match r1 s ++ re_match r2 s
  | Grp name r1 =>
      map (fun m =>
        ((name, firstn (List.length s - List.length (snd m))%nat s) :: fst m, snd m))
        (re_match r1 s)
  end.

Definition alts (rs : list re) : re :=
  match rs with
  | [] => Lit "000"
  | r :: rs' => fold_left Alt rs' r
  end.

(** The directive table of [TimeRE.__init__], for the directives used. *)
Definition directive (d : ascii) : option re :=
  match d with
  | "Y" => Some (Cat Dig (Cat Dig (Cat Dig Dig)))
  | "m" => Some (alts [Cat (Lit "1") (Rng "0" "2");
                       Cat (Lit "0") (Rng "1" "9");
                       Rng "1" "9"])
  | "d" => Some (alts [Cat (Lit "3") (Rng "0" "1");
                       Cat (Rng "1" "2") Dig;
                       Cat (Lit "0") (Rng "1" "9");
                       Rng "1" "9";
                       Cat (Lit " ") (Rng "1" "9")])
  | "H" => Some (alts [Cat (Lit "2") (Rng "0" "3");
                       Cat (Rng "0" "1") Dig;
                       Dig])
  | "M" => Some (alts [Cat (Rng "0" "5") Dig; Dig])
  | "S" => Some (alts [Cat (Lit "6") (Rng "0" "1");
                       Cat (Rng "0" "5") Dig;
                       Dig])
  | _ => None
  end%char.

(** [TimeRE.pattern]: a directive becomes its named group, any other
    character of the format stands for itself. *)
Fixpoint pattern (format : list ascii) : option (list re) :=
  match format with
  | [] => Some []
  | "%"%char :: d :: rest =>
      match directive d, pattern rest with
      | Some r, Some rs => Some (Grp d r :: rs)
      | _, _ => None
      end
  | c :: rest =>
      match pattern rest with
      | Some rs => Some (Lit c :: rs)
      | None => None
      end
  end.

Fixpoint cat_all (rs : list re) : option re :=
  match rs with
  | [] => None
  | [r] => Some r
  | r :: rs' => match cat_all rs' with
                | Some r' => Some (Cat r r')
                | None => None
                end
  end.

(** [int(text)] on a run of decimal digits, leading blanks skipped. *)
Definition int_of (text : chars) : Z :=
  fold_left (fun acc c => if is_decimal c then acc * 10 + decimal_value c else acc)
    text 0.

Fixpoint group (name : ascii) (g : groups) : option chars :=
  match g with
  | [] => None
  | (n, text) :: g' => if Ascii.eqb n name then Some text else group name g'
  end.

Definition group_int (name : ascii) (default : Z) (g : groups) : Z :=
  match group name g with
  | Some text => int_of text
  | None => default
  end.

(** [datetime.strptime(data_string, format)]: the match must consume the
    whole string; the year defaults to 1900, month and day to 1, the clock
    fields to 0; the constructors reject fields out of range.  Every
    failure is a [ValueError]. *)
Definition strptime (data_string format : string) : result datetime :=
  match pattern (list_ascii_of_string format) with
  | None => inl (ValueError "bad directive in format")
  | Some rs =>
      match cat_all rs with
      | None => inl (ValueError "bad directive in format")
      | Some r =>
          match re_match r (codepoints data_string) with
          | [] => inl (ValueError "time data does not match format")
          | (g, rest) :: _ =>
              match rest with
              | _ :: _ => inl (ValueError "unconverted data remains")
              | [] =>
                  let year := group_int "Y" 1900 g in
                  let month := group_int "m" 1 g in
                  let day := group_int "d" 1 g in
                  let hour := group_int "H" 0 g in
                  let minute := group_int "M" 0 g in
                  let second := group_int "S" 0 g in
                  if check_date_fields year month day then
                    if check_time_fields hour minute second then
                      inr (combine (ymd2ord year month day)
                                   (mk_time hour minute second))
                    else inl (ValueError "second must be in 0..59")
                  else inl (ValueError "day is out of range for month")
              end
          end
      end
  end.

End Py.

Import Py.

(* ===================================================================== *)
(** ** app.py *)
(* ===================================================================== *)

(** Python's [+] on [str]. *)
Infix "+s" := String.append (at level 50, left associativity).

(** Loops are run on fuel: [None] is a run that used it up, [Some (inl e)]
    one that ended by raising [e], [Some (inr a)] one that returned [a]. *)
Definition run (A : Type) : Type := option (result A).

Definition ret {A} (a : A) : run A := Some (inr a).
Definition raise {A} (e : exn) : run A := Some (inl e).
Definition lift {A} (r : result A) : run A := Some r.
Definition bind {A B} (c : run A) (k : A -> run B) : run B :=
  match c with
  | None => None
  | Some (inl e) => Some (inl e)
  | Some (inr a) => k a
  end.

Notation "x <- c ;; k" := (bind c (fun x => k))
  (at level 61, c at next level, right associativity).

(** The value of an expression the program knows cannot raise, such as the
    constant [datetime.strptime('13:00', '%H:%M')]. *)
Definition value (r : result datetime) : datetime :=
  match r with inr x => x | inl _ => 0 end.

(** *** gerar_horarios_disponiveis (lines 42-49) *)

Definition lunch_1300 : time := dt_time (value (strptime "13:00" "%H:%M")).
Definition lunch_1330 : time := dt_time (value (strptime "13:30" "%H:%M")).

Fixpoint gerar_loop (fuel : nat) (horarios : list datetime)
    (inicio fim : datetime) (intervalo_minutos : Z) : run (list datetime) :=
  match fuel with
  | O => None
  | S fuel' =>
      if inicio <? fim then
        let horarios :=
          if negb (dt_time inicio =? lunch_1300)
             && negb (dt_time inicio =? lunch_1330)
          then horarios ++ [inicio] else horarios in
        inicio <- lift (datetime_add inicio (timedelta_minutes intervalo_minutos)) ;;
        gerar_loop fuel' horarios inicio fim intervalo_minutos
      else ret horarios
  end.

Definition gerar_horarios_disponiveis (fuel : nat) (inicio fim : datetime)
    (intervalo_minutos : Z) : run (list datetime) :=
  gerar_loop fuel [] inicio fim intervalo_minutos.

(** *** verificar_formato_data (lines 52-57) *)

(** [ValueError] is the one exception [strptime] raises, so the [except]
    clause catches every failure. *)
Definition verificar_formato_data (data_str formato : string) : bool :=
  match strptime data_str formato with
  | inr _ => true
  | inl _ => false
  end.

(** *** Request parameters

    [request.args.get(k)] is [None] when the parameter is absent. *)

Definition arg : Type := option string.

(** [not x] for [x] a [str] or [None]. *)
Definition py_not (x : arg) : bool :=
  match x with
  | None => true
  | Some s => (String.length s =? 0)%nat
  end.

Definition str (x : arg) : string :=
  match x with Some s => s | None => "" end.

(** [len(x)]: the number of code points. *)
Definition len (x : arg) : Z := Z.of_nat (List.length (codepoints (str x))).

(** [str.isdigit]: not empty and every character a digit character. *)
Definition isdigit (x : arg) : bool :=
  negb (List.length (codepoints (str x)) =? 0)%nat
  && forallb is_digit_char (codepoints (str x)).

(** *** The validation block of marca_consulta (lines 222-256)

    [now] is the value of [datetime.now() + timedelta(hours=1)].  The
    result is the variable [error]; the block itself raises only if one of
    the second calls to [strptime] does. *)

Definition validar_marca (now : datetime) (paciente medico data hora : arg)
  : result (option string) :=
  if py_not paciente then
    inr (Some "O campo paciente precisa de estar preenchido.")
  else if negb (len paciente =? 11) || negb (isdigit paciente) then
    inr (Some "Formato inválido para o campo paciente.")
  else if py_not medico then
    inr (Some "O campo medico precisa de estar preenchido.")
  else if negb (len medico =? 9) || negb (isdigit medico) then
    inr (Some "Formato inválido para o campo medico.")
  else if py_not data then
    inr (Some "O campo data precisa de estar preenchido.")
  else if negb (verificar_formato_data (str data) "%Y-%m-%d") then
    inr (Some "Formato inválido para o campo data. Formato esperado: YYYY-MM-DD")
  else if py_not hora then
    inr (Some "O campo hora precisa de estar preenchido.")
  else if negb (verificar_formato_data (str hora) "%H:%M:%S") then
    inr (Some "Formato inválido para o campo hora. Formato esperado: HH:MM:SS")
  else
    match strptime (str data) "%Y-%m-%d", strptime (str hora) "%H:%M:%S" with
    | inl e, _ => inl e
    | _, inl e => inl e
    | inr d, inr h =>
        let time_request := combine (dt_date d) (dt_time h) in
        if now >? time_request then
          inr (Some ("O horário inserido não pode ser no passado: "
                     +s str hora +s " " +s str data))
        else if negb
             (((dt_time time_request >=? dt_time (value (strptime "08:00:00" "%H:%M:%S")))
               && (dt_time time_request <? dt_time (value (strptime "13:00:00" "%H:%M:%S"))))
              || ((dt_time time_request >=? dt_time (value (strptime "14:00:00" "%H:%M:%S")))
                  && (dt_time time_request <? dt_time (value (strptime "19:00:00" "%H:%M:%S")))))
        then
          inr (Some "O horário inserido deve estar no horário 8-13h e 14-19h.")
        else inr None
    end.

(** *** The validation block of cancela_consulta (lines 401-435) *)

Definition validar_cancela (now : datetime) (paciente medico data hora : arg)
  : result (option string) :=
  if py_not paciente then
    inr (Some "O campo paciente precisa de estar preenchido.")
  else if negb (len paciente =? 11) || negb (isdigit paciente) then
    inr (Some "Formato inválido para o campo paciente.")
  else if py_not medico then
    inr (Some "O campo medico precisa de estar preenchido.")
  else if negb (len medico =? 9) || negb (isdigit medico) then
    inr (Some "Formato inválido para o campo medico.")
  else if py_not data then
    inr (Some "O campo data precisa de estar preenchido.")
  else if negb (verificar_formato_data (str data) "%Y-%m-%d") then
    inr (Some "Formato inválido para o campo data. Formato esperado: YYYY-MM-DD")
  else if py_not hora then
    inr (Some "O campo hora precisa de estar preenchido.")
  else if negb (verificar_formato_data (str hora) "%H:%M:%S") then
    inr (Some "Formato inválido para o campo hora. Formato esperado: HH:MM:SS")
  else
    match strptime (str data) "%Y-%m-%d", strptime (str hora) "%H:%M:%S" with
    | inl e, _ => inl e
    | _, inl e => inl e
    | inr d, inr h =>
        let time_request := combine (dt_date d) (dt_time h) in
        if now >? time_request then
          inr (Some ("O horário inserido não pode ser no passado: "
                     +s str hora +s " " +s str data))
        else if negb
             (((dt_time time_request >=? dt_time (value (strptime "08:00:00" "%H:%M:%S")))
               && (dt_time time_request <? dt_time (value (strptime "13:00:00" "%H:%M:%S"))))
              || ((dt_time time_request >=? dt_time (value (strptime "14:00:00" "%H:%M:%S")))
                  && (dt_time time_request <? dt_time (value (strptime "19:00:00" "%H:%M:%S")))))
        then
          inr (Some "O horário inserido deve estar no horário 8-13h e 14-19h.")
        else inr None
    end.

(** *** The relational store

    One list of rows per table, with the columns the SQL text of app.py
    names.  [consulta_id_seq] feeds [id DEFAULT]. *)

Record clinica_row := { clinica_nome : string; clinica_morada : string }.
Record medico_row :=
  { medico_nif : string; medico_nome : string; medico_especialidade : string }.
Record trabalha_row :=
  { trabalha_nif : string; trabalha_nome : string; trabalha_dia_da_semana : Z }.
Record paciente_row := { paciente_ssn : string; paciente_nif : string }.
Record consulta_row :=
  { consulta_id : Z; consulta_ssn : string; consulta_nif : string;
    consulta_nome : string; consulta_data : date; consulta_hora : time }.

Record store :=
  { clinica : list clinica_row;
    medico : list medico_row;
    trabalha : list trabalha_row;
    paciente : list paciente_row;
    consulta : list consulta_row;
    consulta_id_seq : Z }.

(** [SELECT COUNT( * ) FROM t WHERE p] *)
Definition count {R} (p : R -> bool) (t : list R) : Z :=
  Z.of_nat (List.length (filter p t)).

(** A response: the JSON body and the HTTP status. *)
Inductive body : Type :=
| Mensagem (message : string) (status : option string)
| Medicos (resultado : list (string * list (date * time))).

Definition resposta : Type := (body * Z)%type.

Definition erro (message : string) (code : Z) : resposta :=
  (Mensagem message (Some "error"), code).

(** *** lista_medicos_clinica_especialidade (lines 117-210) *)

Definition intervalo_minutos : Z := 30.
Definition inicio_horario : time := dt_time (value (strptime "08:00" "%H:%M")).
Definition fim_horario : time := dt_time (value (strptime "19:00" "%H:%M")).

(** [ORDER BY data, hora] *)
Definition data_hora_leb (a b : date * time) : bool :=
  (fst a <? fst b) || ((fst a =? fst b) && (snd a <=? snd b)).

Fixpoint order_insert (x : date * time) (l : list (date * time)) :=
  match l with
  | [] => [x]
  | y :: l' => if data_hora_leb x y then x :: l else y :: order_insert x l'
  end.

Definition order_by_data_hora (l : list (date * time)) : list (date * time) :=
  fold_right order_insert [] l.

(** The doctors query (lines 144-154): [SELECT DISTINCT m.nif, m.nome] over
    the join of medico, trabalha and clinica. *)
Definition nif_nome_eq_dec (a b : string * string) : {a = b} + {a <> b}.
Proof. decide equality; apply string_dec. Defined.

Definition select_medicos (s : store) (clinica_ especialidade : string)
  : list (string * string) :=
  nodup nif_nome_eq_dec
    (flat_map (fun m =>
       flat_map (fun t =>
         flat_map (fun c =>
           if String.eqb (medico_nif m) (trabalha_nif t)
              && String.eqb (trabalha_nome t) (clinica_nome c)
              && String.eqb (clinica_nome c) clinica_
              && String.eqb (medico_especialidade m) especialidade
           then [(medico_nif m, medico_nome m)] else [])
         (clinica s))
       (trabalha s))
     (medico s)).

(** Lines 160-168. *)
Definition select_dias_da_semana (s : store) (nif clinica_ : string) : list Z :=
  map trabalha_dia_da_semana
    (filter (fun t => String.eqb (trabalha_nif t) nif
                      && String.eqb (trabalha_nome t) clinica_)
            (trabalha s)).

(** Lines 171-180. *)
Definition select_consultas_existentes (s : store) (nif : string)
    (now : datetime) : list (date * time) :=
  order_by_data_hora
    (map (fun k => (consulta_data k, consulta_hora k))
       (filter (fun k =>
          String.eqb (consulta_nif k) nif
          && ((consulta_data k >? dt_date now)
              || ((consulta_data k =? dt_date now)
                  && (consulta_hora k >? dt_time now))))
        (consulta s))).

(** The [for horario in horarios_possiveis] loop (lines 192-196). *)
Fixpoint for_horarios (now : datetime) (consultas_existentes : list (date * time))
    (horarios_possiveis horarios_disponiveis : list datetime) : list datetime :=
  match horarios_possiveis with
  | [] => horarios_disponiveis
  | horario :: rest =>
      if Z.of_nat (List.length horarios_disponiveis) >=? 3 then
        horarios_disponiveis
      else if (horario >? now)
              && forallb (fun c => negb (horario =? combine (fst c) (snd c)))
                   consultas_existentes
      then for_horarios now consultas_existentes rest
             (horarios_disponiveis ++ [horario])
      else for_horarios now consultas_existentes rest horarios_disponiveis
  end.

(** The [while len(horarios_disponiveis) < 3] loop (lines 184-198). *)
Fixpoint scan (fuel : nat) (now : datetime) (dias_da_semana : list Z)
    (consultas_existentes : list (date * time))
    (horarios_disponiveis : list datetime) (data_atual : date)
  : run (list datetime) :=
  match fuel with
  | O => None
  | S fuel' =>
      if Z.of_nat (List.length horarios_disponiveis) <? 3 then
        horarios_disponiveis <-
          (if existsb (Z.eqb (weekday data_atual)) dias_da_semana then
             horarios_possiveis <-
               gerar_horarios_disponiveis fuel
                 (combine data_atual inicio_horario)
                 (combine data_atual fim_horario)
                 intervalo_minutos ;;
             ret (for_horarios now consultas_existentes horarios_possiveis
                    horarios_disponiveis)
           else ret horarios_disponiveis) ;;
        data_atual <- lift (date_add data_atual (timedelta_days 1)) ;;
        scan fuel' now dias_da_semana consultas_existentes
          horarios_disponiveis data_atual
      else ret horarios_disponiveis
  end.

(** Lines 159-203 for one doctor: the slots listed for [nif]. *)
Definition horarios_medico (fuel : nat) (now : datetime) (s : store)
    (clinica_ nif : string) : run (list datetime) :=
  let dias_da_semana := select_dias_da_semana s nif clinica_ in
  let consultas_existentes := select_consultas_existentes s nif now in
  scan fuel now dias_da_semana consultas_existentes [] (dt_date now).

(** The [for medico in medicos] loop (lines 158-204). *)
Fixpoint for_medicos (fuel : nat) (now : datetime) (s : store) (clinica_ : string)
    (medicos : list (string * string))
    (resultado : list (string * list (date * time)))
  : run (list (string * list (date * time))) :=
  match medicos with
  | [] => ret resultado
  | (nif, nome) :: rest =>
      horarios_disponiveis <- horarios_medico fuel now s clinica_ nif ;;
      for_medicos fuel now s clinica_ rest
        (resultado ++
           [(nome +s " (" +s nif +s ")",
             map (fun h => (dt_date h, dt_time h)) horarios_disponiveis)])
  end.

Definition lista_medicos_clinica_especialidade (fuel : nat) (now : datetime)
    (s : store) (clinica_ especialidade : string) : run resposta :=
  let clinica_existe :=
    count (fun c => String.eqb (clinica_nome c) clinica_) (clinica s) >? 0 in
  if clinica_existe then
    let medicos := select_medicos s clinica_ especialidade in
    match medicos with
    | _ :: _ =>
        resultado <- for_medicos fuel now s clinica_ medicos [] ;;
        ret (Medicos resultado, 200)
    | [] =>
        ret (erro ("Especialidade não existente na " +s clinica_ +s ": "
                   +s especialidade) 404)
    end
  else
    ret (erro ("Clínica não existente no sistema: " +s clinica_) 404).

(** *** Database calls and transactions

    A request numbers its database calls 0, 1, 2, ... in the order it
    makes them; the COMMIT that leaves [with conn.transaction()] is a call
    too.  [falha k = Some msg] makes call [k] fail with an error whose text
    is [msg]: this is how the store's own failures (lost connection,
    constraint or trigger of the schema, serialization failure) enter. *)

Definition falhas : Type := nat -> option string.

Definition sem_falhas : falhas := fun _ => None.

Definition db (A : Type) : Type := store * nat -> result (A * (store * nat)).

Definition db_ret {A} (a : A) : db A := fun st => inr (a, st).

Definition db_bind {A B} (c : db A) (k : A -> db B) : db B :=
  fun st => match c st with
            | inl e => inl e
            | inr (a, st') => k a st'
            end.

Definition db_lift {A} (r : result A) : db A :=
  fun st => match r with inl e => inl e | inr a => inr (a, st) end.

Notation "x <-- c ;; k" := (db_bind c (fun x => k))
  (at level 61, c at next level, right associativity).

(** [cur.execute(stmt)] followed by the fetch of its result. *)
Definition execute {A} (falha : falhas) (stmt : store -> result (A * store))
  : db A :=
  fun st =>
    let '(s, k) := st in
    match falha k with
    | Some msg => inl (DatabaseError msg)
    | None =>
        match stmt s with
        | inl e => inl e
        | inr (a, s') => inr (a, (s', S k))
        end
    end.

(** [with conn.transaction(): block]: COMMIT when the block returns,
    ROLLBACK to the state at entry when the block or the COMMIT raises;
    the exception goes on to the caller. *)
Definition transaction {A} (falha : falhas) (block : db A) (s : store)
  : result A * store :=
  match block (s, O) with
  | inl e => (inl e, s)
  | inr (a, (s', k)) =>
      match falha k with
      | Some msg => (inl (DatabaseError msg), s)
      | None => (inr a, s')
      end
  end.

(** A statement that only reads. *)
Definition select {A} (q : store -> A) : store -> result (A * store) :=
  fun s => inr (q s, s).

(** The store's casts of a text parameter to [date] and to [time]
    (PostgreSQL's input of the two types, which is not part of app.py).  Of
    the texts [strptime] accepts, the store reads those written with the
    ASCII digits and the separator alone, as the same date or time; a day
    written with a leading blank, or a digit of another script, is
    "invalid input syntax".  The text of the error stands for the store's
    message, which names the type and quotes the parameter. *)
Definition texto_simples (separador : ascii) (x : string) : bool :=
  forallb (fun c => in_range "0" "9" c || (c =? N_of_ascii separador)%N)
    (codepoints x).

Definition sql_date (data : string) : result date :=
  match strptime data "%Y-%m-%d" with
  | inr x =>
      if texto_simples "-" data then inr (dt_date x)
      else inl (DatabaseError "invalid input syntax for type date")
  | inl _ => inl (DatabaseError "invalid input syntax for type date")
  end.

Definition sql_time (hora : string) : result time :=
  match strptime hora "%H:%M:%S" with
  | inr x =>
      if texto_simples ":" hora then inr (dt_time x)
      else inl (DatabaseError "invalid input syntax for type time")
  | inl _ => inl (DatabaseError "invalid input syntax for type time")
  end.

Definition select_data_hora {A} (data hora : string)
    (q : date -> time -> store -> A) : store -> result (A * store) :=
  fun s =>
    match sql_date data, sql_time hora with
    | inl e, _ => inl e
    | _, inl e => inl e
    | inr d, inr h => inr (q d h s, s)
    end.

Definition lista_dias_da_semana : list string :=
  ["segunda-feira"; "terça-feira"; "quarta-feira"; "quinta-feira";
   "sexta-feira"; "sábado"; "domingo"].

(** [datetime.strptime(data, '%Y-%m-%d').weekday()] *)
Definition weekday_of (data : string) : result Z :=
  match strptime data "%Y-%m-%d" with
  | inr x => inr (weekday (dt_date x))
  | inl e => inl e
  end.

(** [cur.fetchone().nif] *)
Definition fetchone_nif (rows : list paciente_row) : result string :=
  match rows with
  | r :: _ => inr (paciente_nif r)
  | [] => inl (AttributeError "'NoneType' object has no attribute 'nif'")
  end.

(** The statements of the two operations. *)

Definition count_clinica (clinica_ : string) (s : store) : Z :=
  count (fun c => String.eqb (clinica_nome c) clinica_) (clinica s).

Definition count_paciente (ssn : string) (s : store) : Z :=
  count (fun p => String.eqb (paciente_ssn p) ssn) (paciente s).

Definition count_medico (nif : string) (s : store) : Z :=
  count (fun m => String.eqb (medico_nif m) nif) (medico s).

Definition count_trabalha (medico_ clinica_ : string) (dia_da_semana : Z)
    (s : store) : Z :=
  count (fun t => String.eqb (trabalha_nif t) medico_
                  && String.eqb (trabalha_nome t) clinica_
                  && (trabalha_dia_da_semana t =? dia_da_semana))
        (trabalha s).

Definition count_consulta_medico (medico_ : string) (data : date) (hora : time)
    (s : store) : Z :=
  count (fun k => String.eqb (consulta_nif k) medico_
                  && (consulta_data k =? data) && (consulta_hora k =? hora))
        (consulta s).

Definition count_consulta_paciente (paciente_ : string) (data : date)
    (hora : time) (s : store) : Z :=
  count (fun k => String.eqb (consulta_ssn k) paciente_
                  && (consulta_data k =? data) && (consulta_hora k =? hora))
        (consulta s).

Definition select_paciente (ssn : string) (s : store) : list paciente_row :=
  filter (fun p => String.eqb (paciente_ssn p) ssn) (paciente s).

(** [INSERT INTO consulta (id, ssn, nif, nome, data, hora) VALUES (DEFAULT, ...)] *)
Definition insert_consulta (paciente_ medico_ clinica_ : string)
    (data : date) (hora : time) (s : store) : store :=
  {| clinica := clinica s; medico := medico s; trabalha := trabalha s;
     paciente := paciente s;
     consulta := consulta s ++
       [{| consulta_id := consulta_id_seq s; consulta_ssn := paciente_;
           consulta_nif := medico_; consulta_nome := clinica_;
           consulta_data := data; consulta_hora := hora |}];
     consulta_id_seq := consulta_id_seq s + 1 |}.

Definition insert_stmt (paciente_ medico_ clinica_ data hora : string)
  : store -> result (unit * store) :=
  fun s =>
    match sql_date data, sql_time hora with
    | inl e, _ => inl e
    | _, inl e => inl e
    | inr d, inr h => inr (tt, insert_consulta paciente_ medico_ clinica_ d h s)
    end.

(** The WHERE clause of the DELETE (lines 480-485). *)
Definition consulta_match (paciente_ medico_ clinica_ : string)
    (data : date) (hora : time) (k : consulta_row) : bool :=
  String.eqb (consulta_ssn k) paciente_
  && String.eqb (consulta_nif k) medico_
  && String.eqb (consulta_nome k) clinica_
  && (consulta_data k =? data) && (consulta_hora k =? hora).

Definition delete_consulta (paciente_ medico_ clinica_ : string)
    (data : date) (hora : time) (s : store) : store :=
  {| clinica := clinica s; medico := medico s; trabalha := trabalha s;
     paciente := paciente s;
     consulta :=
       filter (fun k => negb (consulta_match paciente_ medico_ clinica_ data hora k))
              (consulta s);
     consulta_id_seq := consulta_id_seq s |}.

(** The DELETE and its [cur.rowcount]. *)
Definition delete_stmt (paciente_ medico_ clinica_ data hora : string)
  : store -> result (Z * store) :=
  fun s =>
    match sql_date data, sql_time hora with
    | inl e, _ => inl e
    | _, inl e => inl e
    | inr d, inr h =>
        inr (count (consulta_match paciente_ medico_ clinica_ d h) (consulta s),
             delete_consulta paciente_ medico_ clinica_ d h s)
    end.

(** *** marca_consulta (lines 213-389) *)

(** The block under [with conn.transaction()] (lines 263-386); its value is
    the variable [message]. *)
Definition marca_transacao (falha : falhas)
    (clinica_ paciente_ medico_ data hora : string) : db resposta :=
  n <-- execute falha (select (count_clinica clinica_)) ;;
  let clinica_existe := n >? 0 in
  if clinica_existe then
    n <-- execute falha (select (count_paciente paciente_)) ;;
    let paciente_existe := n >? 0 in
    if paciente_existe then
      n <-- execute falha (select (count_medico medico_)) ;;
      let medico_existe := n >? 0 in
      if medico_existe then
        dia_da_semana <-- db_lift (weekday_of data) ;;
        n <-- execute falha (select (count_trabalha medico_ clinica_ dia_da_semana)) ;;
        let medico_na_clinica := n >? 0 in
        if medico_na_clinica then
          n <-- execute falha
                  (select_data_hora data hora (count_consulta_medico medico_)) ;;
          let medico_tem_consulta := n >? 0 in
          if negb medico_tem_consulta then
            n <-- execute falha
                    (select_data_hora data hora (count_consulta_paciente paciente_)) ;;
            let paciente_tem_consulta := n >? 0 in
            if negb paciente_tem_consulta then
              rows <-- execute falha (select (select_paciente paciente_)) ;;
              paciente_nif_ <-- db_lift (fetchone_nif rows) ;;
              if negb (String.eqb paciente_nif_ medico_) then
                _ <-- execute falha
                        (insert_stmt paciente_ medico_ clinica_ data hora) ;;
                db_ret
                  (Mensagem
                     ("Marcou consulta: paciente: " +s paciente_
                      +s "; medico: " +s medico_
                      +s "; clínica: " +s clinica_
                      +s "; hora: " +s hora
                      +s "; data: " +s data +s ".")
                     (Some "success"), 200)
              else
                db_ret (erro "O médico não se pode consultar a si próprio." 400)
            else
              db_ret (erro ("O paciente já tem uma consulta no horário especificado: "
                            +s hora +s " " +s data) 400)
          else
            db_ret (erro ("O médico já tem uma consulta no horário especificado: "
                          +s hora +s " " +s data) 400)
        else
          dia <-- db_lift (weekday_of data) ;;
          db_ret (erro ("O médico não dá consultas na clínica no dia da semana: "
                        +s nth (Z.to_nat dia) lista_dias_da_semana "") 400)
      else
        db_ret (erro ("Médico não existente no sistema: " +s medico_) 400)
    else
      db_ret (erro ("Paciente não existente no sistema: " +s paciente_) 400)
  else
    db_ret (erro ("Clínica não existente no sistema: " +s clinica_) 404).

(** The whole handler.  [inl] is an exception that leaves the handler
    (no run analysed below ever meets one); the store in the
    result is the state of the database after the request. *)
Definition marca_consulta (falha : falhas) (now : datetime) (s : store)
    (clinica_ : string) (paciente_ medico_ data hora : arg)
  : result (resposta * store) :=
  match validar_marca now paciente_ medico_ data hora with
  | inl e => inl e
  | inr (Some error) => inr (erro error 400, s)
  | inr None =>
      match transaction falha
              (marca_transacao falha clinica_ (str paciente_) (str medico_)
                 (str data) (str hora)) s with
      | (inl e, s') => inr (erro (str_exn e) 500, s')
      | (inr message, s') => inr (message, s')
      end
  end.

(** *** cancela_consulta (lines 392-507) *)

(** The block under [with conn.transaction()] (lines 441-504). *)
Definition cancela_transacao (falha : falhas)
    (clinica_ paciente_ medico_ data hora : string) : db resposta :=
  n <-- execute falha (select (count_clinica clinica_)) ;;
  let clinica_existe := n >? 0 in
  if clinica_existe then
    n <-- execute falha (select (count_paciente paciente_)) ;;
    let paciente_existe := n >? 0 in
    if paciente_existe then
      n <-- execute falha (select (count_medico medico_)) ;;
      let medico_existe := n >? 0 in
      if medico_existe then
        rowcount <-- execute falha
                       (delete_stmt paciente_ medico_ clinica_ data hora) ;;
        if rowcount >? 0 then
          db_ret
            (Mensagem
               ("Cancelou consulta: paciente: " +s paciente_
                +s "; medico: " +s medico_
                +s "; clínica: " +s clinica_
                +s "; hora: " +s hora
                +s "; data " +s data +s ".")
               None, 200)
        else
          db_ret (erro "Não foi encontrada nenhuma consulta para os parâmetros especificados." 400)
      else
        db_ret (erro ("Médico não existente no sistema: " +s medico_) 400)
    else
      db_ret (erro ("Paciente não existente no sistema: " +s paciente_) 400)
  else
    db_ret (erro ("Clínica não existente no sistema: " +s clinica_) 404).

Definition cancela_consulta (falha : falhas) (now : datetime) (s : store)
    (clinica_ : string) (paciente_ medico_ data hora : arg)
  : result (resposta * store) :=
  match validar_cancela now paciente_ medico_ data hora with
  | inl e => inl e
  | inr (Some error) => inr (erro error 400, s)
  | inr None =>
      match transaction falha
              (cancela_transacao falha clinica_ (str paciente_) (str medico_)
                 (str data) (str hora)) s with
      | (inl e, s') => inr (erro (str_exn e) 500, s')
      | (inr message, s') => inr (message, s')
      end
  end.

(** *** lista_clinicas (lines 60-74) and lista_especialidades_clinica
    (lines 78-113) *)

(** The bodies of the two plain listings. *)
Inductive listagem : Type :=
| Clinicas (rows : list (string * string))
| Especialidades (l : list string)
| Corpo (b : body).

(** [SELECT nome, morada FROM clinica] *)
Definition lista_clinicas (s : store) : listagem * Z :=
  (Clinicas (map (fun c => (clinica_nome c, clinica_morada c)) (clinica s)), 200).

(** [SELECT DISTINCT m.especialidade] over the join of clinica, trabalha
    and medico (lines 98-107). *)
Definition select_especialidades (s : store) (clinica_ : string) : list string :=
  nodup string_dec
    (flat_map (fun c =>
       flat_map (fun t =>
         flat_map (fun m =>
           if String.eqb (clinica_nome c) (trabalha_nome t)
              && String.eqb (trabalha_nif t) (medico_nif m)
              && String.eqb (clinica_nome c) clinica_
           then [medico_especialidade m] else [])
         (medico s))
       (trabalha s))
     (clinica s)).

Definition lista_especialidades_clinica (s : store) (clinica_ : string)
  : listagem * Z :=
  let clinica_existe := count_clinica clinica_ s >? 0 in
  if clinica_existe then
    (Especialidades (select_especialidades s clinica_), 200)
  else
    (Corpo (Mensagem ("Clínica não existente no sistema: " +s clinica_)
              (Some "error")), 404).

(* ===================================================================== *)
(** ** Definitions used to state the properties *)
(* ===================================================================== *)

(** The instants the generator keeps. *)
Definition fora_do_almoco (t : datetime) : bool :=
  negb (dt_time t =? lunch_1300) && negb (dt_time t =? lunch_1330).

(** Number of iterations of the generator's loop: the least [n] with
    [fim <= inicio + n * delta]. *)
Definition passos (inicio fim : datetime) (delta : timedelta) : nat :=
  Z.to_nat ((fim - inicio + delta - 1) / delta).

(** The candidates [inicio + k * delta] below [fim]. *)
Definition candidatos (inicio fim : datetime) (delta : timedelta)
  : list datetime :=
  map (fun k => inicio + Z.of_nat k * delta) (seq 0 (passos inicio fim delta)).


(** A slot the scan may list: after [now], on a working weekday, and at
    the instant of none of the appointments fetched. *)
Definition livre (now : datetime) (dias_da_semana : list Z)
    (consultas_existentes : list (date * time)) (h : datetime) : Prop :=
  now < h
  /\ In (weekday (dt_date h)) dias_da_semana
  /\ forall c, In c consultas_existentes -> h <> combine (fst c) (snd c).

(** Chronological order on (date, time) pairs. *)
Definition antes (a b : date * time) : Prop :=
  fst a < fst b \/ (fst a = fst b /\ snd a < snd b).

(** Fuel that suffices for the scan started at [now]: one unit per day
    left in the calendar, and the 22 steps of a day's generator. *)
Definition fuel_scan (now : datetime) : nat :=
  (Z.to_nat (MAXORDINAL + 1 - dt_date now) + 23)%nat.

(** *** The validator's rules, in the order and words of the specification *)

(** The parameter is present. *)
Definition presente (x : arg) : bool := negb (py_not x).

(** Exactly [n] characters, all digit characters ([str.isdigit]). *)
Definition n_digitos (n : Z) (x : arg) : bool :=
  (len x =? n) && forallb is_digit_char (codepoints (str x)).

(** Exactly [n] characters, all decimal digits ([str.isdecimal]). *)
Definition n_decimais (n : Z) (x : arg) : bool :=
  (len x =? n) && forallb is_decimal (codepoints (str x)).

(** Exactly [n] characters, each one of "0", ..., "9". *)
Definition n_algarismos (n : Z) (x : arg) : bool :=
  (len x =? n) && forallb (in_range "0" "9") (codepoints (str x)).

(** Every character of the text is an ASCII character. *)
Definition so_ascii (x : arg) : bool :=
  forallb (fun c => (c <? 128)%N) (codepoints (str x)).

(** The instant and the time of day a (date, time) pair of parameters
    denotes. *)
Definition hora_do_dia (hora : arg) : time :=
  dt_time (value (strptime (str hora) "%H:%M:%S")).

Definition instante (data hora : arg) : datetime :=
  combine (dt_date (value (strptime (str data) "%Y-%m-%d"))) (hora_do_dia hora).

Definition regra_paciente (paciente : arg) : bool :=
  presente paciente && n_digitos 11 paciente.

Definition regra_medico (medico_ : arg) : bool :=
  presente medico_ && n_digitos 9 medico_.

Definition regra_data (data : arg) : bool :=
  presente data && verificar_formato_data (str data) "%Y-%m-%d".

Definition regra_hora (hora : arg) : bool :=
  presente hora && verificar_formato_data (str hora) "%H:%M:%S".

(** Not strictly before [now]. *)
Definition regra_passado (now : datetime) (data hora : arg) : bool :=
  negb (instante data hora <? now).

(** Inside [08:00:00, 13:00:00) or [14:00:00, 19:00:00). *)
Definition na_janela (t : time) : bool :=
  ((mk_time 8 0 0 <=? t) && (t <? mk_time 13 0 0))
  || ((mk_time 14 0 0 <=? t) && (t <? mk_time 19 0 0)).

Definition regra_janela (hora : arg) : bool := na_janela (hora_do_dia hora).

Definition erro_paciente (paciente : arg) : string :=
  if presente paciente then "Formato inválido para o campo paciente."
  else "O campo paciente precisa de estar preenchido.".

Definition erro_medico (medico_ : arg) : string :=
  if presente medico_ then "Formato inválido para o campo medico."
  else "O campo medico precisa de estar preenchido.".

Definition erro_data (data : arg) : string :=
  if presente data
  then "Formato inválido para o campo data. Formato esperado: YYYY-MM-DD"
  else "O campo data precisa de estar preenchido.".

Definition erro_hora (hora : arg) : string :=
  if presente hora
  then "Formato inválido para o campo hora. Formato esperado: HH:MM:SS"
  else "O campo hora precisa de estar preenchido.".

Definition erro_passado (data hora : arg) : string :=
  "O horário inserido não pode ser no passado: " +s str hora +s " " +s str data.

Definition erro_janela : string :=
  "O horário inserido deve estar no horário 8-13h e 14-19h.".

(** The error of the first rule that fails, if one does. *)
Fixpoint primeira_falha {E : Type} (regras : list (bool * E)) : option E :=
  match regras with
  | [] => None
  | (passa, e) :: resto => if passa then primeira_falha resto else Some e
  end.

Definition regras_validacao (now : datetime) (paciente medico_ data hora : arg)
  : list (bool * string) :=
  [ (regra_paciente paciente, erro_paciente paciente);
    (regra_medico medico_, erro_medico medico_);
    (regra_data data, erro_data data);
    (regra_hora hora, erro_hora hora);
    (regra_passado now data hora, erro_passado data hora);
    (regra_janela hora, erro_janela) ].

(** *** The checks of booking and cancellation, in the words of the
    specification *)

Definition data_de (data : string) : date :=
  dt_date (value (strptime data "%Y-%m-%d")).

Definition hora_de (hora : string) : time :=
  dt_time (value (strptime hora "%H:%M:%S")).

Definition existe_clinica (s : store) (clinica_ : string) : bool :=
  existsb (fun c => String.eqb (clinica_nome c) clinica_) (clinica s).

Definition existe_paciente (s : store) (ssn : string) : bool :=
  existsb (fun p => String.eqb (paciente_ssn p) ssn) (paciente s).

Definition existe_medico (s : store) (nif : string) : bool :=
  existsb (fun m => String.eqb (medico_nif m) nif) (medico s).

(** The doctor has a row in [trabalha] for the clinic and the weekday. *)
Definition trabalha_no_dia (s : store) (medico_ clinica_ : string) (dia : Z)
  : bool :=
  existsb (fun t => String.eqb (trabalha_nif t) medico_
                    && String.eqb (trabalha_nome t) clinica_
                    && (trabalha_dia_da_semana t =? dia))
          (trabalha s).

Definition medico_ocupado (s : store) (medico_ : string) (d : date) (h : time)
  : bool :=
  existsb (fun k => String.eqb (consulta_nif k) medico_
                    && (consulta_data k =? d) && (consulta_hora k =? h))
          (consulta s).

Definition paciente_ocupado (s : store) (paciente_ : string) (d : date)
    (h : time) : bool :=
  existsb (fun k => String.eqb (consulta_ssn k) paciente_
                    && (consulta_data k =? d) && (consulta_hora k =? h))
          (consulta s).

(** The [nif] column of the patient's row. *)
Definition nif_do_paciente (s : store) (ssn : string) : option string :=
  match find (fun p => String.eqb (paciente_ssn p) ssn) (paciente s) with
  | Some p => Some (paciente_nif p)
  | None => None
  end.

Definition nif_difere (s : store) (paciente_ medico_ : string) : bool :=
  match nif_do_paciente s paciente_ with
  | Some nif => negb (String.eqb nif medico_)
  | None => true
  end.

Definition nome_do_dia (data : string) : string :=
  nth (Z.to_nat (weekday (data_de data))) lista_dias_da_semana "".

(** The seven checks of a booking, each with the error its failure gives. *)
Definition verificacoes_marca (s : store)
    (clinica_ paciente_ medico_ data hora : string) : list (bool * resposta) :=
  [ (existe_clinica s clinica_,
     erro ("Clínica não existente no sistema: " +s clinica_) 404);
    (existe_paciente s paciente_,
     erro ("Paciente não existente no sistema: " +s paciente_) 400);
    (existe_medico s medico_,
     erro ("Médico não existente no sistema: " +s medico_) 400);
    (trabalha_no_dia s medico_ clinica_ (weekday (data_de data)),
     erro ("O médico não dá consultas na clínica no dia da semana: "
           +s nome_do_dia data) 400);
    (negb (medico_ocupado s medico_ (data_de data) (hora_de hora)),
     erro ("O médico já tem uma consulta no horário especificado: "
           +s hora +s " " +s data) 400);
    (negb (paciente_ocupado s paciente_ (data_de data) (hora_de hora)),
     erro ("O paciente já tem uma consulta no horário especificado: "
           +s hora +s " " +s data) 400);
    (nif_difere s paciente_ medico_,
     erro "O médico não se pode consultar a si próprio." 400) ].

Definition sucesso_marca (clinica_ paciente_ medico_ data hora : string)
  : resposta :=
  (Mensagem ("Marcou consulta: paciente: " +s paciente_
             +s "; medico: " +s medico_ +s "; clínica: " +s clinica_
             +s "; hora: " +s hora +s "; data: " +s data +s ".")
            (Some "success"), 200).

(** The three checks of a cancellation. *)
Definition verificacoes_cancela (s : store) (clinica_ paciente_ medico_ : string)
  : list (bool * resposta) :=
  [ (existe_clinica s clinica_,
     erro ("Clínica não existente no sistema: " +s clinica_) 404);
    (existe_paciente s paciente_,
     erro ("Paciente não existente no sistema: " +s paciente_) 400);
    (existe_medico s medico_,
     erro ("Médico não existente no sistema: " +s medico_) 400) ].

Definition sucesso_cancela (clinica_ paciente_ medico_ data hora : string)
  : resposta :=
  (Mensagem ("Cancelou consulta: paciente: " +s paciente_
             +s "; medico: " +s medico_ +s "; clínica: " +s clinica_
             +s "; hora: " +s hora +s "; data " +s data +s ".")
            None, 200).

Definition erro_sem_consulta : resposta :=
  erro "Não foi encontrada nenhuma consulta para os parâmetros especificados." 400.

(** Number of checks that pass before the first that fails. *)
Fixpoint passam {E : Type} (regras : list (bool * E)) : nat :=
  match regras with
  | [] => O
  | (passa, _) :: resto => if passa then S (passam resto) else O
  end.

(** The store reads the date and time texts of a request. *)
Definition store_le (data hora : string) : bool :=
  match sql_date data, sql_time hora with
  | inr _, inr _ => true
  | _, _ => false
  end.

(** The error of the cast the store refuses. *)
Definition erro_cast (data hora : string) : exn :=
  match sql_date data, sql_time hora with
  | inl e, _ => e
  | _, inl e => e
  | _, _ => DatabaseError ""
  end.

(** Database calls a booking makes when the oracle fails none: one
    statement per check up to and including the first that fails, the
    INSERT when all seven pass, and the COMMIT; but when the store cannot
    read the date or time text, the fifth statement, the first to carry
    them, is the last call. *)
Definition chamadas_marca (s : store)
    (clinica_ paciente_ medico_ data hora : string) : nat :=
  if negb (store_le data hora)
     && (4 <=? passam (verificacoes_marca s clinica_ paciente_ medico_ data hora))%nat
  then 5%nat
  else
    match primeira_falha (verificacoes_marca s clinica_ paciente_ medico_ data hora) with
    | Some _ =>
        S (S (passam (verificacoes_marca s clinica_ paciente_ medico_ data hora)))
    | None => 9%nat
    end.

(** Database calls a cancellation makes when the oracle fails none: one
    statement per check up to and including the first that fails, the
    DELETE when all three pass, and the COMMIT; but when the store cannot
    read the date or time text, the DELETE is the last call. *)
Definition chamadas_cancela (s : store)
    (clinica_ paciente_ medico_ data hora : string) : nat :=
  if negb (store_le data hora)
     && (3 <=? passam (verificacoes_cancela s clinica_ paciente_ medico_))%nat
  then 4%nat
  else
    match primeira_falha (verificacoes_cancela s clinica_ paciente_ medico_) with
    | Some _ => S (S (passam (verificacoes_cancela s clinica_ paciente_ medico_)))
    | None => 5%nat
    end.

(** The text of the first failing call among calls [k], ..., [k + n - 1]. *)
Fixpoint primeira_avaria (falha : falhas) (k n : nat) : option string :=
  match n with
  | O => None
  | S n' =>
      match falha k with
      | Some msg => Some msg
      | None => primeira_avaria falha (S k) n'
      end
  end.

(** *** The slots a doctor can be offered *)

(** The instants of day [d] the generator yields for the working hours. *)
Definition grelha_do_dia (d : date) : list datetime :=
  filter fora_do_almoco
    (candidatos (combine d inicio_horario) (combine d fim_horario)
       (timedelta_minutes intervalo_minutos)).

(** An instant the scan could list: one of its day's generated instants,
    after [now], on a working weekday, at none of the appointments. *)
Definition oferecivel (now : datetime) (dias_da_semana : list Z)
    (consultas_existentes : list (date * time)) (h : datetime) : Prop :=
  In h (grelha_do_dia (dt_date h))
  /\ livre now dias_da_semana consultas_existentes h.

(** The numbers of the half-hours of a working day that are kept: 08:00 is
    number 0, 18:30 number 21, and 13:00 and 13:30 (10 and 11) are left out. *)
Definition meias_horas : list nat :=
  [0; 1; 2; 3; 4; 5; 6; 7; 8; 9; 12; 13; 14; 15; 16; 17; 18; 19; 20; 21]%nat.

(** *** Invariants of the table of appointments *)

(** No doctor has two appointments at the same date and time. *)
Definition medico_sem_sobreposicao (s : store) : Prop :=
  NoDup (map (fun k => (consulta_nif k, consulta_data k, consulta_hora k))
           (consulta s)).

(** No patient has two appointments at the same date and time. *)
Definition paciente_sem_sobreposicao (s : store) : Prop :=
  NoDup (map (fun k => (consulta_ssn k, consulta_data k, consulta_hora k))
           (consulta s)).

(** No appointment has a doctor whose [nif] is the [nif] of the patient's
    row. *)
Definition sem_auto_consulta (s : store) : Prop :=
  forall k, In k (consulta s) ->
    nif_do_paciente s (consulta_ssn k) <> Some (consulta_nif k).

(** The test of the inner loop (line 195): after [now] and at none of the
    appointments fetched. *)
Definition aceitavel (now : datetime) (consultas_existentes : list (date * time))
    (horario : datetime) : bool :=
  (horario >? now)
  && forallb (fun c => negb (horario =? combine (fst c) (snd c)))
       consultas_existentes.

(** *** Sample data: one clinic, one cardiologist who works there on
    Mondays, one patient; the clock reads 2025-01-05 09:15 (a Sunday), so
    [now] is 10:15. *)

Definition dia_2025_01_05 : date := 739256.
Definition dia_2025_01_06 : date := 739257.

Definition ex_now : datetime := combine dia_2025_01_05 (mk_time 10 15 0).

Definition ex_inicio : datetime := combine dia_2025_01_06 (mk_time 12 0 0).
Definition ex_fim : datetime := combine dia_2025_01_06 (mk_time 14 30 0).

Definition ex_store : store :=
  {| clinica := [{| clinica_nome := "Clinica A"; clinica_morada := "Rua 1" |}];
     medico := [{| medico_nif := "123456789"; medico_nome := "Ana";
                   medico_especialidade := "Cardiologia" |}];
     trabalha := [{| trabalha_nif := "123456789"; trabalha_nome := "Clinica A";
                     trabalha_dia_da_semana := 0 |}];
     paciente := [{| paciente_ssn := "12345678901"; paciente_nif := "987654321" |}];
     consulta := [];
     consulta_id_seq := 1 |}.

(** The same clinic when the clock is near the end of the calendar:
    [now] is 9999-12-22 10:15. *)
Definition ex_now_9999 : datetime := combine (MAXORDINAL - 9) (mk_time 10 15 0).

Definition ex_slots : list (date * time) :=
  [(dia_2025_01_06, mk_time 8 0 0); (dia_2025_01_06, mk_time 8 30 0);
   (dia_2025_01_06, mk_time 9 0 0)].

Definition ex_resultado : list (string * list (date * time)) :=
  [("Ana (123456789)", ex_slots)].

(** The store once the patient is booked with the doctor on Monday
    2025-01-06 at 09:00. *)
Definition ex_store_marcada : store :=
  insert_consulta "12345678901" "123456789" "Clinica A"
    dia_2025_01_06 (mk_time 9 0 0) ex_store.

(** The COMMIT of a booking that passes every check fails. *)
Definition ex_falha_commit_marca : falhas :=
  fun k => if Nat.eqb k 8 then Some "could not serialize access" else None.

(** The COMMIT of a cancellation that passes every check fails. *)
Definition ex_falha_commit_cancela : falhas :=
  fun k => if Nat.eqb k 4 then Some "could not serialize access" else None.

(** The three instants listed for the doctor of the sample store. *)
Definition ex_horarios : list datetime :=
  [combine dia_2025_01_06 (mk_time 8 0 0);
   combine dia_2025_01_06 (mk_time 8 30 0);
   combine dia_2025_01_06 (mk_time 9 0 0)].

(** Fuel for a scan that ends on the day after [ex_now]. *)
Definition ex_fuel : nat := 25.

(* ===================================================================== *)
(** ** Facts about instants *)
(* ===================================================================== *)

Lemma US_PER_DAY_pos : 0 < US_PER_DAY.
Proof. reflexivity. Qed.

Lemma combine_date_time (x : datetime) : combine (dt_date x) (dt_time x) = x.
Proof.
  unfold combine, dt_date, dt_time.
  rewrite (Z.div_mod x US_PER_DAY) at 3 by (pose proof US_PER_DAY_pos; lia).
  lia.
Qed.

Lemma dt_time_range (x : datetime) : 0 <= dt_time x < US_PER_DAY.
Proof. apply Z.mod_pos_bound, US_PER_DAY_pos. Qed.

Lemma dt_date_combine (d : date) (t : time) :
  0 <= t < US_PER_DAY -> dt_date (combine d t) = d.
Proof.
  intros Ht. unfold dt_date, combine.
  rewrite Z.add_comm, Z.div_add by (pose proof US_PER_DAY_pos; lia).
  rewrite Z.div_small by exact Ht. reflexivity.
Qed.

Lemma dt_time_combine (d : date) (t : time) :
  0 <= t < US_PER_DAY -> dt_time (combine d t) = t.
Proof.
  intros Ht. unfold dt_time, combine.
  rewrite Z.add_comm, Z.mod_add by (pose proof US_PER_DAY_pos; lia).
  apply Z.mod_small, Ht.
Qed.

Lemma dt_date_mono (x y : datetime) : x <= y -> dt_date x <= dt_date y.
Proof. intros H. apply Z.div_le_mono; [exact US_PER_DAY_pos | exact H]. Qed.

(** Instants compare as (date, time) pairs do. *)
Lemma datetime_lt_lex (x y : datetime) :
  x < y <->
  dt_date x < dt_date y \/ (dt_date x = dt_date y /\ dt_time x < dt_time y).
Proof.
  pose proof (combine_date_time x) as Hx. pose proof (combine_date_time y) as Hy.
  pose proof (dt_time_range x). pose proof (dt_time_range y).
  unfold combine in *. pose proof US_PER_DAY_pos. split; intros; nia.
Qed.

Lemma date_lt_before_midnight (x : datetime) (d : date) :
  dt_date x < d -> x < combine d 0.
Proof.
  intros H. pose proof (combine_date_time x) as Hx.
  pose proof (dt_time_range x). unfold combine in *.
  pose proof US_PER_DAY_pos. nia.
Qed.

(** The constants app.py obtains from [strptime]. *)
Lemma lunch_1300_eq : lunch_1300 = mk_time 13 0 0.
Proof. vm_compute. reflexivity. Qed.

Lemma lunch_1330_eq : lunch_1330 = mk_time 13 30 0.
Proof. vm_compute. reflexivity. Qed.

Lemma inicio_horario_eq : inicio_horario = mk_time 8 0 0.
Proof. vm_compute. reflexivity. Qed.

Lemma fim_horario_eq : fim_horario = mk_time 19 0 0.
Proof. vm_compute. reflexivity. Qed.

(* ===================================================================== *)
(** ** The slot generator *)
(* ===================================================================== *)

Lemma passos_stop (inicio fim delta : Z) :
  0 < delta -> fim <= inicio -> passos inicio fim delta = O.
Proof.
  intros Hd Hle. unfold passos.
  assert ((fim - inicio + delta - 1) / delta <= 0).
  { assert (fim - inicio + delta - 1 < delta) by lia.
    destruct (Z_lt_le_dec (fim - inicio + delta - 1) 0).
    - assert ((fim - inicio + delta - 1) / delta < 0)
        by (apply Z.div_lt_upper_bound; lia). lia.
    - rewrite Z.div_small by lia. lia. }
  lia.
Qed.

Lemma passos_step (inicio fim delta : Z) :
  0 < delta -> inicio < fim ->
  passos inicio fim delta = S (passos (inicio + delta) fim delta).
Proof.
  intros Hd Hlt. unfold passos.
  replace (fim - inicio + delta - 1)
    with ((fim - (inicio + delta) + delta - 1) + 1 * delta) by lia.
  rewrite Z.div_add by lia.
  assert (0 <= (fim - (inicio + delta) + delta - 1) / delta)
    by (apply Z.div_pos; lia).
  rewrite Z2Nat.inj_add by lia. simpl. lia.
Qed.

Lemma candidatos_stop (inicio fim delta : Z) :
  0 < delta -> fim <= inicio -> candidatos inicio fim delta = [].
Proof. intros. unfold candidatos. rewrite passos_stop by assumption. reflexivity. Qed.

Lemma candidatos_step (inicio fim delta : Z) :
  0 < delta -> inicio < fim ->
  candidatos inicio fim delta = inicio :: candidatos (inicio + delta) fim delta.
Proof.
  intros Hd Hlt. unfold candidatos. rewrite passos_step by assumption.
  simpl. f_equal; [lia|].
  rewrite <- seq_shift, map_map. apply map_ext. intros k. lia.
Qed.

(** [passos] is what the definition says: the candidates numbered below it
    are before [fim], the one numbered [passos] is not. *)
Lemma passos_spec (inicio fim delta : Z) (k : nat) :
  0 < delta ->
  (inicio + Z.of_nat k * delta < fim <-> (k < passos inicio fim delta)%nat).
Proof.
  intros Hd. revert inicio. induction k as [|k IH]; intros inicio.
  - destruct (Z_lt_le_dec inicio fim) as [H|H].
    + rewrite passos_step by assumption. split; intros; lia.
    + rewrite passos_stop by assumption. split; intros; lia.
  - destruct (Z_lt_le_dec inicio fim) as [H|H].
    + rewrite passos_step by assumption.
      specialize (IH (inicio + delta)).
      replace (inicio + Z.of_nat (S k) * delta)
        with (inicio + delta + Z.of_nat k * delta) by lia.
      rewrite IH. split; intros; lia.
    + rewrite passos_stop by assumption. split; intros; [nia|lia].
Qed.

(** What the loop returns, whenever it returns. *)
Lemma gerar_loop_ret (fuel : nat) :
  forall horarios inicio fim iv r,
    0 < timedelta_minutes iv ->
    gerar_loop fuel horarios inicio fim iv = Some (inr r) ->
    r = horarios ++ filter fora_do_almoco
                      (candidatos inicio fim (timedelta_minutes iv)).
Proof.
  induction fuel as [|fuel IH]; intros horarios inicio fim iv r Hd Hrun;
    simpl in Hrun; [discriminate|].
  destruct (inicio <? fim) eqn:Hlt.
  - apply Z.ltb_lt in Hlt. rewrite candidatos_step by assumption.
    unfold lift, bind in Hrun.
    destruct (datetime_add inicio (timedelta_minutes iv)) as [e|inicio'] eqn:Hadd;
      [discriminate|].
    unfold datetime_add in Hadd.
    destruct (_ && _) in Hadd; [|discriminate]. injection Hadd as <-.
    apply IH in Hrun; [|assumption]. subst r. simpl.
    fold (fora_do_almoco inicio).
    destruct (fora_do_almoco inicio); [rewrite <- app_assoc|]; reflexivity.
  - apply Z.ltb_ge in Hlt. rewrite candidatos_stop by assumption.
    injection Hrun as <-. simpl. now rewrite app_nil_r.
Qed.

(** The loop returns when no step leaves the range of [datetime]. *)
Lemma gerar_loop_total (n : nat) :
  forall fuel horarios inicio fim iv,
    0 < timedelta_minutes iv ->
    n = passos inicio fim (timedelta_minutes iv) ->
    (n < fuel)%nat ->
    1 <= dt_date inicio ->
    dt_date (inicio + Z.of_nat n * timedelta_minutes iv) <= MAXORDINAL ->
    exists r, gerar_loop fuel horarios inicio fim iv = Some (inr r).
Proof.
  induction n as [|n IH]; intros fuel horarios inicio fim iv Hd Hn Hfuel Hlo Hhi;
    (destruct fuel as [|fuel]; [lia|]); simpl.
  - destruct (inicio <? fim) eqn:Hlt.
    + apply Z.ltb_lt in Hlt. rewrite passos_step in Hn by assumption. discriminate.
    + eexists. reflexivity.
  - destruct (inicio <? fim) eqn:Hlt.
    + apply Z.ltb_lt in Hlt. rewrite passos_step in Hn by assumption.
      injection Hn as Hn.
      assert (Hd1 : 1 <= dt_date (inicio + timedelta_minutes iv)).
      { pose proof (dt_date_mono inicio (inicio + timedelta_minutes iv)). lia. }
      assert (Hd2 : dt_date (inicio + timedelta_minutes iv) <= MAXORDINAL).
      { pose proof (dt_date_mono (inicio + timedelta_minutes iv)
                      (inicio + Z.of_nat (S n) * timedelta_minutes iv)). nia. }
      unfold lift, bind, datetime_add.
      replace (0 <? dt_date (inicio + timedelta_minutes iv)) with true
        by (symmetry; apply Z.ltb_lt; lia).
      replace (dt_date (inicio + timedelta_minutes iv) <=? MAXORDINAL) with true
        by (symmetry; apply Z.leb_le; lia).
      simpl. apply IH; try assumption; try lia.
      replace (inicio + timedelta_minutes iv + Z.of_nat n * timedelta_minutes iv)
        with (inicio + Z.of_nat (S n) * timedelta_minutes iv) by lia.
      assumption.
    + apply Z.ltb_ge in Hlt. rewrite passos_stop in Hn by assumption. discriminate.
Qed.

(** The loop ends, one way or the other, for every positive interval. *)
Lemma gerar_loop_terminates (n : nat) :
  forall fuel horarios inicio fim iv,
    0 < timedelta_minutes iv ->
    fim - inicio <= Z.of_nat n * timedelta_minutes iv ->
    (n < fuel)%nat ->
    exists r, gerar_loop fuel horarios inicio fim iv = Some r.
Proof.
  induction n as [|n IH]; intros fuel horarios inicio fim iv Hd Hn Hfuel;
    (destruct fuel as [|fuel]; [lia|]); simpl.
  - replace (inicio <? fim) with false by (symmetry; apply Z.ltb_ge; lia).
    eexists. reflexivity.
  - destruct (inicio <? fim); [|eexists; reflexivity].
    unfold lift, bind.
    destruct (datetime_add inicio (timedelta_minutes iv)) as [e|inicio'] eqn:Hadd;
      [eexists; reflexivity|].
    unfold datetime_add in Hadd.
    destruct (_ && _) in Hadd; [|discriminate]. injection Hadd as <-.
    apply IH; try assumption; lia.
Qed.

Lemma sorted_app (l1 l2 : list Z) :
  StronglySorted Z.lt (l1 ++ l2) <->
  StronglySorted Z.lt l1 /\ StronglySorted Z.lt l2 /\
  (forall x y, In x l1 -> In y l2 -> x < y).
Proof.
  induction l1 as [|a l1 IH]; simpl.
  - split.
    + intros H. repeat split; [constructor | assumption | contradiction].
    + intros (_ & H & _). assumption.
  - split.
    + intros H. inversion H as [|? ? Hs Hall]; subst.
      apply IH in Hs as (H1 & H2 & H12).
      rewrite Forall_app in Hall. destruct Hall as [Ha1 Ha2].
      repeat split; [constructor; assumption | assumption |].
      intros x y [<-|Hx] Hy; [|auto].
      rewrite Forall_forall in Ha2. auto.
    + intros (H1 & H2 & H12). inversion H1 as [|? ? Hs Hall]; subst.
      constructor.
      * apply IH. repeat split; auto.
      * rewrite Forall_app. split; [assumption|].
        rewrite Forall_forall. intros y Hy. apply H12; auto.
Qed.

Lemma sorted_filter (p : Z -> bool) (l : list Z) :
  StronglySorted Z.lt l -> StronglySorted Z.lt (filter p l).
Proof.
  induction 1 as [|a l Hs IH Hall]; simpl; [constructor|].
  destruct (p a); [|assumption].
  constructor; [assumption|].
  rewrite Forall_forall in *. intros x Hx. apply filter_In in Hx. apply Hall, Hx.
Qed.

Lemma candidatos_sorted (inicio fim delta : Z) :
  0 < delta -> StronglySorted Z.lt (candidatos inicio fim delta).
Proof.
  intros Hd. unfold candidatos.
  generalize (passos inicio fim delta) as n. generalize 0%nat as b.
  intros b n. revert b. induction n as [|n IH]; intros b; simpl; constructor.
  - apply IH.
  - rewrite Forall_forall. intros x Hx.
    apply in_map_iff in Hx as (k & <- & Hk). apply in_seq in Hk. nia.
Qed.

Lemma candidatos_In (inicio fim delta t : Z) :
  0 < delta ->
  (In t (candidatos inicio fim delta) <->
   inicio <= t < fim /\ exists k : nat, t = inicio + Z.of_nat k * delta).
Proof.
  intros Hd. unfold candidatos. rewrite in_map_iff. split.
  - intros (k & <- & Hk). apply in_seq in Hk.
    assert (Hlt : (k < passos inicio fim delta)%nat) by lia.
    apply passos_spec in Hlt; [|assumption].
    split; [nia | exists k; reflexivity].
  - intros ([Hlo Hhi] & k & ->). exists k. split; [reflexivity|].
    apply in_seq. apply passos_spec in Hhi; [|assumption]. lia.
Qed.

Lemma fora_do_almoco_spec (t : datetime) :
  fora_do_almoco t = true <->
  dt_time t <> mk_time 13 0 0 /\ dt_time t <> mk_time 13 30 0.
Proof.
  unfold fora_do_almoco. rewrite lunch_1300_eq, lunch_1330_eq.
  rewrite andb_true_iff, !negb_true_iff, !Z.eqb_neq. reflexivity.
Qed.

(** The loop raises when the instant at which it would stop is past the
    last date. *)
Lemma gerar_loop_overflow (n : nat) :
  forall fuel horarios inicio fim iv,
    0 < timedelta_minutes iv ->
    n = passos inicio fim (timedelta_minutes iv) ->
    (n <= fuel)%nat ->
    1 <= dt_date inicio <= MAXORDINAL ->
    MAXORDINAL < dt_date (inicio + Z.of_nat n * timedelta_minutes iv) ->
    gerar_loop fuel horarios inicio fim iv = raise date_overflow.
Proof.
  induction n as [|n IH]; intros fuel horarios inicio fim iv Hd Hn Hfuel Hlo Hhi.
  - rewrite Z.add_0_r in Hhi. lia.
  - destruct fuel as [|fuel]; [lia|]. simpl.
    destruct (inicio <? fim) eqn:Hlt.
    + apply Z.ltb_lt in Hlt. rewrite passos_step in Hn by assumption.
      injection Hn as Hn.
      assert (Hd1 : 1 <= dt_date (inicio + timedelta_minutes iv)).
      { pose proof (dt_date_mono inicio (inicio + timedelta_minutes iv)). lia. }
      unfold lift, bind, datetime_add.
      replace (0 <? dt_date (inicio + timedelta_minutes iv)) with true
        by (symmetry; apply Z.ltb_lt; lia).
      destruct (dt_date (inicio + timedelta_minutes iv) <=? MAXORDINAL) eqn:Hle;
        [|reflexivity].
      apply Z.leb_le in Hle. simpl. apply IH; try assumption; try lia.
      replace (inicio + timedelta_minutes iv + Z.of_nat n * timedelta_minutes iv)
        with (inicio + Z.of_nat (S n) * timedelta_minutes iv) by lia.
      assumption.
    + apply Z.ltb_ge in Hlt. rewrite passos_stop in Hn by assumption. discriminate.
Qed.

(** C5, as written, fails where stepping leaves the range of [datetime]:
    from 9999-12-31 23:45 to 9999-12-31 23:59 the loop body runs once and
    [inicio += timedelta(minutes=30)] raises [OverflowError], so no
    sequence is produced, whatever the fuel. *)
Lemma gerar_horarios_overflow_counterexample :
  gerar_horarios_disponiveis 5
    (combine MAXORDINAL (mk_time 23 45 0)) (combine MAXORDINAL (mk_time 23 59 0)) 30
  = raise date_overflow
  /\ ~ (exists fuel horarios,
          gerar_horarios_disponiveis fuel
            (combine MAXORDINAL (mk_time 23 45 0))
            (combine MAXORDINAL (mk_time 23 59 0)) 30
          = ret horarios).
Proof.
  split; [vm_compute; reflexivity|].
  intros (fuel & horarios & H). destruct fuel as [|fuel]; [discriminate|].
  vm_compute in H. discriminate.
Qed.

(** C5 (amended): for every start instant of a valid date and every end
    instant such that the instant at which the loop stops,
    [inicio + passos * 30min], is still a [datetime], the generator returns,
    for every fuel above the number of steps, one list [horarios] that is
    strictly increasing and holds exactly the instants [t] with
    [inicio <= t < fim], [t = inicio + k * 30min] for a natural [k], and
    time of day neither 13:00 nor 13:30; if [fim <= inicio] it is empty. *)
Theorem gerar_horarios_disponiveis_spec (inicio fim : datetime) :
  1 <= dt_date inicio ->
  dt_date (inicio + Z.of_nat (passos inicio fim (timedelta_minutes 30))
                    * timedelta_minutes 30) <= MAXORDINAL ->
  exists horarios,
    (forall fuel, (passos inicio fim (timedelta_minutes 30) < fuel)%nat ->
       gerar_horarios_disponiveis fuel inicio fim 30 = ret horarios)
    /\ StronglySorted Z.lt horarios
    /\ (forall t, In t horarios <->
          (inicio <= t < fim
           /\ (exists k : nat, t = inicio + Z.of_nat k * timedelta_minutes 30)
           /\ dt_time t <> mk_time 13 0 0 /\ dt_time t <> mk_time 13 30 0))
    /\ (fim <= inicio -> horarios = []).
Proof.
  intros Hlo Hhi.
  assert (Hd : 0 < timedelta_minutes 30) by reflexivity.
  exists (filter fora_do_almoco (candidatos inicio fim (timedelta_minutes 30))).
  repeat split.
  - intros fuel Hfuel.
    destruct (gerar_loop_total _ fuel [] inicio fim 30 Hd eq_refl Hfuel Hlo Hhi)
      as [r Hr].
    unfold gerar_horarios_disponiveis. rewrite Hr.
    apply gerar_loop_ret in Hr; [|assumption]. subst r. reflexivity.
  - apply sorted_filter, candidatos_sorted, Hd.
  - apply filter_In in H as [H _]. apply candidatos_In in H; [|assumption]. lia.
  - apply filter_In in H as [H _]. apply candidatos_In in H; [|assumption]. lia.
  - apply filter_In in H as [H _]. apply candidatos_In in H; [|assumption].
    apply H.
  - apply filter_In in H as [_ H]. apply fora_do_almoco_spec in H. apply H.
  - apply filter_In in H as [_ H]. apply fora_do_almoco_spec in H. apply H.
  - intros (Hr & Hk & Hn). apply filter_In. split.
    + apply candidatos_In; [assumption|]. split; assumption.
    + apply fora_do_almoco_spec. assumption.
  - intros Hle. rewrite candidatos_stop by assumption. reflexivity.
Qed.

Lemma gerar_horarios_disponiveis_spec_witness :
  exists horarios,
    (forall fuel, (passos ex_inicio ex_fim (timedelta_minutes 30) < fuel)%nat ->
       gerar_horarios_disponiveis fuel ex_inicio ex_fim 30 = ret horarios)
    /\ StronglySorted Z.lt horarios
    /\ (forall t, In t horarios <->
          (ex_inicio <= t < ex_fim
           /\ (exists k : nat, t = ex_inicio + Z.of_nat k * timedelta_minutes 30)
           /\ dt_time t <> mk_time 13 0 0 /\ dt_time t <> mk_time 13 30 0))
    /\ (ex_fim <= ex_inicio -> horarios = []).
Proof.
  apply (gerar_horarios_disponiveis_spec ex_inicio ex_fim).
  - vm_compute. discriminate.
  - vm_compute. discriminate.
Defined.

(* ===================================================================== *)
(** ** The availability scan *)
(* ===================================================================== *)

(** The slots of one working day. *)
Lemma gerar_dia (fuel : nat) (d : date) (r : list datetime) :
  gerar_horarios_disponiveis fuel (combine d inicio_horario)
    (combine d fim_horario) intervalo_minutos = Some (inr r) ->
  StronglySorted Z.lt r /\ forall t, In t r -> dt_date t = d.
Proof.
  intros H. unfold gerar_horarios_disponiveis in H.
  assert (Hd : 0 < timedelta_minutes intervalo_minutos) by reflexivity.
  apply gerar_loop_ret in H; [|assumption]. simpl in H. subst r. split.
  - apply sorted_filter, candidatos_sorted, Hd.
  - intros t Ht. apply filter_In in Ht as [Ht _].
    apply candidatos_In in Ht as [Ht _]; [|assumption].
    rewrite inicio_horario_eq, fim_horario_eq in Ht.
    rewrite <- (combine_date_time t) in Ht.
    pose proof (dt_time_range t) as Hr.
    unfold combine, mk_time, US_PER_SECOND in Ht. unfold US_PER_DAY in *. nia.
Qed.

Lemma gerar_dia_terminates (fuel : nat) (d : date) :
  (23 <= fuel)%nat ->
  exists r, gerar_horarios_disponiveis fuel (combine d inicio_horario)
              (combine d fim_horario) intervalo_minutos = Some r.
Proof.
  intros Hfuel. unfold gerar_horarios_disponiveis.
  apply (gerar_loop_terminates 22); [reflexivity | | lia].
  rewrite inicio_horario_eq, fim_horario_eq.
  unfold combine, mk_time, intervalo_minutos, timedelta_minutes, US_PER_SECOND. lia.
Qed.

(** The day-by-day scan always ends: every pass either raises or moves
    [data_atual] one day closer to the last date there is. *)
Lemma scan_terminates (now : datetime) (dias : list Z)
    (consultas : list (date * time)) (m : nat) :
  forall fuel horarios data_atual,
    MAXORDINAL + 1 - data_atual <= Z.of_nat m ->
    (m + 23 <= fuel)%nat ->
    exists r, scan fuel now dias consultas horarios data_atual = Some r.
Proof.
  induction m as [|m IH]; intros fuel horarios d Hm Hfuel;
    (destruct fuel as [|fuel]; [lia|]); cbn [scan];
    (destruct (Z.of_nat (List.length horarios) <? 3); [|eexists; reflexivity]).
  - destruct (existsb (Z.eqb (weekday d)) dias).
    + destruct (gerar_dia_terminates (S fuel) d ltac:(lia)) as [[e|hp] ->];
        cbn [bind ret]; [eexists; reflexivity|].
      unfold lift, date_add, timedelta_days.
      replace (d + 1 <=? MAXORDINAL) with false by (symmetry; apply Z.leb_gt; lia).
      rewrite andb_false_r. eexists; reflexivity.
    + cbn [bind ret]. unfold lift, date_add, timedelta_days.
      replace (d + 1 <=? MAXORDINAL) with false by (symmetry; apply Z.leb_gt; lia).
      rewrite andb_false_r. eexists; reflexivity.
  - assert (Hnext : forall hd,
              exists r, bind (lift (date_add d (timedelta_days 1)))
                          (fun d' => scan fuel now dias consultas hd d') = Some r).
    { intros hd. unfold lift, date_add, timedelta_days.
      destruct ((0 <? d + 1) && (d + 1 <=? MAXORDINAL)); cbn [bind];
        [|eexists; reflexivity].
      apply IH; lia. }
    destruct (existsb (Z.eqb (weekday d)) dias).
    + destruct (gerar_dia_terminates (S fuel) d ltac:(lia)) as [[e|hp] ->];
        cbn [bind ret]; [eexists; reflexivity|]. apply Hnext.
    + cbn [bind ret]. apply Hnext.
Qed.

(** With no working weekday the scan ends by the [OverflowError] of
    [data_atual += timedelta(days=1)] on the last date. *)
Lemma scan_sem_dias (now : datetime) (consultas : list (date * time)) (m : nat) :
  forall fuel data_atual,
    MAXORDINAL + 1 - data_atual <= Z.of_nat m ->
    (m < fuel)%nat ->
    scan fuel now [] consultas [] data_atual = raise date_overflow.
Proof.
  induction m as [|m IH]; intros fuel d Hm Hfuel;
    (destruct fuel as [|fuel]; [lia|]); cbn [scan existsb List.length Z.of_nat];
    cbn [Z.ltb Z.compare bind ret]; unfold lift, date_add, timedelta_days.
  - replace (d + 1 <=? MAXORDINAL) with false by (symmetry; apply Z.leb_gt; lia).
    rewrite andb_false_r. reflexivity.
  - destruct ((0 <? d + 1) && (d + 1 <=? MAXORDINAL)); cbn [bind]; [|reflexivity].
    apply IH; lia.
Qed.

Lemma for_horarios_inv (now : datetime) (consultas : list (date * time))
    (hp : list datetime) :
  forall hd,
    StronglySorted Z.lt (hd ++ hp) ->
    (List.length hd <= 3)%nat ->
    StronglySorted Z.lt (for_horarios now consultas hp hd)
    /\ (List.length (for_horarios now consultas hp hd) <= 3)%nat
    /\ forall h, In h (for_horarios now consultas hp hd) ->
         In h hd \/
         (In h hp /\ now < h
          /\ forall c, In c consultas -> h <> combine (fst c) (snd c)).
Proof.
  induction hp as [|horario rest IH]; intros hd Hs Hlen; cbn [for_horarios].
  - rewrite app_nil_r in Hs. auto.
  - destruct (Z.of_nat (List.length hd) >=? 3) eqn:Hbrk.
    + apply sorted_app in Hs as (Hs & _). auto.
    + assert (Hlt : (List.length hd < 3)%nat) by lia.
      destruct ((horario >? now) && forallb _ consultas) eqn:Hok.
      * apply andb_true_iff in Hok as [Hnow Hall].
        rewrite forallb_forall in Hall.
        destruct (IH (hd ++ [horario])) as (H1 & H2 & H3).
        { rewrite <- app_assoc. exact Hs. }
        { rewrite length_app. simpl. lia. }
        repeat split; [assumption | assumption |].
        intros h Hh. apply H3 in Hh as [Hh | (Hh & Hr)].
        -- apply in_app_iff in Hh as [Hh | [<- | []]]; [auto|].
           right. repeat split; [left; reflexivity | lia |].
           intros c Hc. apply Hall in Hc. apply negb_true_iff in Hc. lia.
        -- right. split; [right; assumption | assumption].
      * destruct (IH hd) as (H1 & H2 & H3).
        { apply sorted_app in Hs as (Ha & Hb & Hab).
          apply sorted_app. inversion Hb; subst.
          repeat split; [assumption | assumption |].
          intros x y Hx Hy. apply Hab; [assumption | right; assumption]. }
        { assumption. }
        repeat split; [assumption | assumption |].
        intros h Hh. apply H3 in Hh as [Hh | (Hh & Hr)]; [auto|].
        right. split; [right; assumption | assumption].
Qed.

(** What the scan returns, whenever it returns: exactly three free slots,
    in increasing order. *)
Lemma scan_inv (now : datetime) (dias : list Z) (consultas : list (date * time))
    (fuel : nat) :
  forall hd d r,
    scan fuel now dias consultas hd d = Some (inr r) ->
    (List.length hd <= 3)%nat ->
    StronglySorted Z.lt hd ->
    (forall h, In h hd -> dt_date h < d /\ livre now dias consultas h) ->
    List.length r = 3%nat
    /\ StronglySorted Z.lt r
    /\ forall h, In h r -> livre now dias consultas h.
Proof.
  induction fuel as [|fuel IH]; intros hd d r Hrun Hlen Hs Hinv;
    [discriminate|]. cbn [scan] in Hrun.
  destruct (Z.of_nat (List.length hd) <? 3) eqn:Hlt.
  - assert (Hstep : forall hd',
      bind (lift (date_add d (timedelta_days 1)))
           (fun d' => scan fuel now dias consultas hd' d') = Some (inr r) ->
      (List.length hd' <= 3)%nat -> StronglySorted Z.lt hd' ->
      (forall h, In h hd' -> dt_date h <= d /\ livre now dias consultas h) ->
      List.length r = 3%nat /\ StronglySorted Z.lt r
      /\ forall h, In h r -> livre now dias consultas h).
    { intros hd' Hrun' Hlen' Hs' Hinv'. unfold lift, date_add, timedelta_days in Hrun'.
      destruct ((0 <? d + 1) && (d + 1 <=? MAXORDINAL)); cbn [bind] in Hrun';
        [|discriminate].
      apply IH in Hrun'; try assumption.
      intros h Hh. apply Hinv' in Hh. split; [lia | apply Hh]. }
    destruct (existsb (Z.eqb (weekday d)) dias) eqn:Hdia.
    + destruct (gerar_horarios_disponiveis (S fuel) _ _ _) as [[e|hp]|] eqn:Hger;
        cbn [bind ret] in Hrun; try discriminate.
      apply gerar_dia in Hger as [Hsp Hdate].
      apply existsb_exists in Hdia as (w & Hw & Heq). apply Z.eqb_eq in Heq. subst w.
      destruct (for_horarios_inv now consultas hp hd) as (H1 & H2 & H3).
      { apply sorted_app. repeat split; [assumption | assumption |].
        intros x y Hx Hy. apply datetime_lt_lex. left.
        apply Hinv in Hx. apply Hdate in Hy. lia. }
      { assumption. }
      apply Hstep in Hrun; try assumption.
      intros h Hh. apply H3 in Hh as [Hh | (Hh & Hnow & Hfree)].
      * apply Hinv in Hh. split; [lia | apply Hh].
      * apply Hdate in Hh. split; [lia|].
        repeat split; [assumption | rewrite Hh; assumption | assumption].
    + cbn [bind ret] in Hrun. apply Hstep in Hrun; try assumption.
      intros h Hh. apply Hinv in Hh. split; [lia | apply Hh].
  - injection Hrun as <-. apply Z.ltb_ge in Hlt.
    split; [lia | split; [assumption | intros h Hh; apply Hinv, Hh]].
Qed.

(* ===================================================================== *)
(** ** The resolver *)
(* ===================================================================== *)

Lemma order_insert_In (x y : date * time) (l : list (date * time)) :
  In y (order_insert x l) <-> y = x \/ In y l.
Proof.
  induction l as [|z l IH]; simpl.
  - intuition.
  - destruct (data_hora_leb x z); simpl; [intuition|].
    rewrite IH. intuition.
Qed.

Lemma order_by_data_hora_In (y : date * time) (l : list (date * time)) :
  In y (order_by_data_hora l) <-> In y l.
Proof.
  induction l as [|x l IH]; simpl; [reflexivity|].
  rewrite order_insert_In, IH. intuition.
Qed.

(** The appointments fetched for a doctor hold every appointment of that
    doctor that lies after [now]. *)
Lemma select_consultas_existentes_In (s : store) (nif : string) (now : datetime)
    (k : consulta_row) :
  In k (consulta s) -> consulta_nif k = nif ->
  now < combine (consulta_data k) (consulta_hora k) ->
  0 <= consulta_hora k < US_PER_DAY ->
  In (consulta_data k, consulta_hora k) (select_consultas_existentes s nif now).
Proof.
  intros Hk Hnif Hnow Hr. unfold select_consultas_existentes.
  apply order_by_data_hora_In, in_map_iff. exists k. split; [reflexivity|].
  apply filter_In. split; [assumption|].
  apply andb_true_iff. split; [apply String.eqb_eq; assumption|].
  apply datetime_lt_lex in Hnow.
  rewrite dt_date_combine, dt_time_combine in Hnow by assumption.
  destruct Hnow as [H | [H1 H2]].
  - apply orb_true_iff. left. apply Z.gtb_lt. assumption.
  - apply orb_true_iff. right. apply andb_true_iff.
    split; [apply Z.eqb_eq; congruence | apply Z.gtb_lt; assumption].
Qed.

Lemma select_dias_da_semana_In (s : store) (nif clinica_ : string) (w : Z) :
  In w (select_dias_da_semana s nif clinica_) <->
  exists t, In t (trabalha s) /\ trabalha_nif t = nif
            /\ trabalha_nome t = clinica_ /\ trabalha_dia_da_semana t = w.
Proof.
  unfold select_dias_da_semana. rewrite in_map_iff. split.
  - intros (t & <- & Ht). apply filter_In in Ht as [Ht Hp].
    apply andb_true_iff in Hp as [H1 H2]. apply String.eqb_eq in H1, H2.
    exists t. auto.
  - intros (t & Ht & H1 & H2 & <-). exists t. split; [reflexivity|].
    apply filter_In. split; [assumption|].
    apply andb_true_iff. split; apply String.eqb_eq; assumption.
Qed.

Lemma sorted_antes (r : list datetime) :
  StronglySorted Z.lt r ->
  StronglySorted antes (map (fun h => (dt_date h, dt_time h)) r).
Proof.
  induction 1 as [|a l Hs IH Hall]; simpl; constructor; [assumption|].
  rewrite Forall_forall in *. intros p Hp.
  apply in_map_iff in Hp as (h & <- & Hh). apply Hall in Hh.
  apply datetime_lt_lex in Hh. exact Hh.
Qed.

(** The slots listed for one doctor (lines 159-203). *)
Lemma horarios_medico_inv (fuel : nat) (now : datetime) (s : store)
    (clinica_ nif : string) (r : list datetime) :
  horarios_medico fuel now s clinica_ nif = Some (inr r) ->
  List.length r = 3%nat
  /\ StronglySorted Z.lt r
  /\ forall h, In h r ->
       now < h
       /\ (exists t, In t (trabalha s) /\ trabalha_nif t = nif
                     /\ trabalha_nome t = clinica_
                     /\ trabalha_dia_da_semana t = weekday (dt_date h))
       /\ forall k, In k (consulta s) -> consulta_nif k = nif ->
            (dt_date h, dt_time h) <> (consulta_data k, consulta_hora k).
Proof.
  intros Hrun. unfold horarios_medico in Hrun.
  apply scan_inv in Hrun as (Hlen & Hs & Hall);
    [| simpl; lia | constructor | intros h []].
  split; [assumption|]. split; [assumption|].
  intros h Hh. apply Hall in Hh as (Hnow & Hdia & Hfree).
  split; [assumption|]. split; [apply select_dias_da_semana_In; assumption|].
  intros k Hk Hnif Heq. injection Heq as Hd Ht.
  apply (Hfree (consulta_data k, consulta_hora k)).
  - apply select_consultas_existentes_In; try assumption.
    + rewrite <- Hd, <- Ht, combine_date_time. assumption.
    + rewrite <- Ht. apply dt_time_range.
  - simpl. rewrite <- Hd, <- Ht, combine_date_time. reflexivity.
Qed.

(** Every entry the doctors loop adds is one doctor's label and slots. *)
Lemma for_medicos_entries (fuel : nat) (now : datetime) (s : store)
    (clinica_ : string) (medicos : list (string * string)) :
  forall resultado r,
    for_medicos fuel now s clinica_ medicos resultado = Some (inr r) ->
    forall e, In e r ->
      In e resultado
      \/ exists nif nome hs,
           In (nif, nome) medicos
           /\ horarios_medico fuel now s clinica_ nif = Some (inr hs)
           /\ e = (nome +s " (" +s nif +s ")",
                   map (fun h => (dt_date h, dt_time h)) hs).
Proof.
  induction medicos as [|[nif nome] rest IH]; intros resultado r Hrun e He;
    cbn [for_medicos] in Hrun.
  - injection Hrun as <-. left. assumption.
  - destruct (horarios_medico fuel now s clinica_ nif) as [[ex|hs]|] eqn:Hm;
      cbn [bind] in Hrun; try discriminate.
    apply (IH _ _ Hrun) in He as [He | (nif' & nome' & hs' & Hin & Hrun' & ->)].
    + apply in_app_iff in He as [He | [<- | []]]; [left; assumption|].
      right. exists nif, nome, hs. split; [left; reflexivity | auto].
    + right. exists nif', nome', hs'. split; [right; assumption | auto].
Qed.

Lemma for_medicos_terminates (fuel : nat) (now : datetime) (s : store)
    (clinica_ : string) (medicos : list (string * string)) :
  (fuel_scan now <= fuel)%nat ->
  forall resultado,
    exists r, for_medicos fuel now s clinica_ medicos resultado = Some r.
Proof.
  intros Hfuel. induction medicos as [|[nif nome] rest IH]; intros resultado;
    cbn [for_medicos]; [eexists; reflexivity|].
  destruct (scan_terminates now (select_dias_da_semana s nif clinica_)
              (select_consultas_existentes s nif now)
              (Z.to_nat (MAXORDINAL + 1 - dt_date now)) fuel [] (dt_date now))
    as [[e|hs] Hr]; [lia | exact Hfuel | |];
    unfold horarios_medico; rewrite Hr; cbn [bind]; [eexists; reflexivity|].
  apply IH.
Qed.

(** The entries of a listing. *)
Lemma lista_medicos_entries (fuel : nat) (now : datetime) (s : store)
    (clinica_ especialidade : string) resultado code :
  lista_medicos_clinica_especialidade fuel now s clinica_ especialidade
    = Some (inr (Medicos resultado, code)) ->
  forall e, In e resultado ->
    exists nif nome hs,
      In (nif, nome) (select_medicos s clinica_ especialidade)
      /\ horarios_medico fuel now s clinica_ nif = Some (inr hs)
      /\ e = (nome +s " (" +s nif +s ")",
              map (fun h => (dt_date h, dt_time h)) hs).
Proof.
  intros Hrun e He. unfold lista_medicos_clinica_especialidade in Hrun.
  destruct (_ >? 0) in Hrun; [|discriminate].
  destruct (select_medicos s clinica_ especialidade) as [|m ms] eqn:Hsel;
    [discriminate|].
  destruct (for_medicos fuel now s clinica_ (m :: ms) []) as [[ex|r]|] eqn:Hfor;
    cbn [bind ret] in Hrun; try discriminate.
  injection Hrun as <- <-.
  apply (for_medicos_entries _ _ _ _ _ _ _ Hfor) in He as [[] | He]. exact He.
Qed.

(** C2: the day-by-day scan terminates on every input.  With the fuel
    [fuel_scan now] or more, the per-doctor scan ends for every list of
    working weekdays and every list of appointments, and so does the whole
    listing; for a doctor with no working weekday the scan ends with the
    [OverflowError] that [data_atual += timedelta(days=1)] raises on
    9999-12-31. *)
Theorem scan_termina (now : datetime) (s : store)
    (clinica_ especialidade : string) (fuel : nat) :
  (fuel_scan now <= fuel)%nat ->
  (forall dias consultas,
     exists r, scan fuel now dias consultas [] (dt_date now) = Some r)
  /\ (forall consultas,
        scan fuel now [] consultas [] (dt_date now) = raise date_overflow)
  /\ (exists r, lista_medicos_clinica_especialidade fuel now s clinica_
                  especialidade = Some r).
Proof.
  intros Hfuel. unfold fuel_scan in Hfuel. repeat split.
  - intros dias consultas.
    apply (scan_terminates now dias consultas
             (Z.to_nat (MAXORDINAL + 1 - dt_date now))); lia.
  - intros consultas.
    apply (scan_sem_dias now consultas
             (Z.to_nat (MAXORDINAL + 1 - dt_date now))); lia.
  - unfold lista_medicos_clinica_especialidade.
    destruct (_ >? 0); [|eexists; reflexivity].
    destruct (select_medicos s clinica_ especialidade) as [|m ms];
      [eexists; reflexivity|].
    destruct (for_medicos_terminates fuel now s clinica_ (m :: ms) Hfuel [])
      as [[e|r] ->]; cbn [bind ret]; eexists; reflexivity.
Qed.

Lemma scan_termina_witness :
  (forall dias consultas,
     exists r, scan 33 ex_now_9999 dias consultas [] (dt_date ex_now_9999) = Some r)
  /\ (forall consultas,
        scan 33 ex_now_9999 [] consultas [] (dt_date ex_now_9999)
        = raise date_overflow)
  /\ (exists r, lista_medicos_clinica_especialidade 33 ex_now_9999 ex_store
                  "Clinica A" "Cardiologia" = Some r).
Proof.
  apply (scan_termina ex_now_9999 ex_store "Clinica A" "Cardiologia" 33).
  vm_compute. apply le_n.
Defined.

(** C3: for every doctor in a listing, the slots listed are at most
    three, each is strictly after [now] (the clock plus one hour), falls on
    a weekday of one of the doctor's rows in [trabalha] for the queried
    clinic, is the (date, time) of none of the doctor's rows in [consulta],
    and the slots are in chronological order. *)
Theorem lista_medicos_slots (fuel : nat) (now : datetime) (s : store)
    (clinica_ especialidade : string)
    (resultado : list (string * list (date * time))) (code : Z) :
  lista_medicos_clinica_especialidade fuel now s clinica_ especialidade
    = Some (inr (Medicos resultado, code)) ->
  forall label slots, In (label, slots) resultado ->
    exists nif nome,
      In (nif, nome) (select_medicos s clinica_ especialidade)
      /\ label = nome +s " (" +s nif +s ")"
      /\ (List.length slots <= 3)%nat
      /\ (forall slot, In slot slots ->
            now < combine (fst slot) (snd slot)
            /\ (exists t, In t (trabalha s) /\ trabalha_nif t = nif
                          /\ trabalha_nome t = clinica_
                          /\ trabalha_dia_da_semana t = weekday (fst slot))
            /\ forall k, In k (consulta s) -> consulta_nif k = nif ->
                 slot <> (consulta_data k, consulta_hora k))
      /\ StronglySorted antes slots.
Proof.
  intros Hrun label slots He.
  apply (lista_medicos_entries _ _ _ _ _ _ _ Hrun) in He
    as (nif & nome & hs & Hin & Hm & Heq).
  injection Heq as -> ->.
  apply horarios_medico_inv in Hm as (Hlen & Hs & Hall).
  exists nif, nome. split; [assumption|]. split; [reflexivity|].
  split; [rewrite length_map; lia|]. split; [|apply sorted_antes; assumption].
  intros slot Hslot. apply in_map_iff in Hslot as (h & <- & Hh).
  apply Hall in Hh as (Hnow & Hdia & Hfree). cbn [fst snd].
  rewrite combine_date_time. auto.
Qed.

Lemma lista_medicos_slots_witness :
  exists nif nome,
    In (nif, nome) (select_medicos ex_store "Clinica A" "Cardiologia")
    /\ "Ana (123456789)" = nome +s " (" +s nif +s ")"
    /\ (List.length ex_slots <= 3)%nat
    /\ (forall slot, In slot ex_slots ->
          ex_now < combine (fst slot) (snd slot)
          /\ (exists t, In t (trabalha ex_store) /\ trabalha_nif t = nif
                        /\ trabalha_nome t = "Clinica A"
                        /\ trabalha_dia_da_semana t = weekday (fst slot))
          /\ forall k, In k (consulta ex_store) -> consulta_nif k = nif ->
               slot <> (consulta_data k, consulta_hora k))
    /\ StronglySorted antes ex_slots.
Proof.
  apply (lista_medicos_slots 40 ex_now ex_store "Clinica A" "Cardiologia"
           ex_resultado 200).
  - vm_compute. reflexivity.
  - left. reflexivity.
Defined.

(** C10: whenever the per-doctor scan returns, the list it returns has
    exactly three slots, never fewer, and so has every doctor's entry in a
    listing: the loop is left only with three slots collected (a scan that
    ends by raising returns no list). *)
Theorem scan_tres_horarios (fuel : nat) (now : datetime) (s : store)
    (clinica_ especialidade : string) :
  (forall dias consultas data_atual r,
     scan fuel now dias consultas [] data_atual = Some (inr r) ->
     List.length r = 3%nat)
  /\ (forall resultado code,
        lista_medicos_clinica_especialidade fuel now s clinica_ especialidade
          = Some (inr (Medicos resultado, code)) ->
        forall label slots, In (label, slots) resultado ->
          List.length slots = 3%nat).
Proof.
  split.
  - intros dias consultas d r Hrun.
    apply scan_inv in Hrun as (Hlen & _);
      [assumption | simpl; lia | constructor | intros h []].
  - intros resultado code Hrun label slots He.
    apply (lista_medicos_entries _ _ _ _ _ _ _ Hrun) in He
      as (nif & nome & hs & Hin & Hm & Heq).
    injection Heq as -> ->.
    apply horarios_medico_inv in Hm as (Hlen & _).
    rewrite length_map. assumption.
Qed.

Lemma scan_tres_horarios_witness :
  List.length
    [combine dia_2025_01_06 (mk_time 8 0 0);
     combine dia_2025_01_06 (mk_time 8 30 0);
     combine dia_2025_01_06 (mk_time 9 0 0)] = 3%nat
  /\ forall label slots, In (label, slots) ex_resultado ->
       List.length slots = 3%nat.
Proof.
  split.
  - apply (proj1 (scan_tres_horarios 40 ex_now ex_store "Clinica A" "Cardiologia")
             [0] [] (dt_date ex_now)).
    vm_compute. reflexivity.
  - apply (proj2 (scan_tres_horarios 40 ex_now ex_store "Clinica A" "Cardiologia")
             ex_resultado 200).
    vm_compute. reflexivity.
Defined.

(* ===================================================================== *)
(** ** The validator *)
(* ===================================================================== *)

(** [strptime] on some texts: fields need not be zero-padded, the day must
    exist in its month, the hour must be below 24 and the second below 60,
    and nothing may follow the last field. *)
Example strptime_data_curta :
  strptime "2025-1-6" "%Y-%m-%d" = strptime "2025-01-06" "%Y-%m-%d"
  /\ strptime "2025-01-06" "%Y-%m-%d" = inr (combine dia_2025_01_06 0).
Proof. split; vm_compute; reflexivity. Qed.

Example strptime_data_invalida :
  verificar_formato_data "2025-02-29" "%Y-%m-%d" = false
  /\ verificar_formato_data "2024-02-29" "%Y-%m-%d" = true
  /\ verificar_formato_data "0000-01-01" "%Y-%m-%d" = false
  /\ verificar_formato_data "2025-01-061" "%Y-%m-%d" = false
  /\ verificar_formato_data "06/01/2025" "%Y-%m-%d" = false.
Proof. repeat split; vm_compute; reflexivity. Qed.

Example strptime_hora_invalida :
  verificar_formato_data "25:00:00" "%H:%M:%S" = false
  /\ verificar_formato_data "23:59:60" "%H:%M:%S" = false
  /\ verificar_formato_data "12:30" "%H:%M:%S" = false
  /\ verificar_formato_data "12:30:00" "%H:%M:%S" = true.
Proof. repeat split; vm_compute; reflexivity. Qed.

Lemma hora_0800_eq : dt_time (value (strptime "08:00:00" "%H:%M:%S")) = mk_time 8 0 0.
Proof. vm_compute. reflexivity. Qed.

Lemma hora_1300_eq : dt_time (value (strptime "13:00:00" "%H:%M:%S")) = mk_time 13 0 0.
Proof. vm_compute. reflexivity. Qed.

Lemma hora_1400_eq : dt_time (value (strptime "14:00:00" "%H:%M:%S")) = mk_time 14 0 0.
Proof. vm_compute. reflexivity. Qed.

Lemma hora_1900_eq : dt_time (value (strptime "19:00:00" "%H:%M:%S")) = mk_time 19 0 0.
Proof. vm_compute. reflexivity. Qed.

Lemma verificar_formato_data_true (x formato : string) :
  verificar_formato_data x formato = true ->
  exists v, strptime x formato = inr v.
Proof.
  unfold verificar_formato_data.
  destruct (strptime x formato) as [e|v]; [discriminate|]. eauto.
Qed.

Lemma isdigit_n_digitos (n : Z) (x : arg) :
  0 < n -> (len x =? n) && isdigit x = n_digitos n x.
Proof.
  intros Hn. unfold n_digitos, isdigit, len.
  destruct (Z.of_nat (List.length (codepoints (str x))) =? n) eqn:Hlen;
    [|reflexivity].
  apply Z.eqb_eq in Hlen.
  replace (List.length (codepoints (str x)) =? 0)%nat with false
    by (symmetry; apply Nat.eqb_neq; lia).
  reflexivity.
Qed.

(** Among the ASCII characters, the digit characters and the decimal
    digits are "0", ..., "9". *)
Lemma is_digit_char_ascii (c : codepoint) :
  (c <? 128)%N = true ->
  is_digit_char c = in_range "0" "9" c /\ is_decimal c = in_range "0" "9" c.
Proof.
  intros Hc. apply N.ltb_lt in Hc.
  assert (Hall : forallb (fun c => Bool.eqb (is_digit_char c) (in_range "0" "9" c)
                                   && Bool.eqb (is_decimal c) (in_range "0" "9" c))
                   (map N.of_nat (seq 0 128)) = true)
    by (vm_compute; reflexivity).
  rewrite forallb_forall in Hall.
  assert (Hin : In c (map N.of_nat (seq 0 128))).
  { apply in_map_iff. exists (N.to_nat c). split; [lia|]. apply in_seq. lia. }
  apply Hall in Hin. apply andb_true_iff in Hin as [H1 H2].
  split; apply eqb_prop; assumption.
Qed.

Lemma forallb_igual_In {R} (p q : R -> bool) (l : list R) :
  (forall x, In x l -> p x = q x) -> forallb p l = forallb q l.
Proof.
  induction l as [|x l IH]; intros H; cbn [forallb]; [reflexivity|].
  rewrite (H x) by (left; reflexivity).
  rewrite IH by (intros y Hy; apply H; right; exact Hy). reflexivity.
Qed.

(** For a text in ASCII the three readings of "[n] digits" agree. *)
Lemma n_digitos_ascii (n : Z) (x : arg) :
  so_ascii x = true ->
  n_digitos n x = n_algarismos n x /\ n_decimais n x = n_algarismos n x.
Proof.
  unfold so_ascii, n_digitos, n_decimais, n_algarismos. intros Ha.
  rewrite forallb_forall in Ha.
  split; f_equal; apply forallb_igual_In; intros c Hc;
    apply is_digit_char_ascii, Ha, Hc.
Qed.

(** The validation block is the first-failure fold over the six rules. *)
Lemma validar_marca_regras (now : datetime) (paciente medico_ data hora : arg) :
  validar_marca now paciente medico_ data hora
  = inr (primeira_falha (regras_validacao now paciente medico_ data hora)).
Proof.
  unfold validar_marca, regras_validacao, primeira_falha.
  unfold regra_paciente, regra_medico, regra_data, regra_hora,
    erro_paciente, erro_medico, erro_data, erro_hora, presente.
  rewrite <- (isdigit_n_digitos 11 paciente), <- (isdigit_n_digitos 9 medico_) by lia.
  destruct (py_not paciente); cbn [negb andb]; [reflexivity|].
  destruct (len paciente =? 11); cbn [negb andb orb]; [|reflexivity].
  destruct (isdigit paciente); cbn [negb]; [|reflexivity].
  destruct (py_not medico_); cbn [negb andb]; [reflexivity|].
  destruct (len medico_ =? 9); cbn [negb andb orb]; [|reflexivity].
  destruct (isdigit medico_); cbn [negb]; [|reflexivity].
  destruct (py_not data); cbn [negb andb]; [reflexivity|].
  destruct (verificar_formato_data (str data) "%Y-%m-%d") eqn:Hd;
    cbn [negb]; [|reflexivity].
  destruct (py_not hora); cbn [negb andb]; [reflexivity|].
  destruct (verificar_formato_data (str hora) "%H:%M:%S") eqn:Hh;
    cbn [negb]; [|reflexivity].
  apply verificar_formato_data_true in Hd as [d Hd].
  apply verificar_formato_data_true in Hh as [h Hh].
  unfold regra_passado, regra_janela, instante, hora_do_dia, erro_passado, erro_janela.
  rewrite Hd, Hh. cbn [value].
  rewrite hora_0800_eq, hora_1300_eq, hora_1400_eq, hora_1900_eq.
  rewrite dt_time_combine by apply dt_time_range.
  rewrite Z.gtb_ltb.
  destruct (combine (dt_date d) (dt_time h) <? now); cbn [negb]; [reflexivity|].
  unfold na_janela. rewrite !Z.geb_leb.
  destruct (_ || _); reflexivity.
Qed.

Lemma validar_cancela_marca (now : datetime) (paciente medico_ data hora : arg) :
  validar_cancela now paciente medico_ data hora
  = validar_marca now paciente medico_ data hora.
Proof. reflexivity. Qed.

(** C4, counterexample: the eleven characters "1234567890" and superscript
    two are not eleven decimal digits, yet they pass the patient rule, and
    the request that carries them passes the validator. *)
Lemma validador_digito_counterexample :
  n_decimais 11 (Some "1234567890²") = false
  /\ n_algarismos 11 (Some "1234567890²") = false
  /\ len (Some "1234567890²") = 11
  /\ isdigit (Some "1234567890²") = true
  /\ validar_marca ex_now (Some "1234567890²") (Some "123456789")
       (Some "2025-01-06") (Some "09:00:00") = inr None.
Proof. repeat split; vm_compute; reflexivity. Qed.

(** C4 (amended): the validator of both operations is the first-failure
    fold over the six rules in the order patient id, doctor id, date, time,
    not-before-now, hour window, so the earliest failing rule alone gives
    the error.  The patient rule is: present, exactly 11 characters, each a
    digit character ([str.isdigit]: a decimal digit of any script or
    another character with a digit value); the doctor rule the same with 9.
    For an id written in ASCII the rule is: exactly 11 (or 9) of the
    characters "0", ..., "9", which is also what [str.isdecimal] asks.
    "12345678901" passes the patient rule, "1234567890" is rejected with
    the patient format error whatever the other parameters, and "25:00:00"
    fails the time rule, with the time format error whenever the three
    rules before it pass. *)
Theorem validador_primeira_regra :
  (forall now paciente medico_ data hora,
     validar_marca now paciente medico_ data hora
     = inr (primeira_falha (regras_validacao now paciente medico_ data hora))
     /\ validar_cancela now paciente medico_ data hora
        = inr (primeira_falha (regras_validacao now paciente medico_ data hora)))
  /\ (forall x,
        (regra_paciente x = true <->
         presente x = true /\ len x = 11
         /\ forall c, In c (codepoints (str x)) -> is_digit_char c = true)
        /\ (regra_medico x = true <->
            presente x = true /\ len x = 9
            /\ forall c, In c (codepoints (str x)) -> is_digit_char c = true)
        /\ (so_ascii x = true ->
            regra_paciente x = presente x && n_algarismos 11 x
            /\ regra_medico x = presente x && n_algarismos 9 x
            /\ n_decimais 11 x = n_algarismos 11 x
            /\ n_decimais 9 x = n_algarismos 9 x))
  /\ regra_paciente (Some "12345678901") = true
  /\ (regra_paciente (Some "1234567890") = false
      /\ forall now medico_ data hora,
           validar_marca now (Some "1234567890") medico_ data hora
           = inr (Some "Formato inválido para o campo paciente."))
  /\ (regra_hora (Some "25:00:00") = false
      /\ forall now paciente medico_ data,
           regra_paciente paciente = true ->
           regra_medico medico_ = true ->
           regra_data data = true ->
           validar_marca now paciente medico_ data (Some "25:00:00")
           = inr (Some "Formato inválido para o campo hora. Formato esperado: HH:MM:SS")).
Proof.
  split; [|split; [|split; [|split; split]]].
  - intros. split; [|rewrite validar_cancela_marca]; apply validar_marca_regras.
  - intros x. split; [|split].
    + unfold regra_paciente, n_digitos.
      rewrite !andb_true_iff, Z.eqb_eq, forallb_forall. reflexivity.
    + unfold regra_medico, n_digitos.
      rewrite !andb_true_iff, Z.eqb_eq, forallb_forall. reflexivity.
    + intros Ha. unfold regra_paciente, regra_medico.
      destruct (n_digitos_ascii 11 x Ha) as [-> ->].
      destruct (n_digitos_ascii 9 x Ha) as [-> ->]. auto.
  - vm_compute. reflexivity.
  - vm_compute. reflexivity.
  - intros. rewrite validar_marca_regras. reflexivity.
  - vm_compute. reflexivity.
  - intros now paciente medico_ data H1 H2 H3. rewrite validar_marca_regras.
    unfold regras_validacao, primeira_falha. rewrite H1, H2, H3. reflexivity.
Qed.

Lemma validador_primeira_regra_witness :
  validar_marca ex_now (Some "12345678901") (Some "123456789")
    (Some "2025-01-06") (Some "25:00:00")
  = inr (Some "Formato inválido para o campo hora. Formato esperado: HH:MM:SS").
Proof.
  apply (proj2 (proj2 (proj2 (proj2 (proj2 validador_primeira_regra))))).
  - vm_compute. reflexivity.
  - vm_compute. reflexivity.
  - vm_compute. reflexivity.
Defined.

(** C6: an input that passes rules 1 to 5 passes the validator exactly
    when its time of day lies in [08:00:00, 13:00:00) or in
    [14:00:00, 19:00:00), and is otherwise rejected with the hour-window
    error; on every date that passes rule 5, "12:30:00" is accepted and
    "13:15:00" is rejected with that error. *)
Theorem regra_janela_horaria (now : datetime) (paciente medico_ data : arg) :
  regra_paciente paciente = true ->
  regra_medico medico_ = true ->
  regra_data data = true ->
  (forall hora,
     regra_hora hora = true ->
     regra_passado now data hora = true ->
     (validar_marca now paciente medico_ data hora = inr None <->
      (mk_time 8 0 0 <= hora_do_dia hora < mk_time 13 0 0
       \/ mk_time 14 0 0 <= hora_do_dia hora < mk_time 19 0 0))
     /\ (validar_marca now paciente medico_ data hora <> inr None ->
         validar_marca now paciente medico_ data hora = inr (Some erro_janela)))
  /\ (regra_passado now data (Some "12:30:00") = true ->
      validar_marca now paciente medico_ data (Some "12:30:00") = inr None)
  /\ (regra_passado now data (Some "13:15:00") = true ->
      validar_marca now paciente medico_ data (Some "13:15:00")
      = inr (Some erro_janela)).
Proof.
  intros H1 H2 H3.
  assert (Hgen : forall hora,
    regra_hora hora = true -> regra_passado now data hora = true ->
    validar_marca now paciente medico_ data hora
    = inr (if regra_janela hora then None else Some erro_janela)).
  { intros hora H4 H5. rewrite validar_marca_regras.
    unfold regras_validacao, primeira_falha. rewrite H1, H2, H3, H4, H5.
    reflexivity. }
  split; [|split].
  - intros hora H4 H5. rewrite (Hgen hora H4 H5).
    unfold regra_janela, na_janela.
    destruct (_ || _) eqn:Hw.
    + split; [|intros Hne; now contradiction Hne]. split; [|reflexivity].
      intros _. apply orb_true_iff in Hw as [Hw|Hw];
        apply andb_true_iff in Hw as [Ha Hb];
        apply Z.leb_le in Ha; apply Z.ltb_lt in Hb; lia.
    + split; [|reflexivity]. split; [discriminate|].
      intros Hin. apply orb_false_iff in Hw as [Ha Hb].
      apply andb_false_iff in Ha, Hb.
      rewrite !Z.leb_gt, !Z.ltb_ge in Ha, Hb. lia.
  - intros H5. rewrite (Hgen (Some "12:30:00")); [| vm_compute | ]; trivial.
  - intros H5. rewrite (Hgen (Some "13:15:00")); [| vm_compute | ]; trivial.
Qed.

Lemma regra_janela_horaria_witness :
  validar_marca ex_now (Some "12345678901") (Some "123456789")
    (Some "2025-01-06") (Some "12:30:00") = inr None
  /\ validar_marca ex_now (Some "12345678901") (Some "123456789")
       (Some "2025-01-06") (Some "13:15:00") = inr (Some erro_janela).
Proof.
  destruct (regra_janela_horaria ex_now (Some "12345678901") (Some "123456789")
              (Some "2025-01-06")) as (_ & Ha & Hb);
    try (vm_compute; reflexivity).
  split; [apply Ha | apply Hb]; vm_compute; reflexivity.
Defined.

(** C8: booking and cancellation validate with one and the same function
    of (now, patient, doctor, date, time): the two blocks return the same
    result on every input, that result is the first failure among the same
    six rules in the same order (the not-in-past and hour-window rules
    included), and a rejected request gets the same 400 response from both
    handlers, with the store left as it was. *)
Theorem validacao_partilhada (now : datetime) (paciente medico_ data hora : arg) :
  validar_marca now paciente medico_ data hora
  = validar_cancela now paciente medico_ data hora
  /\ validar_cancela now paciente medico_ data hora
     = inr (primeira_falha (regras_validacao now paciente medico_ data hora))
  /\ forall falha s clinica_ error,
       validar_marca now paciente medico_ data hora = inr (Some error) ->
       marca_consulta falha now s clinica_ paciente medico_ data hora
       = inr (erro error 400, s)
       /\ cancela_consulta falha now s clinica_ paciente medico_ data hora
          = inr (erro error 400, s).
Proof.
  split; [|split].
  - symmetry. apply validar_cancela_marca.
  - rewrite validar_cancela_marca. apply validar_marca_regras.
  - intros falha s clinica_ error Hv. split.
    + unfold marca_consulta. rewrite Hv. reflexivity.
    + unfold cancela_consulta. rewrite validar_cancela_marca, Hv. reflexivity.
Qed.

Lemma validacao_partilhada_witness :
  marca_consulta sem_falhas ex_now ex_store "Clinica A" (Some "12345678901")
    (Some "123456789") (Some "2025-01-06") (Some "13:15:00")
  = inr (erro erro_janela 400, ex_store)
  /\ cancela_consulta sem_falhas ex_now ex_store "Clinica A" (Some "12345678901")
       (Some "123456789") (Some "2025-01-06") (Some "13:15:00")
     = inr (erro erro_janela 400, ex_store).
Proof.
  apply (proj2 (proj2 (validacao_partilhada ex_now (Some "12345678901")
                         (Some "123456789") (Some "2025-01-06")
                         (Some "13:15:00")))).
  vm_compute. reflexivity.
Defined.

(* ===================================================================== *)
(** ** Booking and cancellation *)
(* ===================================================================== *)

Lemma count_pos {R} (p : R -> bool) (l : list R) :
  (count p l >? 0) = existsb p l.
Proof.
  unfold count. induction l as [|x l IH]; simpl; [reflexivity|].
  destruct (p x); simpl; [|assumption].
  apply Z.gtb_lt. lia.
Qed.

Lemma filter_find {R} (p : R -> bool) (l : list R) :
  find p l = match filter p l with x :: _ => Some x | [] => None end.
Proof.
  induction l as [|x l IH]; simpl; [reflexivity|].
  destruct (p x); [reflexivity | assumption].
Qed.

Lemma existsb_find {R} (p : R -> bool) (l : list R) :
  existsb p l = true -> exists x, find p l = Some x.
Proof.
  induction l as [|x l IH]; simpl; [discriminate|].
  destruct (p x); [eauto | assumption].
Qed.

(** A validated request has a date and a time that parse. *)
Lemma validar_marca_parse (now : datetime) (paciente medico_ data hora : arg) :
  validar_marca now paciente medico_ data hora = inr None ->
  exists x y, strptime (str data) "%Y-%m-%d" = inr x
              /\ strptime (str hora) "%H:%M:%S" = inr y.
Proof.
  rewrite validar_marca_regras. unfold regras_validacao, primeira_falha.
  destruct (regra_paciente paciente); [|discriminate].
  destruct (regra_medico medico_); [|discriminate].
  destruct (regra_data data) eqn:Hd; [|discriminate].
  destruct (regra_hora hora) eqn:Hh; [|discriminate].
  intros _. unfold regra_data, regra_hora in *.
  apply andb_true_iff in Hd as [_ Hd]. apply andb_true_iff in Hh as [_ Hh].
  apply verificar_formato_data_true in Hd as [x Hx].
  apply verificar_formato_data_true in Hh as [y Hy]. eauto.
Qed.

Lemma fetchone_nif_find (p : paciente_row -> bool) (l : list paciente_row) :
  fetchone_nif (filter p l)
  = match find p l with
    | Some r => inr (paciente_nif r)
    | None => inl (AttributeError "'NoneType' object has no attribute 'nif'")
    end.
Proof.
  induction l as [|r l IH]; simpl; [reflexivity|].
  destruct (p r); [reflexivity | assumption].
Qed.

(** One database call: either it fails and the run is decided, or the
    statement is evaluated and the known outcomes of the checks are used. *)
Ltac abre :=
  cbv beta iota zeta delta [transaction execute db_bind db_ret db_lift
    select count_clinica count_paciente count_medico count_trabalha
    count_consulta_medico count_consulta_paciente select_paciente];
  rewrite ?count_pos, ?fetchone_nif_find;
  repeat match goal with H : _ = _ |- _ => rewrite H end;
  cbv beta iota delta [negb].

Ltac caso l H :=
  match goal with
  | |- context [existsb ?p l] => destruct (existsb p l) eqn:H
  end.

Ltac chamada falha :=
  match goal with
  | |- context [match falha ?k with _ => _ end] =>
      destruct (falha k); [reflexivity|]; abre
  end.

Ltac chamadas falha :=
  cbn [primeira_avaria negb]; abre; repeat chamada falha; reflexivity.

(** The booking transaction, call by call: the first call the oracle
    fails, if there is one among the calls made, aborts it; otherwise, when
    the first four checks pass and the store cannot read the date or time
    text, the refused cast aborts it; otherwise the first check that fails
    gives the response and nothing is written; otherwise the row is
    inserted. *)
Lemma marca_transacao_run (falha : falhas) (s : store)
    (clinica_ paciente_ medico_ data hora : string) x y :
  strptime data "%Y-%m-%d" = inr x ->
  strptime hora "%H:%M:%S" = inr y ->
  transaction falha (marca_transacao falha clinica_ paciente_ medico_ data hora) s
  = match primeira_avaria falha 0
            (chamadas_marca s clinica_ paciente_ medico_ data hora) with
    | Some msg => (inl (DatabaseError msg), s)
    | None =>
        if negb (store_le data hora)
           && (4 <=? passam (verificacoes_marca s clinica_ paciente_ medico_
                               data hora))%nat
        then (inl (erro_cast data hora), s)
        else
          match primeira_falha
                  (verificacoes_marca s clinica_ paciente_ medico_ data hora) with
          | Some e => (inr e, s)
          | None =>
              (inr (sucesso_marca clinica_ paciente_ medico_ data hora),
               insert_consulta paciente_ medico_ clinica_
                 (data_de data) (hora_de hora) s)
          end
    end.
Proof.
  intros Hx Hy.
  unfold chamadas_marca, store_le, erro_cast, verificacoes_marca,
    primeira_falha, passam,
    nome_do_dia, data_de, hora_de, nif_difere, nif_do_paciente,
    existe_clinica, existe_paciente, existe_medico, trabalha_no_dia,
    medico_ocupado, paciente_ocupado.
  unfold marca_transacao, select_data_hora, insert_stmt, sql_date, sql_time,
    weekday_of.
  rewrite Hx, Hy. cbn [value]. clear Hx Hy.
  destruct (texto_simples "-" data), (texto_simples ":" hora);
    cbn [negb andb];
    (caso (clinica s) H1; [|cbn [Nat.leb]; chamadas falha]);
    (caso (paciente s) H2; [|cbn [Nat.leb]; chamadas falha]);
    (caso (medico s) H3; [|cbn [Nat.leb]; chamadas falha]);
    (caso (trabalha s) H4; [|cbn [Nat.leb]; chamadas falha]);
    cbn [Nat.leb]; try (chamadas falha);
    (caso (consulta s) H5; [chamadas falha|]);
    (caso (consulta s) H6; [chamadas falha|]);
    destruct (existsb_find _ _ H2) as [p Hp]; rewrite Hp;
    destruct (String.eqb (paciente_nif p) medico_) eqn:H7; chamadas falha.
Qed.

(** The cancellation transaction, call by call; the DELETE is the first
    statement to carry the date and time texts. *)
Lemma cancela_transacao_run (falha : falhas) (s : store)
    (clinica_ paciente_ medico_ data hora : string) x y :
  strptime data "%Y-%m-%d" = inr x ->
  strptime hora "%H:%M:%S" = inr y ->
  transaction falha (cancela_transacao falha clinica_ paciente_ medico_ data hora) s
  = match primeira_avaria falha 0
            (chamadas_cancela s clinica_ paciente_ medico_ data hora) with
    | Some msg => (inl (DatabaseError msg), s)
    | None =>
        if negb (store_le data hora)
           && (3 <=? passam (verificacoes_cancela s clinica_ paciente_ medico_))%nat
        then (inl (erro_cast data hora), s)
        else
          match primeira_falha
                  (verificacoes_cancela s clinica_ paciente_ medico_) with
          | Some e => (inr e, s)
          | None =>
              (inr (if existsb (consulta_match paciente_ medico_ clinica_
                                  (data_de data) (hora_de hora)) (consulta s)
                    then sucesso_cancela clinica_ paciente_ medico_ data hora
                    else erro_sem_consulta),
               delete_consulta paciente_ medico_ clinica_
                 (data_de data) (hora_de hora) s)
          end
    end.
Proof.
  intros Hx Hy.
  unfold chamadas_cancela, store_le, erro_cast, verificacoes_cancela,
    primeira_falha, passam,
    data_de, hora_de, existe_clinica, existe_paciente, existe_medico.
  unfold cancela_transacao, delete_stmt, sql_date, sql_time.
  rewrite Hx, Hy. cbn [value]. clear Hx Hy.
  destruct (texto_simples "-" data), (texto_simples ":" hora);
    cbn [negb andb];
    (caso (clinica s) H1; [|cbn [Nat.leb]; chamadas falha]);
    (caso (paciente s) H2; [|cbn [Nat.leb]; chamadas falha]);
    (caso (medico s) H3; [|cbn [Nat.leb]; chamadas falha]);
    cbn [Nat.leb]; try (chamadas falha);
    caso (consulta s) H4; chamadas falha.
Qed.

Lemma primeira_avaria_sem_falhas (k n : nat) :
  primeira_avaria sem_falhas k n = None.
Proof. revert k. induction n as [|n IH]; intros k; simpl; auto. Qed.

(** No call among calls [b], ..., [b + n - 1] fails. *)
Lemma primeira_avaria_nenhuma (falha : falhas) (b n : nat) :
  (forall j, (b <= j < b + n)%nat -> falha j = None) ->
  primeira_avaria falha b n = None.
Proof.
  revert b. induction n as [|n IH]; intros b Hnone; [reflexivity|].
  cbn [primeira_avaria]. rewrite Hnone by lia.
  apply IH. intros j Hj. apply Hnone. lia.
Qed.

Lemma primeira_avaria_first (falha : falhas) (k : nat) (msg : string) (n : nat) :
  forall b, (b <= k < b + n)%nat ->
    falha k = Some msg ->
    (forall j, (b <= j < k)%nat -> falha j = None) ->
    primeira_avaria falha b n = Some msg.
Proof.
  induction n as [|n IH]; intros b Hk Hmsg Hnone; [lia|]. simpl.
  destruct (Nat.eq_dec b k) as [->|Hne].
  - rewrite Hmsg. reflexivity.
  - rewrite Hnone by lia. apply IH; [lia | assumption |].
    intros j Hj. apply Hnone. lia.
Qed.

(** Deleting when no row matches leaves the store as it was. *)
Lemma delete_consulta_nada (paciente_ medico_ clinica_ : string) (d : date)
    (h : time) (s : store) :
  existsb (consulta_match paciente_ medico_ clinica_ d h) (consulta s) = false ->
  delete_consulta paciente_ medico_ clinica_ d h s = s.
Proof.
  intros Hno. unfold delete_consulta. destruct s as [c m t p k q]. cbn in *.
  f_equal. induction k as [|r k IH]; cbn in *; [reflexivity|].
  apply orb_false_iff in Hno as [Hr Hk]. rewrite Hr. cbn. f_equal. auto.
Qed.

Lemma consulta_match_spec (paciente_ medico_ clinica_ : string) (d : date)
    (h : time) (k : consulta_row) :
  consulta_match paciente_ medico_ clinica_ d h k = true <->
  consulta_ssn k = paciente_ /\ consulta_nif k = medico_
  /\ consulta_nome k = clinica_ /\ consulta_data k = d /\ consulta_hora k = h.
Proof.
  unfold consulta_match.
  rewrite !andb_true_iff, !String.eqb_eq, !Z.eqb_eq. tauto.
Qed.

(** The rows a DELETE leaves are those that differ from the request in one
    of the five columns. *)
Lemma delete_consulta_In (paciente_ medico_ clinica_ : string) (d : date)
    (h : time) (s : store) (k : consulta_row) :
  In k (consulta (delete_consulta paciente_ medico_ clinica_ d h s)) <->
  In k (consulta s)
  /\ ~ (consulta_ssn k = paciente_ /\ consulta_nif k = medico_
        /\ consulta_nome k = clinica_ /\ consulta_data k = d
        /\ consulta_hora k = h).
Proof.
  unfold delete_consulta. cbn [consulta]. rewrite filter_In.
  rewrite negb_true_iff, <- not_true_iff_false, consulta_match_spec.
  reflexivity.
Qed.

(** The errors of the seven booking checks are pairwise different, and
    none is the success response. *)
Lemma verificacoes_marca_distintas (s : store)
    (clinica_ paciente_ medico_ data hora : string) :
  NoDup (sucesso_marca clinica_ paciente_ medico_ data hora
         :: map snd (verificacoes_marca s clinica_ paciente_ medico_ data hora)).
Proof.
  unfold verificacoes_marca, sucesso_marca, erro. cbn [map snd].
  repeat constructor; cbn [In]; intros H;
    repeat match goal with
           | H : _ \/ _ |- _ => destruct H as [H|H]
           | H : False |- _ => contradiction
           end;
    try discriminate H; simpl in H; discriminate H.
Qed.


(** When no check fails, all of them pass. *)
Lemma primeira_falha_passam {E : Type} (regras : list (bool * E)) :
  primeira_falha regras = None -> passam regras = List.length regras.
Proof.
  induction regras as [|[[|] e] resto IH]; cbn [primeira_falha passam List.length];
    intros H; [reflexivity | f_equal; auto | discriminate].
Qed.







(** C9: when a database call of the transactional section fails (call [k]
    is the first to fail, and the request gets as far as making it), the
    booking and the cancellation both leave the store exactly as it was
    before the request and answer 500 with the text of the failure.  The
    same holds of the failure that is the store's refusal of the date or
    time text, in the first statement that carries them, when no call up to
    that one fails otherwise: the store is left as it was and the answer is
    a 500. *)
Theorem falha_aborta_transacao (falha : falhas) (now : datetime) (s : store)
    (clinica_ : string) (paciente_ medico_ data hora : arg)
    (k : nat) (msg : string) :
  falha k = Some msg ->
  (forall j, (j < k)%nat -> falha j = None) ->
  (validar_marca now paciente_ medico_ data hora = inr None ->
   (k < chamadas_marca s clinica_ (str paciente_) (str medico_)
          (str data) (str hora))%nat ->
   marca_consulta falha now s clinica_ paciente_ medico_ data hora
   = inr (erro msg 500, s))
  /\ (validar_cancela now paciente_ medico_ data hora = inr None ->
      (k < chamadas_cancela s clinica_ (str paciente_) (str medico_)
             (str data) (str hora))%nat ->
      cancela_consulta falha now s clinica_ paciente_ medico_ data hora
      = inr (erro msg 500, s))
  /\ (validar_marca now paciente_ medico_ data hora = inr None ->
      store_le (str data) (str hora) = false ->
      (4 <= passam (verificacoes_marca s clinica_ (str paciente_) (str medico_)
                      (str data) (str hora)))%nat ->
      (5 <= k)%nat ->
      exists msg',
        marca_consulta falha now s clinica_ paciente_ medico_ data hora
        = inr (erro msg' 500, s))
  /\ (validar_cancela now paciente_ medico_ data hora = inr None ->
      store_le (str data) (str hora) = false ->
      (3 <= passam (verificacoes_cancela s clinica_ (str paciente_)
                      (str medico_)))%nat ->
      (4 <= k)%nat ->
      exists msg',
        cancela_consulta falha now s clinica_ paciente_ medico_ data hora
        = inr (erro msg' 500, s)).
Proof.
  intros Hmsg Hnone. split; [|split; [|split]].
  - intros Hv Hk.
    destruct (validar_marca_parse _ _ _ _ _ Hv) as (x & y & Hx & Hy).
    unfold marca_consulta. rewrite Hv.
    rewrite (marca_transacao_run falha s clinica_ _ _ _ _ x y Hx Hy).
    rewrite (primeira_avaria_first falha k msg); try assumption; try lia.
    + reflexivity.
    + intros j Hj. apply Hnone. lia.
  - intros Hv Hk. rewrite validar_cancela_marca in Hv.
    destruct (validar_marca_parse _ _ _ _ _ Hv) as (x & y & Hx & Hy).
    unfold cancela_consulta. rewrite validar_cancela_marca, Hv.
    rewrite (cancela_transacao_run falha s clinica_ _ _ _ _ x y Hx Hy).
    rewrite (primeira_avaria_first falha k msg); try assumption; try lia.
    + reflexivity.
    + intros j Hj. apply Hnone. lia.
  - intros Hv Hle Hp Hk.
    destruct (validar_marca_parse _ _ _ _ _ Hv) as (x & y & Hx & Hy).
    unfold marca_consulta. rewrite Hv.
    rewrite (marca_transacao_run falha s clinica_ _ _ _ _ x y Hx Hy).
    unfold chamadas_marca. rewrite Hle.
    apply Nat.leb_le in Hp. rewrite Hp. cbn [negb andb].
    rewrite (primeira_avaria_nenhuma falha 0 5)
      by (intros j Hj; apply Hnone; lia).
    eexists. reflexivity.
  - intros Hv Hle Hp Hk. rewrite validar_cancela_marca in Hv.
    destruct (validar_marca_parse _ _ _ _ _ Hv) as (x & y & Hx & Hy).
    unfold cancela_consulta. rewrite validar_cancela_marca, Hv.
    rewrite (cancela_transacao_run falha s clinica_ _ _ _ _ x y Hx Hy).
    unfold chamadas_cancela. rewrite Hle.
    apply Nat.leb_le in Hp. rewrite Hp. cbn [negb andb].
    rewrite (primeira_avaria_nenhuma falha 0 4)
      by (intros j Hj; apply Hnone; lia).
    eexists. reflexivity.
Qed.

Lemma falha_aborta_transacao_witness :
  marca_consulta ex_falha_commit_marca ex_now ex_store "Clinica A"
    (Some "12345678901") (Some "123456789") (Some "2025-01-06") (Some "09:00:00")
  = inr (erro "could not serialize access" 500, ex_store)
  /\ cancela_consulta ex_falha_commit_cancela ex_now ex_store_marcada "Clinica A"
       (Some "12345678901") (Some "123456789") (Some "2025-01-06")
       (Some "09:00:00")
     = inr (erro "could not serialize access" 500, ex_store_marcada).
Proof.
  split.
  - apply (proj1 (falha_aborta_transacao ex_falha_commit_marca ex_now ex_store
                    "Clinica A" (Some "12345678901") (Some "123456789")
                    (Some "2025-01-06") (Some "09:00:00") 8
                    "could not serialize access" eq_refl
                    ltac:(intros j Hj; do 8 (destruct j as [|j]; [reflexivity|]); lia))).
    + vm_compute. reflexivity.
    + vm_compute. lia.
  - apply (proj1 (proj2 (falha_aborta_transacao ex_falha_commit_cancela ex_now
                    ex_store_marcada
                    "Clinica A" (Some "12345678901") (Some "123456789")
                    (Some "2025-01-06") (Some "09:00:00") 4
                    "could not serialize access" eq_refl
                    ltac:(intros j Hj; do 4 (destruct j as [|j]; [reflexivity|]); lia)))).
    + vm_compute. reflexivity.
    + vm_compute. lia.
Defined.

(* ===================================================================== *)
(** ** The listings *)
(* ===================================================================== *)

Lemma existe_clinica_In (s : store) (clinica_ : string) :
  existe_clinica s clinica_ = true <->
  exists c, In c (clinica s) /\ clinica_nome c = clinica_.
Proof.
  unfold existe_clinica. rewrite existsb_exists.
  split; intros (c & Hc & H); exists c; (split; [assumption|]);
    apply String.eqb_eq; assumption.
Qed.

Lemma select_especialidades_In (s : store) (clinica_ e : string) :
  In e (select_especialidades s clinica_) <->
  exists c t m,
    In c (clinica s) /\ In t (trabalha s) /\ In m (medico s)
    /\ clinica_nome c = clinica_ /\ trabalha_nome t = clinica_
    /\ trabalha_nif t = medico_nif m /\ medico_especialidade m = e.
Proof.
  unfold select_especialidades. rewrite nodup_In, in_flat_map. split.
  - intros (c & Hc & H). apply in_flat_map in H as (t & Ht & H).
    apply in_flat_map in H as (m & Hm & H).
    destruct (_ && _) eqn:Hb in H; [|contradiction].
    destruct H as [<-|[]].
    apply andb_true_iff in Hb as [Hb H3]. apply andb_true_iff in Hb as [H1 H2].
    apply String.eqb_eq in H1, H2, H3.
    exists c, t, m. repeat split; congruence.
  - intros (c & t & m & Hc & Ht & Hm & H1 & H2 & H3 & <-).
    exists c. split; [assumption|]. apply in_flat_map. exists t.
    split; [assumption|]. apply in_flat_map. exists m. split; [assumption|].
    replace (String.eqb (clinica_nome c) (trabalha_nome t)) with true
      by (symmetry; apply String.eqb_eq; congruence).
    replace (String.eqb (trabalha_nif t) (medico_nif m)) with true
      by (symmetry; apply String.eqb_eq; congruence).
    replace (String.eqb (clinica_nome c) clinica_) with true
      by (symmetry; apply String.eqb_eq; congruence).
    left. reflexivity.
Qed.

Lemma select_medicos_In (s : store) (clinica_ especialidade nif nome : string) :
  In (nif, nome) (select_medicos s clinica_ especialidade) <->
  exists m t c,
    In m (medico s) /\ In t (trabalha s) /\ In c (clinica s)
    /\ medico_nif m = nif /\ medico_nome m = nome
    /\ medico_especialidade m = especialidade
    /\ trabalha_nif t = nif /\ trabalha_nome t = clinica_
    /\ clinica_nome c = clinica_.
Proof.
  unfold select_medicos. rewrite nodup_In, in_flat_map. split.
  - intros (m & Hm & H). apply in_flat_map in H as (t & Ht & H).
    apply in_flat_map in H as (c & Hc & H).
    destruct (_ && _) eqn:Hb in H; [|contradiction].
    destruct H as [H|[]]. injection H as <- <-.
    apply andb_true_iff in Hb as [Hb H4]. apply andb_true_iff in Hb as [Hb H3].
    apply andb_true_iff in Hb as [H1 H2].
    apply String.eqb_eq in H1, H2, H3, H4.
    exists m, t, c. repeat split; congruence.
  - intros (m & t & c & Hm & Ht & Hc & <- & <- & H1 & H2 & H3 & H4).
    exists m. split; [assumption|]. apply in_flat_map. exists t.
    split; [assumption|]. apply in_flat_map. exists c. split; [assumption|].
    replace (String.eqb (medico_nif m) (trabalha_nif t)) with true
      by (symmetry; apply String.eqb_eq; congruence).
    replace (String.eqb (trabalha_nome t) (clinica_nome c)) with true
      by (symmetry; apply String.eqb_eq; congruence).
    replace (String.eqb (clinica_nome c) clinica_) with true
      by (symmetry; apply String.eqb_eq; congruence).
    replace (String.eqb (medico_especialidade m) especialidade) with true
      by (symmetry; apply String.eqb_eq; congruence).
    left. reflexivity.
Qed.

(** A specialty is offered at a clinic exactly when the doctors query for
    it finds somebody. *)
Lemma select_especialidades_medicos (s : store) (clinica_ e : string) :
  In e (select_especialidades s clinica_) <-> select_medicos s clinica_ e <> [].
Proof.
  rewrite select_especialidades_In. split.
  - intros (c & t & m & Hc & Ht & Hm & H1 & H2 & H3 & H4) Hnil.
    assert (Hin : In (medico_nif m, medico_nome m) (select_medicos s clinica_ e)).
    { apply select_medicos_In. exists m, t, c. repeat split; congruence. }
    rewrite Hnil in Hin. contradiction.
  - intros Hne. destruct (select_medicos s clinica_ e) as [|[nif nome] l] eqn:Hs;
      [contradiction|].
    assert (Hin : In (nif, nome) (select_medicos s clinica_ e))
      by (rewrite Hs; left; reflexivity).
    apply select_medicos_In in Hin
      as (m & t & c & Hm & Ht & Hc & H1 & H2 & H3 & H4 & H5 & H6).
    exists c, t, m. repeat split; congruence.
Qed.

(** What the doctors listing answers, by the outcome of its two lookups. *)
Lemma lista_medicos_cases (fuel : nat) (now : datetime) (s : store)
    (clinica_ especialidade : string) :
  lista_medicos_clinica_especialidade fuel now s clinica_ especialidade
  = if existe_clinica s clinica_ then
      match select_medicos s clinica_ especialidade with
      | [] => ret (erro ("Especialidade não existente na " +s clinica_ +s ": "
                         +s especialidade) 404)
      | medicos =>
          bind (for_medicos fuel now s clinica_ medicos [])
               (fun resultado => ret (Medicos resultado, 200))
      end
    else ret (erro ("Clínica não existente no sistema: " +s clinica_) 404).
Proof.
  unfold lista_medicos_clinica_especialidade, existe_clinica.
  rewrite count_pos. destruct (existsb _ _); [|reflexivity].
  destruct (select_medicos s clinica_ especialidade); reflexivity.
Qed.

Lemma for_medicos_labels (fuel : nat) (now : datetime) (s : store)
    (clinica_ : string) (medicos : list (string * string)) :
  forall resultado r,
    for_medicos fuel now s clinica_ medicos resultado = Some (inr r) ->
    map fst r
    = map fst resultado
      ++ map (fun m => snd m +s " (" +s fst m +s ")") medicos.
Proof.
  induction medicos as [|[nif nome] rest IH]; intros resultado r Hrun;
    cbn [for_medicos] in Hrun.
  - injection Hrun as <-. cbn [map]. now rewrite app_nil_r.
  - destruct (horarios_medico fuel now s clinica_ nif) as [[ex|hs]|];
      cbn [bind] in Hrun; try discriminate.
    apply IH in Hrun. rewrite Hrun, map_app, <- app_assoc. reflexivity.
Qed.

(** X1: the specialties listing answers 404 exactly when no row of
    [clinica] has the name; otherwise it answers 200 with a list without
    repetitions that holds a specialty exactly when some doctor of that
    specialty has a row in [trabalha] for the clinic. *)
Theorem lista_especialidades_clinica_spec (s : store) (clinica_ : string) :
  (lista_especialidades_clinica s clinica_
   = (Corpo (Mensagem ("Clínica não existente no sistema: " +s clinica_)
               (Some "error")), 404)
   <-> ~ exists c, In c (clinica s) /\ clinica_nome c = clinica_)
  /\ ((exists c, In c (clinica s) /\ clinica_nome c = clinica_) ->
      exists l,
        lista_especialidades_clinica s clinica_ = (Especialidades l, 200)
        /\ NoDup l
        /\ forall e, In e l <->
             exists m t, In m (medico s) /\ In t (trabalha s)
                         /\ trabalha_nome t = clinica_
                         /\ trabalha_nif t = medico_nif m
                         /\ medico_especialidade m = e).
Proof.
  unfold lista_especialidades_clinica, count_clinica. rewrite count_pos.
  fold (existe_clinica s clinica_).
  destruct (existe_clinica s clinica_) eqn:Hc.
  - apply existe_clinica_In in Hc. split.
    + split; [discriminate | intros Hn; contradiction].
    + intros _. exists (select_especialidades s clinica_).
      split; [reflexivity|]. split; [apply NoDup_nodup|].
      intros e. rewrite select_especialidades_In. split.
      * intros (c & t & m & _ & Ht & Hm & _ & H2 & H3 & H4). exists m, t. auto.
      * intros (m & t & Hm & Ht & H2 & H3 & H4).
        destruct Hc as (c & Hc & Hn). exists c, t, m. auto 10.
  - split.
    + split; [|reflexivity]. intros _ Hex. apply existe_clinica_In in Hex. congruence.
    + intros Hex. apply existe_clinica_In in Hex. congruence.
Qed.

Lemma lista_especialidades_clinica_spec_witness :
  exists l,
    lista_especialidades_clinica ex_store "Clinica A" = (Especialidades l, 200)
    /\ NoDup l
    /\ forall e, In e l <->
         exists m t, In m (medico ex_store) /\ In t (trabalha ex_store)
                     /\ trabalha_nome t = "Clinica A"
                     /\ trabalha_nif t = medico_nif m
                     /\ medico_especialidade m = e.
Proof.
  apply (proj2 (lista_especialidades_clinica_spec ex_store "Clinica A")).
  eexists. split; [left; reflexivity | reflexivity].
Defined.

(** X2: the specialties listing and the doctors listing agree: a
    specialty is in the list of a clinic exactly when the doctors listing
    for that clinic and specialty does not answer the 404 "specialty not at
    clinic" error. *)
Theorem especialidade_listada_tem_medicos (s : store) (clinica_ : string)
    (l : list string) (code : Z) :
  lista_especialidades_clinica s clinica_ = (Especialidades l, code) ->
  forall e,
    In e l <->
    forall fuel now,
      lista_medicos_clinica_especialidade fuel now s clinica_ e
      <> ret (erro ("Especialidade não existente na " +s clinica_ +s ": " +s e) 404).
Proof.
  unfold lista_especialidades_clinica, count_clinica. rewrite count_pos.
  fold (existe_clinica s clinica_).
  destruct (existe_clinica s clinica_) eqn:Hc; [|discriminate].
  intros H e. injection H as <- <-. rewrite select_especialidades_medicos. split.
  - intros Hne fuel now. rewrite lista_medicos_cases, Hc.
    destruct (select_medicos s clinica_ e) as [|m ms]; [contradiction|].
    destruct (for_medicos fuel now s clinica_ (m :: ms) []) as [[ex|r]|];
      cbn [bind ret]; discriminate.
  - intros Hall Hnil. apply (Hall O 0).
    rewrite lista_medicos_cases, Hc, Hnil. reflexivity.
Qed.

Lemma especialidade_listada_tem_medicos_witness :
  In "Cardiologia" ["Cardiologia"] <->
  forall fuel now,
    lista_medicos_clinica_especialidade fuel now ex_store "Clinica A"
      "Cardiologia"
    <> ret (erro ("Especialidade não existente na " +s "Clinica A" +s ": "
                  +s "Cardiologia") 404).
Proof.
  apply (especialidade_listada_tem_medicos ex_store "Clinica A"
           ["Cardiologia"] 200 eq_refl "Cardiologia").
Defined.

(** X3: the clinics listing holds one (name, address) pair per row of
    [clinica]: a pair is listed exactly when some row has that name and
    that address; and a name is listed exactly when the specialties listing
    for that name answers 200 rather than 404. *)
Theorem clinica_listada_consultavel (s : store) (nome : string) :
  exists rows,
    lista_clinicas s = (Clinicas rows, 200)
    /\ List.length rows = List.length (clinica s)
    /\ (forall n morada,
          In (n, morada) rows <->
          exists c, In c (clinica s)
                    /\ clinica_nome c = n /\ clinica_morada c = morada)
    /\ (In nome (map fst rows) <->
        exists l, lista_especialidades_clinica s nome = (Especialidades l, 200)).
Proof.
  eexists. split; [reflexivity|]. split; [apply length_map|]. split.
  - intros n morada. rewrite in_map_iff. split.
    + intros (c & Hc & Hin). injection Hc as Hn Hm. eauto.
    + intros (c & Hin & Hn & Hm). exists c. subst. auto.
  - rewrite map_map. cbn [fst].
    unfold lista_especialidades_clinica, count_clinica. rewrite count_pos.
    fold (existe_clinica s nome). split.
    + intros Hin. apply in_map_iff in Hin as (c & Hn & Hc).
      replace (existe_clinica s nome) with true
        by (symmetry; apply existe_clinica_In; eauto).
      eexists. reflexivity.
    + intros (l & Hl). destruct (existe_clinica s nome) eqn:Hc; [|discriminate].
      apply existe_clinica_In in Hc as (c & Hc & Hn).
      apply in_map_iff. eauto.
Qed.

(** X4: the doctors listing answers the 404 "clinic" error exactly when no
    row of [clinica] has the name, and the 404 "specialty" error exactly
    when the clinic exists and no doctor of the specialty has a row in
    [trabalha] for it; both whatever the clock and the fuel. *)
Theorem lista_medicos_erros (fuel : nat) (now : datetime) (s : store)
    (clinica_ especialidade : string) :
  (lista_medicos_clinica_especialidade fuel now s clinica_ especialidade
   = ret (erro ("Clínica não existente no sistema: " +s clinica_) 404)
   <-> ~ exists c, In c (clinica s) /\ clinica_nome c = clinica_)
  /\ (lista_medicos_clinica_especialidade fuel now s clinica_ especialidade
      = ret (erro ("Especialidade não existente na " +s clinica_ +s ": "
                   +s especialidade) 404)
      <-> (exists c, In c (clinica s) /\ clinica_nome c = clinica_)
          /\ ~ exists m t, In m (medico s) /\ In t (trabalha s)
                           /\ medico_especialidade m = especialidade
                           /\ trabalha_nif t = medico_nif m
                           /\ trabalha_nome t = clinica_).
Proof.
  rewrite lista_medicos_cases.
  assert (Hmed : select_medicos s clinica_ especialidade <> [] <->
                 (exists c, In c (clinica s) /\ clinica_nome c = clinica_)
                 /\ exists m t, In m (medico s) /\ In t (trabalha s)
                           /\ medico_especialidade m = especialidade
                           /\ trabalha_nif t = medico_nif m
                           /\ trabalha_nome t = clinica_).
  { rewrite <- select_especialidades_medicos, select_especialidades_In. split.
    - intros (c & t & m & Hc & Ht & Hm & H1 & H2 & H3 & H4).
      split; [eauto|]. exists m, t. auto.
    - intros ((c & Hc & H1) & m & t & Hm & Ht & H2 & H3 & H4).
      exists c, t, m. auto 10. }
  destruct (existe_clinica s clinica_) eqn:Hc.
  - apply existe_clinica_In in Hc.
    destruct (select_medicos s clinica_ especialidade) as [|m ms] eqn:Hs.
    + split.
      * split; [intros H; simpl in H; discriminate H | intros Hn; contradiction].
      * split; [|reflexivity]. intros _. split; [assumption|].
        intros Hex. apply (proj2 Hmed); [split; assumption | reflexivity].
    + assert (Hne : m :: ms <> []) by discriminate. apply Hmed in Hne as [_ Hex].
      destruct (for_medicos fuel now s clinica_ (m :: ms) []) as [[ex|r]|];
        cbn [bind ret]; (split; (split; [discriminate|]));
        try (intros Hn; contradiction); intros [_ Hn]; contradiction.
  - assert (Hno : ~ exists c, In c (clinica s) /\ clinica_nome c = clinica_).
    { intros Hex. apply existe_clinica_In in Hex. congruence. }
    split.
    + split; [auto | reflexivity].
    + split; [intros H; simpl in H; discriminate H | intros [Hex _]; contradiction].
Qed.

(** X5: a doctors listing that is returned has status 200 and one entry
    per distinct (nif, nome) pair the doctors query finds, in that order,
    labelled "nome (nif)"; and every such doctor has at least one working
    weekday at the clinic, so the scan never starts from an empty list of
    weekdays. *)
Theorem lista_medicos_entradas (fuel : nat) (now : datetime) (s : store)
    (clinica_ especialidade : string)
    (resultado : list (string * list (date * time))) (code : Z) :
  lista_medicos_clinica_especialidade fuel now s clinica_ especialidade
    = ret (Medicos resultado, code) ->
  code = 200
  /\ map fst resultado
     = map (fun m => snd m +s " (" +s fst m +s ")")
         (select_medicos s clinica_ especialidade)
  /\ NoDup (select_medicos s clinica_ especialidade)
  /\ forall nif nome,
       In (nif, nome) (select_medicos s clinica_ especialidade) ->
       select_dias_da_semana s nif clinica_ <> [].
Proof.
  rewrite lista_medicos_cases. intros Hrun.
  destruct (existe_clinica s clinica_); [|discriminate].
  split; [|split; [|split]].
  - destruct (select_medicos s clinica_ especialidade) as [|m ms]; [discriminate|].
    destruct (for_medicos fuel now s clinica_ (m :: ms) []) as [[ex|r]|];
      cbn [bind ret] in Hrun; try discriminate. unfold ret in Hrun. congruence.
  - destruct (select_medicos s clinica_ especialidade) as [|m ms] eqn:Hs;
      [discriminate|].
    destruct (for_medicos fuel now s clinica_ (m :: ms) []) as [[ex|r]|] eqn:Hf;
      cbn [bind ret] in Hrun; try discriminate.
    injection Hrun as <- _. apply for_medicos_labels in Hf. exact Hf.
  - apply NoDup_nodup.
  - intros nif nome Hin Hnil.
    apply select_medicos_In in Hin
      as (m & t & c & Hm & Ht & Hc & H1 & H2 & H3 & H4 & H5 & H6).
    assert (Hd : In (trabalha_dia_da_semana t) (select_dias_da_semana s nif clinica_)).
    { apply select_dias_da_semana_In. exists t. auto. }
    rewrite Hnil in Hd. contradiction.
Qed.

Lemma lista_medicos_entradas_witness :
  200 = 200
  /\ map fst ex_resultado
     = map (fun m => snd m +s " (" +s fst m +s ")")
         (select_medicos ex_store "Clinica A" "Cardiologia")
  /\ NoDup (select_medicos ex_store "Clinica A" "Cardiologia")
  /\ forall nif nome,
       In (nif, nome) (select_medicos ex_store "Clinica A" "Cardiologia") ->
       select_dias_da_semana ex_store nif "Clinica A" <> [].
Proof.
  apply (lista_medicos_entradas 40 ex_now ex_store "Clinica A" "Cardiologia"
           ex_resultado 200).
  vm_compute. reflexivity.
Defined.

(* ===================================================================== *)
(** ** The scan lists the earliest slots *)
(* ===================================================================== *)

Lemma gerar_dia_grelha (fuel : nat) (d : date) (hp : list datetime) :
  gerar_horarios_disponiveis fuel (combine d inicio_horario)
    (combine d fim_horario) intervalo_minutos = Some (inr hp) ->
  hp = grelha_do_dia d.
Proof.
  intros H. unfold gerar_horarios_disponiveis in H.
  apply gerar_loop_ret in H; [|reflexivity]. exact H.
Qed.

(** The inner loop keeps what was collected and takes every acceptable
    instant of the day, unless three are already collected, all earlier. *)
Lemma for_horarios_complete (now : datetime) (consultas : list (date * time))
    (hp : list datetime) :
  forall hd,
    StronglySorted Z.lt (hd ++ hp) ->
    (forall x, In x hd -> In x (for_horarios now consultas hp hd))
    /\ forall h, In h hp -> now < h ->
         (forall c, In c consultas -> h <> combine (fst c) (snd c)) ->
         In h (for_horarios now consultas hp hd)
         \/ ((3 <= List.length (for_horarios now consultas hp hd))%nat
             /\ forall x, In x (for_horarios now consultas hp hd) -> x < h).
Proof.
  induction hp as [|horario rest IH]; intros hd Hs; cbn [for_horarios].
  - split; [auto | intros h []].
  - destruct (Z.of_nat (List.length hd) >=? 3) eqn:Hbrk.
    + split; [auto|]. intros h Hh _ _. right. split; [lia|].
      intros x Hx. apply sorted_app in Hs as (_ & _ & Hlt). auto.
    + destruct ((horario >? now) && forallb _ consultas) eqn:Hok.
      * destruct (IH (hd ++ [horario])) as [Hkeep Hall].
        { rewrite <- app_assoc. exact Hs. }
        split.
        -- intros x Hx. apply Hkeep, in_app_iff. left. assumption.
        -- intros h [<-|Hh] Hnow Hfree; [|auto].
           left. apply Hkeep, in_app_iff. right. left. reflexivity.
      * destruct (IH hd) as [Hkeep Hall].
        { apply sorted_app in Hs as (Ha & Hb & Hab).
          apply sorted_app. inversion Hb; subst.
          repeat split; [assumption | assumption |].
          intros x y Hx Hy. apply Hab; [assumption | right; assumption]. }
        split; [assumption|].
        intros h [<-|Hh] Hnow Hfree; [|auto].
        exfalso. apply andb_false_iff in Hok as [Hok|Hok].
        -- rewrite Z.gtb_ltb in Hok. apply Z.ltb_ge in Hok. lia.
        -- assert (Ht : forallb (fun c => negb (horario =? combine (fst c) (snd c)))
                          consultas = true).
           { apply forallb_forall. intros c Hc. apply negb_true_iff, Z.eqb_neq.
             auto. }
           congruence.
Qed.

(** Whenever the scan returns, it returns three instants it could list,
    and every other instant it could list is later than all three. *)
Lemma scan_primeiros (now : datetime) (dias : list Z)
    (consultas : list (date * time)) (fuel : nat) :
  forall hd d r,
    scan fuel now dias consultas hd d = Some (inr r) ->
    (List.length hd <= 3)%nat ->
    StronglySorted Z.lt hd ->
    (forall x, In x hd -> dt_date x < d /\ oferecivel now dias consultas x) ->
    (forall h, oferecivel now dias consultas h -> dt_date h < d ->
       In h hd \/ ((3 <= List.length hd)%nat /\ forall x, In x hd -> x < h)) ->
    (forall x, In x r -> oferecivel now dias consultas x)
    /\ forall h, oferecivel now dias consultas h ->
         In h r \/ forall x, In x r -> x < h.
Proof.
  induction fuel as [|fuel IH]; intros hd d r Hrun Hlen Hs Hinv Hfirst;
    [discriminate|]. cbn [scan] in Hrun.
  destruct (Z.of_nat (List.length hd) <? 3) eqn:Hlt.
  - assert (Hstep : forall hd',
      bind (lift (date_add d (timedelta_days 1)))
           (fun d' => scan fuel now dias consultas hd' d') = Some (inr r) ->
      (List.length hd' <= 3)%nat -> StronglySorted Z.lt hd' ->
      (forall x, In x hd' -> dt_date x <= d /\ oferecivel now dias consultas x) ->
      (forall h, oferecivel now dias consultas h -> dt_date h <= d ->
         In h hd' \/ ((3 <= List.length hd')%nat /\ forall x, In x hd' -> x < h)) ->
      (forall x, In x r -> oferecivel now dias consultas x)
      /\ forall h, oferecivel now dias consultas h ->
           In h r \/ forall x, In x r -> x < h).
    { intros hd' Hrun' Hlen' Hs' Hinv' Hfirst'.
      unfold lift, date_add, timedelta_days in Hrun'.
      destruct ((0 <? d + 1) && (d + 1 <=? MAXORDINAL)); cbn [bind] in Hrun';
        [|discriminate].
      apply IH in Hrun'; try assumption.
      - intros x Hx. apply Hinv' in Hx. split; [lia | apply Hx].
      - intros h Hh Hd. apply Hfirst'; [assumption | lia]. }
    apply Z.ltb_lt in Hlt.
    destruct (existsb (Z.eqb (weekday d)) dias) eqn:Hdia.
    + destruct (gerar_horarios_disponiveis (S fuel) _ _ _) as [[e|hp]|] eqn:Hger;
        cbn [bind ret] in Hrun; try discriminate.
      pose proof (gerar_dia_grelha _ _ _ Hger) as Hgrid.
      apply gerar_dia in Hger as [Hsp Hdate].
      apply existsb_exists in Hdia as (w & Hw & Heq). apply Z.eqb_eq in Heq. subst w.
      assert (Hsorted : StronglySorted Z.lt (hd ++ hp)).
      { apply sorted_app. repeat split; [assumption | assumption |].
        intros x y Hx Hy. apply datetime_lt_lex. left.
        apply Hinv in Hx. apply Hdate in Hy. lia. }
      destruct (for_horarios_inv now consultas hp hd Hsorted Hlen) as (H1 & H2 & H3).
      destruct (for_horarios_complete now consultas hp hd Hsorted) as [Hkeep Hall].
      apply Hstep in Hrun; try assumption.
      * intros x Hx. apply H3 in Hx as [Hx | (Hx & Hnow & Hfree)].
        -- apply Hinv in Hx. split; [lia | apply Hx].
        -- pose proof (Hdate _ Hx) as Hdx. split; [lia|]. split.
           ++ rewrite Hdx, <- Hgrid. assumption.
           ++ repeat split; [assumption | rewrite Hdx; assumption | assumption].
      * intros h Hh Hd. destruct (Z.eq_dec (dt_date h) d) as [Heq|Hne].
        -- destruct Hh as (Hg & Hnow & _ & Hfree). rewrite Heq, <- Hgrid in Hg. auto.
        -- destruct (Hfirst h Hh) as [Hin | [Hfull _]]; [lia | auto | lia].
    + cbn [bind ret] in Hrun. apply Hstep in Hrun; try assumption.
      * intros x Hx. apply Hinv in Hx. split; [lia | apply Hx].
      * intros h Hh Hd. destruct (Z.eq_dec (dt_date h) d) as [Heq|Hne].
        -- exfalso. destruct Hh as (_ & _ & Hw & _). rewrite Heq in Hw.
           assert (Ht : existsb (Z.eqb (weekday d)) dias = true).
           { apply existsb_exists. exists (weekday d).
             split; [assumption | apply Z.eqb_refl]. }
           congruence.
        -- apply Hfirst; [assumption | lia].
  - injection Hrun as <-. apply Z.ltb_ge in Hlt. split.
    + intros x Hx. apply Hinv, Hx.
    + intros h Hh. destruct (Z_lt_le_dec (dt_date h) d) as [Hd|Hd].
      * destruct (Hfirst h Hh Hd) as [Hin | [_ Hall]]; auto.
      * right. intros x Hx. apply Hinv in Hx as [Hx _].
        apply datetime_lt_lex. left. lia.
Qed.

(** X6: the slots listed for a doctor are the three earliest instants the
    doctor can be offered: each listed instant is one of its day's
    generated instants, after [now], on a working weekday and at none of
    the doctor's fetched appointments, and every instant with those
    properties that is not listed is later than the three listed. *)
Theorem horarios_medico_primeiros (fuel : nat) (now : datetime) (s : store)
    (clinica_ nif : string) (r : list datetime) :
  horarios_medico fuel now s clinica_ nif = ret r ->
  (forall x, In x r ->
     oferecivel now (select_dias_da_semana s nif clinica_)
       (select_consultas_existentes s nif now) x)
  /\ forall h,
       oferecivel now (select_dias_da_semana s nif clinica_)
         (select_consultas_existentes s nif now) h ->
       In h r \/ forall x, In x r -> x < h.
Proof.
  intros Hrun. unfold horarios_medico in Hrun.
  apply scan_primeiros in Hrun; [assumption | simpl; lia | constructor | |].
  - intros x [].
  - intros h (_ & Hnow & _) Hd. exfalso.
    pose proof (dt_date_mono now h). lia.
Qed.

Lemma horarios_medico_primeiros_witness :
  (forall x, In x ex_horarios ->
     oferecivel ex_now (select_dias_da_semana ex_store "123456789" "Clinica A")
       (select_consultas_existentes ex_store "123456789" ex_now) x)
  /\ forall h,
       oferecivel ex_now (select_dias_da_semana ex_store "123456789" "Clinica A")
         (select_consultas_existentes ex_store "123456789" ex_now) h ->
       In h ex_horarios \/ forall x, In x ex_horarios -> x < h.
Proof.
  apply (horarios_medico_primeiros 40 ex_now ex_store "Clinica A" "123456789"
           ex_horarios).
  vm_compute. reflexivity.
Defined.

(* ===================================================================== *)
(** ** The slots of a working day *)
(* ===================================================================== *)

Lemma filter_map_comm {A B} (p : B -> bool) (f : A -> B) (l : list A) :
  filter p (map f l) = map f (filter (fun a => p (f a)) l).
Proof.
  induction l as [|a l IH]; simpl; [reflexivity|].
  destruct (p (f a)); simpl; rewrite IH; reflexivity.
Qed.

Lemma passos_dia (d : date) :
  passos (combine d inicio_horario) (combine d fim_horario)
    (timedelta_minutes intervalo_minutos) = 22%nat.
Proof.
  unfold passos, combine.
  replace (d * US_PER_DAY + fim_horario - (d * US_PER_DAY + inicio_horario)
           + timedelta_minutes intervalo_minutos - 1)
    with (fim_horario - inicio_horario + timedelta_minutes intervalo_minutos - 1)
    by lia.
  vm_compute. reflexivity.
Qed.

Lemma fora_do_almoco_dia (d : date) (k : nat) :
  (k < 22)%nat ->
  fora_do_almoco (combine d inicio_horario
                  + Z.of_nat k * timedelta_minutes intervalo_minutos)
  = negb (Nat.eqb k 10) && negb (Nat.eqb k 11).
Proof.
  intros Hk. unfold fora_do_almoco.
  replace (combine d inicio_horario
           + Z.of_nat k * timedelta_minutes intervalo_minutos)
    with (combine d (inicio_horario
                     + Z.of_nat k * timedelta_minutes intervalo_minutos))
    by (unfold combine; lia).
  rewrite dt_time_combine.
  - do 22 (destruct k as [|k]; [vm_compute; reflexivity|]). lia.
  - rewrite inicio_horario_eq.
    unfold mk_time, timedelta_minutes, intervalo_minutos, US_PER_SECOND, US_PER_DAY.
    lia.
Qed.

(** The instants generated for the working hours of any day. *)
Lemma grelha_do_dia_eq (d : date) :
  grelha_do_dia d
  = map (fun k => combine d inicio_horario
                  + Z.of_nat k * timedelta_minutes intervalo_minutos)
      meias_horas.
Proof.
  unfold grelha_do_dia, candidatos. rewrite passos_dia, filter_map_comm.
  f_equal.
  rewrite (filter_ext_in _ (fun k => negb (Nat.eqb k 10) && negb (Nat.eqb k 11))).
  - reflexivity.
  - intros k Hk. apply in_seq in Hk. apply fora_do_almoco_dia. lia.
Qed.

(** On a date of the calendar the day's generator returns its instants. *)
Lemma gerar_dia_ret (d : date) (fuel : nat) :
  1 <= d <= MAXORDINAL ->
  (23 <= fuel)%nat ->
  gerar_horarios_disponiveis fuel (combine d inicio_horario)
    (combine d fim_horario) intervalo_minutos
  = ret (grelha_do_dia d).
Proof.
  intros Hd Hfuel.
  assert (Hpos : 0 < timedelta_minutes intervalo_minutos) by reflexivity.
  destruct (gerar_loop_total 22 fuel [] (combine d inicio_horario)
              (combine d fim_horario) intervalo_minutos Hpos) as [r Hr].
  - symmetry. apply passos_dia.
  - lia.
  - rewrite dt_date_combine; [lia | vm_compute; split; [discriminate | reflexivity]].
  - replace (combine d inicio_horario
             + Z.of_nat 22 * timedelta_minutes intervalo_minutos)
      with (combine d fim_horario)
      by (unfold combine; rewrite inicio_horario_eq, fim_horario_eq;
          unfold mk_time, timedelta_minutes, intervalo_minutos, US_PER_SECOND; lia).
    rewrite dt_date_combine; [lia | vm_compute; split; [discriminate | reflexivity]].
  - unfold gerar_horarios_disponiveis. rewrite Hr.
    apply gerar_loop_ret in Hr; [|assumption]. subst r. reflexivity.
Qed.

(** X7: for every date of the calendar and every fuel from 23 on, the
    generator called as the scan calls it (08:00 to 19:00, 30 minutes)
    returns the same 20 instants: the half-hours from 08:00 to 12:30 and
    from 14:00 to 18:30 of that date, in increasing order. *)
Theorem gerar_horarios_dia (d : date) (fuel : nat) :
  1 <= d <= MAXORDINAL ->
  (23 <= fuel)%nat ->
  gerar_horarios_disponiveis fuel (combine d inicio_horario)
    (combine d fim_horario) intervalo_minutos
  = ret (map (fun k => combine d (mk_time 8 0 0)
                       + Z.of_nat k * timedelta_minutes 30)
           meias_horas)
  /\ List.length meias_horas = 20%nat.
Proof.
  intros Hd Hfuel. split; [|reflexivity].
  rewrite gerar_dia_ret by assumption.
  rewrite grelha_do_dia_eq, inicio_horario_eq. reflexivity.
Qed.

Lemma gerar_horarios_dia_witness :
  gerar_horarios_disponiveis 23 (combine dia_2025_01_06 inicio_horario)
    (combine dia_2025_01_06 fim_horario) intervalo_minutos
  = ret (map (fun k => combine dia_2025_01_06 (mk_time 8 0 0)
                       + Z.of_nat k * timedelta_minutes 30)
           meias_horas)
  /\ List.length meias_horas = 20%nat.
Proof.
  apply (gerar_horarios_dia dia_2025_01_06 23).
  - vm_compute. split; discriminate.
  - apply le_n.
Defined.

(** A generated instant of a day is inside the validator's hour window. *)
Lemma grelha_na_janela (h : datetime) :
  In h (grelha_do_dia (dt_date h)) -> na_janela (dt_time h) = true.
Proof.
  rewrite grelha_do_dia_eq. intros Hin.
  apply in_map_iff in Hin as (k & Hk & Hin).
  assert (Ht : dt_time h = inicio_horario
                           + Z.of_nat k * timedelta_minutes intervalo_minutos).
  { assert (Hk22 : (k < 22)%nat).
    { unfold meias_horas in Hin. simpl in Hin.
      repeat (destruct Hin as [<-|Hin]; [lia|]). contradiction. }
    rewrite <- Hk at 1.
    replace (combine (dt_date h) inicio_horario
             + Z.of_nat k * timedelta_minutes intervalo_minutos)
      with (combine (dt_date h)
              (inicio_horario + Z.of_nat k * timedelta_minutes intervalo_minutos))
      by (unfold combine; lia).
    apply dt_time_combine. rewrite inicio_horario_eq.
    unfold mk_time, timedelta_minutes, intervalo_minutos, US_PER_SECOND, US_PER_DAY.
    lia. }
  rewrite Ht. unfold meias_horas in Hin. simpl in Hin.
  repeat (destruct Hin as [<-|Hin]; [vm_compute; reflexivity|]). contradiction.
Qed.

(** X8: with an interval that is not positive and a start before the end,
    the generator never returns a list: with 0 minutes the loop never ends,
    whatever the fuel. *)
Theorem gerar_horarios_intervalo_nao_positivo (inicio fim : datetime)
    (intervalo : Z) :
  inicio < fim ->
  intervalo <= 0 ->
  (forall fuel horarios,
     gerar_horarios_disponiveis fuel inicio fim intervalo <> ret horarios)
  /\ (intervalo = 0 -> 1 <= dt_date inicio <= MAXORDINAL ->
      forall fuel, gerar_horarios_disponiveis fuel inicio fim intervalo = None).
Proof.
  intros Hlt Hiv.
  assert (Hd : timedelta_minutes intervalo <= 0)
    by (unfold timedelta_minutes, US_PER_SECOND; lia).
  split.
  - intros fuel. unfold gerar_horarios_disponiveis. generalize (@nil datetime).
    revert inicio Hlt. induction fuel as [|fuel IH]; intros inicio Hlt acc horarios;
      simpl; [discriminate|].
    replace (inicio <? fim) with true by (symmetry; apply Z.ltb_lt; lia).
    unfold lift, bind, datetime_add.
    destruct (_ && _); [|discriminate]. apply IH. lia.
  - intros -> Hr fuel. unfold gerar_horarios_disponiveis. generalize (@nil datetime).
    induction fuel as [|fuel IH]; intros acc; simpl; [reflexivity|].
    replace (inicio <? fim) with true by (symmetry; apply Z.ltb_lt; lia).
    unfold lift, bind, datetime_add.
    replace (inicio + timedelta_minutes 0) with inicio
      by (unfold timedelta_minutes; lia).
    replace (0 <? dt_date inicio) with true by (symmetry; apply Z.ltb_lt; lia).
    replace (dt_date inicio <=? MAXORDINAL) with true
      by (symmetry; apply Z.leb_le; lia).
    simpl. apply IH.
Qed.

Lemma gerar_horarios_intervalo_nao_positivo_witness :
  (forall fuel horarios,
     gerar_horarios_disponiveis fuel ex_inicio ex_fim 0 <> ret horarios)
  /\ (0 = 0 -> 1 <= dt_date ex_inicio <= MAXORDINAL ->
      forall fuel, gerar_horarios_disponiveis fuel ex_inicio ex_fim 0 = None).
Proof.
  apply (gerar_horarios_intervalo_nao_positivo ex_inicio ex_fim 0).
  - vm_compute. reflexivity.
  - vm_compute. discriminate.
Defined.

(* ===================================================================== *)
(** ** Listed slots can be booked *)
(* ===================================================================== *)

Lemma existe_medico_In (s : store) (nif : string) :
  existe_medico s nif = true <-> exists m, In m (medico s) /\ medico_nif m = nif.
Proof.
  unfold existe_medico. rewrite existsb_exists.
  split; intros (m & Hm & H); exists m; (split; [assumption|]);
    apply String.eqb_eq; assumption.
Qed.

Lemma trabalha_no_dia_In (s : store) (medico_ clinica_ : string) (dia : Z) :
  trabalha_no_dia s medico_ clinica_ dia = true <->
  exists t, In t (trabalha s) /\ trabalha_nif t = medico_
            /\ trabalha_nome t = clinica_ /\ trabalha_dia_da_semana t = dia.
Proof.
  unfold trabalha_no_dia. rewrite existsb_exists. split.
  - intros (t & Ht & H). apply andb_true_iff in H as [H H3].
    apply andb_true_iff in H as [H1 H2].
    apply String.eqb_eq in H1, H2. apply Z.eqb_eq in H3. exists t. auto.
  - intros (t & Ht & H1 & H2 & H3). exists t. split; [assumption|].
    rewrite !andb_true_iff. repeat split;
      [apply String.eqb_eq | apply String.eqb_eq | apply Z.eqb_eq]; assumption.
Qed.

Lemma medico_ocupado_false (s : store) (medico_ : string) (d : date) (h : time) :
  medico_ocupado s medico_ d h = false <->
  forall k, In k (consulta s) -> consulta_nif k = medico_ ->
    (d, h) <> (consulta_data k, consulta_hora k).
Proof.
  unfold medico_ocupado. rewrite <- not_true_iff_false, existsb_exists. split.
  - intros Hno k Hk Hnif Heq. injection Heq as -> ->. apply Hno. exists k.
    split; [assumption|]. rewrite !andb_true_iff.
    repeat split; [apply String.eqb_eq; assumption | apply Z.eqb_refl | apply Z.eqb_refl].
  - intros Hall (k & Hk & H). apply andb_true_iff in H as [H H3].
    apply andb_true_iff in H as [H1 H2].
    apply String.eqb_eq in H1. apply Z.eqb_eq in H2, H3.
    apply (Hall k Hk H1). congruence.
Qed.

(** X9: every slot of a doctors listing would pass the validator's rules
    5 and 6 at the same [now] (it is not before [now] and its time of day
    is inside the hour window), and passes the four booking checks that do
    not depend on the patient: the clinic exists, the doctor exists, the
    doctor works at the clinic on the slot's weekday, and the doctor has no
    appointment at the slot. *)
Theorem lista_medicos_slots_marcaveis (fuel : nat) (now : datetime) (s : store)
    (clinica_ especialidade : string)
    (resultado : list (string * list (date * time))) (code : Z) :
  lista_medicos_clinica_especialidade fuel now s clinica_ especialidade
    = ret (Medicos resultado, code) ->
  forall label slots, In (label, slots) resultado ->
    exists nif nome,
      In (nif, nome) (select_medicos s clinica_ especialidade)
      /\ label = nome +s " (" +s nif +s ")"
      /\ forall slot, In slot slots ->
           (combine (fst slot) (snd slot) <? now) = false
           /\ na_janela (snd slot) = true
           /\ existe_clinica s clinica_ = true
           /\ existe_medico s nif = true
           /\ trabalha_no_dia s nif clinica_ (weekday (fst slot)) = true
           /\ medico_ocupado s nif (fst slot) (snd slot) = false.
Proof.
  intros Hrun label slots He.
  assert (Hcl : existe_clinica s clinica_ = true).
  { rewrite lista_medicos_cases in Hrun.
    destruct (existe_clinica s clinica_); [reflexivity | discriminate]. }
  apply (lista_medicos_entries _ _ _ _ _ _ _ Hrun) in He
    as (nif & nome & hs & Hin & Hm & Heq).
  injection Heq as -> ->. exists nif, nome.
  split; [assumption|]. split; [reflexivity|].
  pose proof (horarios_medico_inv _ _ _ _ _ _ Hm) as (_ & _ & Hall).
  unfold horarios_medico in Hm.
  apply scan_primeiros in Hm as [Hof _];
    [| simpl; lia | constructor | intros x [] |
     intros h (_ & Hnow & _) Hd; exfalso; pose proof (dt_date_mono now h); lia].
  intros slot Hslot. apply in_map_iff in Hslot as (h & <- & Hh). cbn [fst snd].
  destruct (Hall h Hh) as (Hnow & Hdia & Hfree).
  destruct (Hof h Hh) as (Hgrid & _).
  rewrite combine_date_time.
  split; [apply Z.ltb_ge; lia|]. split; [apply grelha_na_janela; assumption|].
  split; [assumption|]. split.
  - apply select_medicos_In in Hin
      as (m & t & c & Hmm & Ht & Hc & H1 & H2 & H3 & H4 & H5 & H6).
    apply existe_medico_In. eauto.
  - split; [apply trabalha_no_dia_In; assumption|].
    apply medico_ocupado_false. assumption.
Qed.

Lemma lista_medicos_slots_marcaveis_witness :
  exists nif nome,
    In (nif, nome) (select_medicos ex_store "Clinica A" "Cardiologia")
    /\ "Ana (123456789)" = nome +s " (" +s nif +s ")"
    /\ forall slot, In slot ex_slots ->
         (combine (fst slot) (snd slot) <? ex_now) = false
         /\ na_janela (snd slot) = true
         /\ existe_clinica ex_store "Clinica A" = true
         /\ existe_medico ex_store nif = true
         /\ trabalha_no_dia ex_store nif "Clinica A" (weekday (fst slot)) = true
         /\ medico_ocupado ex_store nif (fst slot) (snd slot) = false.
Proof.
  apply (lista_medicos_slots_marcaveis 40 ex_now ex_store "Clinica A"
           "Cardiologia" ex_resultado 200).
  - vm_compute. reflexivity.
  - left. reflexivity.
Defined.

(* ===================================================================== *)
(** ** Sequences of bookings and cancellations *)
(* ===================================================================== *)

Lemma primeira_falha_In {E} (regras : list (bool * E)) (e : E) :
  primeira_falha regras = Some e -> In e (map snd regras).
Proof.
  induction regras as [|[b x] l IH]; simpl; [discriminate|].
  destruct b; [auto|]. intros H. injection H as <-. auto.
Qed.

(** A validated booking, whatever the database does. *)
Lemma marca_consulta_run (falha : falhas) (now : datetime) (s : store)
    (clinica_ : string) (paciente_ medico_ data hora : arg) :
  validar_marca now paciente_ medico_ data hora = inr None ->
  marca_consulta falha now s clinica_ paciente_ medico_ data hora
  = inr match primeira_avaria falha 0
                (chamadas_marca s clinica_ (str paciente_) (str medico_)
                   (str data) (str hora)) with
        | Some msg => (erro msg 500, s)
        | None =>
            if negb (store_le (str data) (str hora))
               && (4 <=? passam (verificacoes_marca s clinica_ (str paciente_)
                                   (str medico_) (str data) (str hora)))%nat
            then (erro (str_exn (erro_cast (str data) (str hora))) 500, s)
            else
              match primeira_falha
                      (verificacoes_marca s clinica_ (str paciente_)
                         (str medico_) (str data) (str hora)) with
              | Some e => (e, s)
              | None =>
                  (sucesso_marca clinica_ (str paciente_) (str medico_)
                     (str data) (str hora),
                   insert_consulta (str paciente_) (str medico_) clinica_
                     (data_de (str data)) (hora_de (str hora)) s)
              end
        end.
Proof.
  intros Hv. destruct (validar_marca_parse _ _ _ _ _ Hv) as (x & y & Hx & Hy).
  unfold marca_consulta. rewrite Hv.
  rewrite (marca_transacao_run falha s clinica_ _ _ _ _ x y Hx Hy).
  destruct (primeira_avaria _ _ _); [reflexivity|].
  destruct (negb _ && _); [reflexivity|].
  destruct (primeira_falha _); reflexivity.
Qed.

(** A validated cancellation, whatever the database does. *)
Lemma cancela_consulta_run (falha : falhas) (now : datetime) (s : store)
    (clinica_ : string) (paciente_ medico_ data hora : arg) :
  validar_cancela now paciente_ medico_ data hora = inr None ->
  cancela_consulta falha now s clinica_ paciente_ medico_ data hora
  = inr match primeira_avaria falha 0
                (chamadas_cancela s clinica_ (str paciente_) (str medico_)
                   (str data) (str hora)) with
        | Some msg => (erro msg 500, s)
        | None =>
            if negb (store_le (str data) (str hora))
               && (3 <=? passam (verificacoes_cancela s clinica_ (str paciente_)
                                   (str medico_)))%nat
            then (erro (str_exn (erro_cast (str data) (str hora))) 500, s)
            else
              match primeira_falha
                      (verificacoes_cancela s clinica_ (str paciente_)
                         (str medico_)) with
              | Some e => (e, s)
              | None =>
                  (if existsb (consulta_match (str paciente_) (str medico_)
                                 clinica_ (data_de (str data))
                                 (hora_de (str hora)))
                        (consulta s)
                   then sucesso_cancela clinica_ (str paciente_) (str medico_)
                          (str data) (str hora)
                   else erro_sem_consulta,
                   delete_consulta (str paciente_) (str medico_) clinica_
                     (data_de (str data)) (hora_de (str hora)) s)
              end
        end.
Proof.
  intros Hv. pose proof Hv as Hv'. rewrite validar_cancela_marca in Hv'.
  destruct (validar_marca_parse _ _ _ _ _ Hv') as (x & y & Hx & Hy).
  unfold cancela_consulta. rewrite Hv.
  rewrite (cancela_transacao_run falha s clinica_ _ _ _ _ x y Hx Hy).
  destruct (primeira_avaria _ _ _); [reflexivity|].
  destruct (negb _ && _); [reflexivity|].
  destruct (primeira_falha _); reflexivity.
Qed.

(** When every check passes, the test that guards the refused cast is the
    test that the store does not read the texts. *)
Lemma cast_recusado_todas {E : Type} (le : bool) (n : nat)
    (regras : list (bool * E)) :
  primeira_falha regras = None ->
  (n <= List.length regras)%nat ->
  negb le && (n <=? passam regras)%nat = negb le.
Proof.
  intros Hf Hn. rewrite (primeira_falha_passam _ Hf).
  apply Nat.leb_le in Hn. rewrite Hn. apply andb_true_r.
Qed.

(** A booking answered with the success response passed validation and
    every check, its texts were read by the store, and it inserted the
    row. *)
Lemma marca_sucesso_inv (falha : falhas) (now : datetime) (s s' : store)
    (clinica_ : string) (paciente_ medico_ data hora : arg) :
  marca_consulta falha now s clinica_ paciente_ medico_ data hora
  = inr (sucesso_marca clinica_ (str paciente_) (str medico_)
           (str data) (str hora), s') ->
  validar_marca now paciente_ medico_ data hora = inr None
  /\ primeira_falha (verificacoes_marca s clinica_ (str paciente_)
                       (str medico_) (str data) (str hora)) = None
  /\ s' = insert_consulta (str paciente_) (str medico_) clinica_
            (data_de (str data)) (hora_de (str hora)) s
  /\ store_le (str data) (str hora) = true.
Proof.
  intros Hrun.
  destruct (validar_marca now paciente_ medico_ data hora) as [e|[error|]] eqn:Hv.
  - unfold marca_consulta in Hrun. rewrite Hv in Hrun. discriminate.
  - unfold marca_consulta in Hrun. rewrite Hv in Hrun. discriminate.
  - rewrite (marca_consulta_run _ _ _ _ _ _ _ _ Hv) in Hrun.
    destruct (primeira_avaria _ _ _); [discriminate|].
    destruct (negb _ && _) eqn:Hc; [discriminate|].
    destruct (primeira_falha _) as [e|] eqn:Hf.
    + exfalso. apply primeira_falha_In in Hf.
      pose proof (verificacoes_marca_distintas s clinica_ (str paciente_)
                    (str medico_) (str data) (str hora)) as Hnd.
      inversion Hnd as [|? ? Hnot _]; subst. apply Hnot.
      injection Hrun as <- _. assumption.
    + rewrite (cast_recusado_todas _ 4 _ Hf) in Hc by (cbn; lia).
      apply negb_false_iff in Hc.
      injection Hrun as <-. auto.
Qed.

(** A cancellation answered with the success response passed validation
    and the three checks, its texts were read by the store, and it found a
    row and deleted the matching rows. *)
Lemma cancela_sucesso_inv (falha : falhas) (now : datetime) (s s' : store)
    (clinica_ : string) (paciente_ medico_ data hora : arg) :
  cancela_consulta falha now s clinica_ paciente_ medico_ data hora
  = inr (sucesso_cancela clinica_ (str paciente_) (str medico_)
           (str data) (str hora), s') ->
  validar_cancela now paciente_ medico_ data hora = inr None
  /\ primeira_falha (verificacoes_cancela s clinica_ (str paciente_)
                       (str medico_)) = None
  /\ existsb (consulta_match (str paciente_) (str medico_) clinica_
                (data_de (str data)) (hora_de (str hora))) (consulta s) = true
  /\ s' = delete_consulta (str paciente_) (str medico_) clinica_
            (data_de (str data)) (hora_de (str hora)) s
  /\ store_le (str data) (str hora) = true.
Proof.
  intros Hrun.
  destruct (validar_cancela now paciente_ medico_ data hora) as [e|[error|]] eqn:Hv.
  - unfold cancela_consulta in Hrun. rewrite Hv in Hrun. discriminate.
  - unfold cancela_consulta in Hrun. rewrite Hv in Hrun. discriminate.
  - rewrite (cancela_consulta_run _ _ _ _ _ _ _ _ Hv) in Hrun.
    destruct (primeira_avaria _ _ _); [discriminate|].
    destruct (negb _ && _) eqn:Hc; [discriminate|].
    destruct (primeira_falha _) as [e|] eqn:Hf.
    + exfalso. apply primeira_falha_In in Hf.
      injection Hrun as He _. subst e.
      unfold verificacoes_cancela, erro, sucesso_cancela in Hf.
      cbn [map snd In] in Hf.
      destruct Hf as [Hf|[Hf|[Hf|[]]]]; discriminate Hf.
    + rewrite (cast_recusado_todas _ 3 _ Hf) in Hc by (cbn; lia).
      apply negb_false_iff in Hc.
      destruct (existsb _ (consulta s)); [|discriminate].
      injection Hrun as <-. auto.
Qed.

(** The seven checks of a booking that passes them all. *)
Lemma verificacoes_marca_passam (s : store)
    (clinica_ paciente_ medico_ data hora : string) :
  primeira_falha (verificacoes_marca s clinica_ paciente_ medico_ data hora)
    = None ->
  existe_clinica s clinica_ = true
  /\ existe_paciente s paciente_ = true
  /\ existe_medico s medico_ = true
  /\ trabalha_no_dia s medico_ clinica_ (weekday (data_de data)) = true
  /\ medico_ocupado s medico_ (data_de data) (hora_de hora) = false
  /\ paciente_ocupado s paciente_ (data_de data) (hora_de hora) = false
  /\ nif_difere s paciente_ medico_ = true.
Proof.
  unfold verificacoes_marca, primeira_falha.
  destruct (existe_clinica _ _); [|discriminate].
  destruct (existe_paciente _ _); [|discriminate].
  destruct (existe_medico _ _); [|discriminate].
  destruct (trabalha_no_dia _ _ _ _); [|discriminate].
  destruct (medico_ocupado _ _ _ _); [discriminate|].
  destruct (paciente_ocupado _ _ _ _); [discriminate|].
  destruct (nif_difere _ _ _); [|discriminate].
  intros _. repeat split.
Qed.

Lemma verificacoes_cancela_passam (s : store) (clinica_ paciente_ medico_ : string) :
  primeira_falha (verificacoes_cancela s clinica_ paciente_ medico_) = None <->
  existe_clinica s clinica_ = true
  /\ existe_paciente s paciente_ = true
  /\ existe_medico s medico_ = true.
Proof.
  unfold verificacoes_cancela, primeira_falha.
  destruct (existe_clinica _ _), (existe_paciente _ _), (existe_medico _ _);
    split; try discriminate; try tauto; intros (? & ? & ?); discriminate.
Qed.

(** The row a booking inserts occupies the doctor and the patient. *)
Lemma insert_consulta_ocupa (s : store) (paciente_ medico_ clinica_ : string)
    (d : date) (h : time) :
  medico_ocupado (insert_consulta paciente_ medico_ clinica_ d h s) medico_ d h
    = true
  /\ paciente_ocupado (insert_consulta paciente_ medico_ clinica_ d h s)
       paciente_ d h = true
  /\ existsb (consulta_match paciente_ medico_ clinica_ d h)
       (consulta (insert_consulta paciente_ medico_ clinica_ d h s)) = true.
Proof.
  unfold medico_ocupado, paciente_ocupado, consulta_match, insert_consulta.
  cbn [consulta]. rewrite !existsb_app. cbn [existsb consulta_ssn consulta_nif
    consulta_nome consulta_data consulta_hora].
  rewrite !String.eqb_refl, !Z.eqb_refl. cbn [andb orb].
  rewrite !orb_true_r. auto.
Qed.

Lemma filter_todos {R} (p : R -> bool) (l : list R) :
  existsb (fun x => negb (p x)) l = false -> filter p l = l.
Proof.
  induction l as [|x l IH]; simpl; [reflexivity|].
  intros H. apply orb_false_iff in H as [Hx Hl].
  apply negb_false_iff in Hx. rewrite Hx, IH by assumption. reflexivity.
Qed.

(** A free doctor has no row that a cancellation of that slot would
    delete. *)
Lemma medico_livre_sem_match (s : store) (paciente_ medico_ clinica_ : string)
    (d : date) (h : time) :
  medico_ocupado s medico_ d h = false ->
  existsb (consulta_match paciente_ medico_ clinica_ d h) (consulta s) = false.
Proof.
  unfold medico_ocupado. intros Hfree.
  apply not_true_iff_false. intros Hex. apply not_true_iff_false in Hfree.
  apply Hfree. apply existsb_exists in Hex as (k & Hk & Hm).
  apply existsb_exists. exists k. split; [assumption|].
  apply consulta_match_spec in Hm as (H1 & H2 & H3 & H4 & H5).
  rewrite !andb_true_iff.
  repeat split; [apply String.eqb_eq | apply Z.eqb_eq | apply Z.eqb_eq]; assumption.
Qed.

(** A booking leaves the tables the checks read as they were. *)
Lemma insert_consulta_tabelas (s : store) (paciente_ medico_ clinica_ : string)
    (d : date) (h : time) (c p m : string) (w : Z) :
  existe_clinica (insert_consulta paciente_ medico_ clinica_ d h s) c
    = existe_clinica s c
  /\ existe_paciente (insert_consulta paciente_ medico_ clinica_ d h s) p
     = existe_paciente s p
  /\ existe_medico (insert_consulta paciente_ medico_ clinica_ d h s) m
     = existe_medico s m
  /\ trabalha_no_dia (insert_consulta paciente_ medico_ clinica_ d h s) m c w
     = trabalha_no_dia s m c w
  /\ nif_do_paciente (insert_consulta paciente_ medico_ clinica_ d h s) p
     = nif_do_paciente s p.
Proof. repeat split. Qed.

Lemma existsb_igual {R} (p q : R -> bool) (l : list R) :
  (forall x, p x = q x) -> existsb p l = existsb q l.
Proof.
  intros H. induction l as [|x l IH]; simpl; [reflexivity|].
  rewrite H, IH. reflexivity.
Qed.

(** X10: once a booking has succeeded, a further validated booking of the
    same doctor, clinic, date and time by any existing patient (the same
    one included) is answered with the 400 "doctor already booked" error
    and writes nothing. *)
Theorem marca_repetida (falha : falhas) (now now' : datetime) (s s' : store)
    (clinica_ : string) (paciente_ medico_ data hora paciente2 : arg) :
  marca_consulta falha now s clinica_ paciente_ medico_ data hora
  = inr (sucesso_marca clinica_ (str paciente_) (str medico_)
           (str data) (str hora), s') ->
  validar_marca now' paciente2 medico_ data hora = inr None ->
  existe_paciente s (str paciente2) = true ->
  marca_consulta sem_falhas now' s' clinica_ paciente2 medico_ data hora
  = inr (erro ("O médico já tem uma consulta no horário especificado: "
               +s str hora +s " " +s str data) 400, s').
Proof.
  intros Hrun Hv2 Hp2.
  apply marca_sucesso_inv in Hrun as (_ & Hf & -> & Hle).
  apply verificacoes_marca_passam in Hf as (H1 & _ & H3 & H4 & _).
  rewrite (marca_consulta_run _ _ _ _ _ _ _ _ Hv2), primeira_avaria_sem_falhas.
  rewrite Hle. cbn [negb andb].
  unfold verificacoes_marca, primeira_falha.
  destruct (insert_consulta_tabelas s (str paciente_) (str medico_) clinica_
              (data_de (str data)) (hora_de (str hora)) clinica_
              (str paciente2) (str medico_) (weekday (data_de (str data))))
    as (-> & -> & -> & -> & _).
  rewrite H1, Hp2, H3, H4.
  destruct (insert_consulta_ocupa s (str paciente_) (str medico_) clinica_
              (data_de (str data)) (hora_de (str hora))) as (-> & _).
  reflexivity.
Qed.

Lemma marca_repetida_witness :
  marca_consulta sem_falhas ex_now ex_store_marcada "Clinica A"
    (Some "12345678901") (Some "123456789") (Some "2025-01-06") (Some "09:00:00")
  = inr (erro ("O médico já tem uma consulta no horário especificado: "
               +s "09:00:00" +s " " +s "2025-01-06") 400, ex_store_marcada).
Proof.
  apply (marca_repetida sem_falhas ex_now ex_now ex_store ex_store_marcada
           "Clinica A" (Some "12345678901") (Some "123456789")
           (Some "2025-01-06") (Some "09:00:00") (Some "12345678901")).
  - vm_compute. reflexivity.
  - vm_compute. reflexivity.
  - vm_compute. reflexivity.
Defined.

(** X11: booking and then cancelling with the same parameters is a round
    trip on the appointments: the cancellation (validated at its own
    [now]) is answered with the 200 success, and afterwards the table
    [consulta] holds exactly the rows it held before the booking, in the
    same order; the other tables were never touched. *)
Theorem marca_depois_cancela (falha : falhas) (now now' : datetime) (s s' : store)
    (clinica_ : string) (paciente_ medico_ data hora : arg) :
  marca_consulta falha now s clinica_ paciente_ medico_ data hora
  = inr (sucesso_marca clinica_ (str paciente_) (str medico_)
           (str data) (str hora), s') ->
  validar_cancela now' paciente_ medico_ data hora = inr None ->
  exists s'',
    cancela_consulta sem_falhas now' s' clinica_ paciente_ medico_ data hora
    = inr (sucesso_cancela clinica_ (str paciente_) (str medico_)
             (str data) (str hora), s'')
    /\ consulta s'' = consulta s
    /\ clinica s'' = clinica s /\ medico s'' = medico s
    /\ trabalha s'' = trabalha s /\ paciente s'' = paciente s.
Proof.
  intros Hrun Hv2.
  apply marca_sucesso_inv in Hrun as (_ & Hf & -> & Hle).
  apply verificacoes_marca_passam in Hf as (H1 & H2 & H3 & _ & H5 & _).
  rewrite (cancela_consulta_run _ _ _ _ _ _ _ _ Hv2), primeira_avaria_sem_falhas.
  rewrite Hle. cbn [negb andb].
  assert (Hc : primeira_falha
                 (verificacoes_cancela
                    (insert_consulta (str paciente_) (str medico_) clinica_
                       (data_de (str data)) (hora_de (str hora)) s)
                    clinica_ (str paciente_) (str medico_)) = None).
  { apply verificacoes_cancela_passam. auto. }
  rewrite Hc.
  destruct (insert_consulta_ocupa s (str paciente_) (str medico_) clinica_
              (data_de (str data)) (hora_de (str hora))) as (_ & _ & ->).
  eexists. split; [reflexivity|].
  split; [|repeat split].
  unfold delete_consulta, insert_consulta. cbn [consulta].
  rewrite filter_app. cbn [filter].
  replace (consulta_match (str paciente_) (str medico_) clinica_
             (data_de (str data)) (hora_de (str hora)) _) with true.
  - cbn [negb]. rewrite app_nil_r. apply filter_todos.
    rewrite <- (medico_livre_sem_match s (str paciente_) (str medico_) clinica_
                  _ _ H5).
    apply existsb_igual. intros k. apply negb_involutive.
  - symmetry. apply consulta_match_spec. repeat split.
Qed.

Lemma marca_depois_cancela_witness :
  exists s'',
    cancela_consulta sem_falhas ex_now ex_store_marcada "Clinica A"
      (Some "12345678901") (Some "123456789") (Some "2025-01-06")
      (Some "09:00:00")
    = inr (sucesso_cancela "Clinica A" (str (Some "12345678901"))
             (str (Some "123456789")) (str (Some "2025-01-06"))
             (str (Some "09:00:00")), s'')
    /\ consulta s'' = consulta ex_store
    /\ clinica s'' = clinica ex_store /\ medico s'' = medico ex_store
    /\ trabalha s'' = trabalha ex_store /\ paciente s'' = paciente ex_store.
Proof.
  apply (marca_depois_cancela sem_falhas ex_now ex_now ex_store ex_store_marcada
           "Clinica A" (Some "12345678901") (Some "123456789")
           (Some "2025-01-06") (Some "09:00:00")).
  - vm_compute. reflexivity.
  - vm_compute. reflexivity.
Defined.

(** X12: once a cancellation has succeeded, a further validated
    cancellation with the same parameters is answered with the 400 "no
    matching appointment" error and leaves the store as it is. *)
Theorem cancela_repetida (falha : falhas) (now now' : datetime) (s s' : store)
    (clinica_ : string) (paciente_ medico_ data hora : arg) :
  cancela_consulta falha now s clinica_ paciente_ medico_ data hora
  = inr (sucesso_cancela clinica_ (str paciente_) (str medico_)
           (str data) (str hora), s') ->
  validar_cancela now' paciente_ medico_ data hora = inr None ->
  cancela_consulta sem_falhas now' s' clinica_ paciente_ medico_ data hora
  = inr (erro_sem_consulta, s').
Proof.
  intros Hrun Hv2.
  apply cancela_sucesso_inv in Hrun as (_ & Hf & _ & -> & Hle).
  rewrite (cancela_consulta_run _ _ _ _ _ _ _ _ Hv2), primeira_avaria_sem_falhas.
  rewrite Hle. cbn [negb andb].
  change (verificacoes_cancela (delete_consulta _ _ _ _ _ s) clinica_
            (str paciente_) (str medico_))
    with (verificacoes_cancela s clinica_ (str paciente_) (str medico_)).
  rewrite Hf.
  assert (Hno : existsb (consulta_match (str paciente_) (str medico_) clinica_
                           (data_de (str data)) (hora_de (str hora)))
                  (consulta (delete_consulta (str paciente_) (str medico_)
                               clinica_ (data_de (str data))
                               (hora_de (str hora)) s)) = false).
  { apply not_true_iff_false. intros Hex.
    apply existsb_exists in Hex as (k & Hk & Hm).
    unfold delete_consulta in Hk. cbn [consulta] in Hk.
    apply filter_In in Hk as [_ Hk]. rewrite Hm in Hk. discriminate. }
  rewrite Hno. rewrite delete_consulta_nada by exact Hno. reflexivity.
Qed.

Lemma cancela_repetida_witness :
  cancela_consulta sem_falhas ex_now
    (delete_consulta "12345678901" "123456789" "Clinica A" dia_2025_01_06
       (mk_time 9 0 0) ex_store_marcada)
    "Clinica A" (Some "12345678901") (Some "123456789") (Some "2025-01-06")
    (Some "09:00:00")
  = inr (erro_sem_consulta,
         delete_consulta "12345678901" "123456789" "Clinica A" dia_2025_01_06
           (mk_time 9 0 0) ex_store_marcada).
Proof.
  apply (cancela_repetida sem_falhas ex_now ex_now ex_store_marcada _
           "Clinica A" (Some "12345678901") (Some "123456789")
           (Some "2025-01-06") (Some "09:00:00")).
  - vm_compute. reflexivity.
  - vm_compute. reflexivity.
Defined.

(* ===================================================================== *)
(** ** What the two operations keep *)
(* ===================================================================== *)

Lemma NoDup_snoc {A} (l : list A) (x : A) :
  NoDup l -> ~ In x l -> NoDup (l ++ [x]).
Proof.
  induction 1 as [|a l Ha Hl IH]; intros Hx; simpl.
  - constructor; [intros [] | constructor].
  - constructor.
    + rewrite in_app_iff. intros [H|[H|[]]]; [contradiction|].
      apply Hx. left. symmetry. assumption.
    + apply IH. intros H. apply Hx. right. assumption.
Qed.

(** Dropping rows keeps a key unique. *)
Lemma filter_mantem_unicos {K R : Type} (chave : R -> K) (manter : R -> bool)
    (linhas : list R) (Hunicos : NoDup (map chave linhas)) :
  NoDup (map chave (filter manter linhas)).
Proof.
  revert Hunicos. induction linhas as [|linha resto IH]; cbn [map filter].
  - intros _. constructor.
  - intros Hunicos. apply NoDup_cons_iff in Hunicos as [Hfora Hresto].
    specialize (IH Hresto). destruct (manter linha); [|exact IH].
    cbn [map]. apply NoDup_cons; [|exact IH].
    intros Hdentro. apply Hfora.
    apply in_map_iff in Hdentro as (outra & Higual & Hfica).
    apply filter_In in Hfica as [Hfica _].
    apply in_map_iff. exists outra. split; assumption.
Qed.

Lemma paciente_ocupado_false (s : store) (paciente_ : string) (d : date)
    (h : time) :
  paciente_ocupado s paciente_ d h = false <->
  forall k, In k (consulta s) -> consulta_ssn k = paciente_ ->
    (d, h) <> (consulta_data k, consulta_hora k).
Proof.
  unfold paciente_ocupado. rewrite <- not_true_iff_false, existsb_exists. split.
  - intros Hno k Hk Hssn Heq. injection Heq as -> ->. apply Hno. exists k.
    split; [assumption|]. rewrite !andb_true_iff.
    repeat split; [apply String.eqb_eq; assumption | apply Z.eqb_refl | apply Z.eqb_refl].
  - intros Hall (k & Hk & H). apply andb_true_iff in H as [H H3].
    apply andb_true_iff in H as [H1 H2].
    apply String.eqb_eq in H1. apply Z.eqb_eq in H2, H3.
    apply (Hall k Hk H1). congruence.
Qed.

(** The stores a booking can leave. *)
Lemma marca_consulta_store (falha : falhas) (now : datetime) (s s' : store)
    (clinica_ : string) (paciente_ medico_ data hora : arg) (r : resposta) :
  marca_consulta falha now s clinica_ paciente_ medico_ data hora = inr (r, s') ->
  (s' = s /\ r <> sucesso_marca clinica_ (str paciente_) (str medico_)
                    (str data) (str hora)
   /\ (snd r = 400 \/ snd r = 404 \/ snd r = 500))
  \/ (r = sucesso_marca clinica_ (str paciente_) (str medico_)
            (str data) (str hora)
      /\ validar_marca now paciente_ medico_ data hora = inr None
      /\ primeira_falha (verificacoes_marca s clinica_ (str paciente_)
                           (str medico_) (str data) (str hora)) = None
      /\ s' = insert_consulta (str paciente_) (str medico_) clinica_
                (data_de (str data)) (hora_de (str hora)) s).
Proof.
  intros Hrun.
  destruct (validar_marca now paciente_ medico_ data hora) as [e|[error|]] eqn:Hv.
  - unfold marca_consulta in Hrun. rewrite Hv in Hrun. discriminate.
  - unfold marca_consulta in Hrun. rewrite Hv in Hrun. injection Hrun as <- <-.
    left. split; [reflexivity|]. split; [discriminate | auto].
  - rewrite (marca_consulta_run _ _ _ _ _ _ _ _ Hv) in Hrun.
    destruct (primeira_avaria _ _ _).
    { injection Hrun as <- <-. left. split; [reflexivity|].
      split; [discriminate | auto]. }
    destruct (negb _ && _).
    { injection Hrun as <- <-. left. split; [reflexivity|].
      split; [discriminate | auto]. }
    destruct (primeira_falha _) as [e|] eqn:Hf.
    + injection Hrun as <- <-. left. split; [reflexivity|].
      apply primeira_falha_In in Hf. split.
      * pose proof (verificacoes_marca_distintas s clinica_ (str paciente_)
                      (str medico_) (str data) (str hora)) as Hnd.
        inversion Hnd as [|? ? Hnot _]; subst. intros ->. contradiction.
      * unfold verificacoes_marca, erro in Hf. cbn [map snd In] in Hf.
        repeat (destruct Hf as [<-|Hf]; [cbn [snd]; auto|]). contradiction.
    + injection Hrun as <- <-. right. auto.
Qed.

(** The stores a cancellation can leave. *)
Lemma cancela_consulta_store (falha : falhas) (now : datetime) (s s' : store)
    (clinica_ : string) (paciente_ medico_ data hora : arg) (r : resposta) :
  cancela_consulta falha now s clinica_ paciente_ medico_ data hora = inr (r, s') ->
  (s' = s /\ (snd r = 400 \/ snd r = 404 \/ snd r = 500))
  \/ (snd r = 200
      /\ s' = delete_consulta (str paciente_) (str medico_) clinica_
                (data_de (str data)) (hora_de (str hora)) s).
Proof.
  intros Hrun.
  destruct (validar_cancela now paciente_ medico_ data hora) as [e|[error|]] eqn:Hv.
  - unfold cancela_consulta in Hrun. rewrite Hv in Hrun. discriminate.
  - unfold cancela_consulta in Hrun. rewrite Hv in Hrun. injection Hrun as <- <-.
    left. auto.
  - rewrite (cancela_consulta_run _ _ _ _ _ _ _ _ Hv) in Hrun.
    destruct (primeira_avaria _ _ _).
    { injection Hrun as <- <-. left. auto. }
    destruct (negb _ && _).
    { injection Hrun as <- <-. left. auto. }
    destruct (primeira_falha _) as [e|] eqn:Hf.
    + injection Hrun as <- <-. left. split; [reflexivity|].
      apply primeira_falha_In in Hf.
      unfold verificacoes_cancela, erro in Hf. cbn [map snd In] in Hf.
      repeat (destruct Hf as [<-|Hf]; [cbn [snd]; auto|]). contradiction.
    + destruct (existsb _ (consulta s)) eqn:Hm.
      * injection Hrun as <- <-. right. auto.
      * injection Hrun as <- <-. left.
        rewrite delete_consulta_nada by exact Hm. auto.
Qed.

(** X13: bookings and cancellations keep the two uniqueness invariants of
    the appointments: if no doctor and no patient has two rows at the same
    date and time before a request, none has after it, whatever the request
    and whatever the database calls that fail. *)
Theorem sem_sobreposicao_preservada (falha : falhas) (now : datetime)
    (s : store) (clinica_ : string) (paciente_ medico_ data hora : arg) :
  medico_sem_sobreposicao s ->
  paciente_sem_sobreposicao s ->
  (forall r s',
     marca_consulta falha now s clinica_ paciente_ medico_ data hora
     = inr (r, s') ->
     medico_sem_sobreposicao s' /\ paciente_sem_sobreposicao s')
  /\ (forall r s',
        cancela_consulta falha now s clinica_ paciente_ medico_ data hora
        = inr (r, s') ->
        medico_sem_sobreposicao s' /\ paciente_sem_sobreposicao s').
Proof.
  intros Hm Hp. split; intros r s' Hrun.
  - apply marca_consulta_store in Hrun as [(-> & _) | (_ & _ & Hf & ->)];
      [auto|].
    apply verificacoes_marca_passam in Hf as (_ & _ & _ & _ & H5 & H6 & _).
    unfold medico_sem_sobreposicao, paciente_sem_sobreposicao, insert_consulta.
    cbn [consulta]. rewrite !map_app. cbn [map consulta_nif consulta_ssn
      consulta_data consulta_hora]. split.
    + apply NoDup_snoc; [assumption|]. intros Hin.
      apply in_map_iff in Hin as (k & Hk & Hin). injection Hk as H1 H2 H3.
      apply (proj1 (medico_ocupado_false _ _ _ _) H5 k Hin H1). congruence.
    + apply NoDup_snoc; [assumption|]. intros Hin.
      apply in_map_iff in Hin as (k & Hk & Hin). injection Hk as H1 H2 H3.
      apply (proj1 (paciente_ocupado_false _ _ _ _) H6 k Hin H1). congruence.
  - apply cancela_consulta_store in Hrun as [(-> & _) | (_ & ->)]; [auto|].
    unfold medico_sem_sobreposicao, paciente_sem_sobreposicao, delete_consulta.
    cbn [consulta]. split; apply filter_mantem_unicos; assumption.
Qed.

Lemma sem_sobreposicao_preservada_witness :
  (forall r s',
     marca_consulta sem_falhas ex_now ex_store "Clinica A" (Some "12345678901")
       (Some "123456789") (Some "2025-01-06") (Some "09:00:00") = inr (r, s') ->
     medico_sem_sobreposicao s' /\ paciente_sem_sobreposicao s')
  /\ (forall r s',
        cancela_consulta sem_falhas ex_now ex_store "Clinica A"
          (Some "12345678901") (Some "123456789") (Some "2025-01-06")
          (Some "09:00:00") = inr (r, s') ->
        medico_sem_sobreposicao s' /\ paciente_sem_sobreposicao s').
Proof.
  apply (sem_sobreposicao_preservada sem_falhas ex_now ex_store "Clinica A"
           (Some "12345678901") (Some "123456789") (Some "2025-01-06")
           (Some "09:00:00")).
  - vm_compute. constructor.
  - vm_compute. constructor.
Defined.

(** X14: bookings and cancellations keep the third invariant: if before a
    request no appointment has a doctor whose [nif] is that of the
    patient's row, none has after it. *)
Theorem sem_auto_consulta_preservada (falha : falhas) (now : datetime)
    (s : store) (clinica_ : string) (paciente_ medico_ data hora : arg) :
  sem_auto_consulta s ->
  (forall r s',
     marca_consulta falha now s clinica_ paciente_ medico_ data hora
     = inr (r, s') -> sem_auto_consulta s')
  /\ (forall r s',
        cancela_consulta falha now s clinica_ paciente_ medico_ data hora
        = inr (r, s') -> sem_auto_consulta s').
Proof.
  intros Hinv. split; intros r s' Hrun.
  - apply marca_consulta_store in Hrun as [(-> & _) | (_ & _ & Hf & ->)];
      [auto|].
    apply verificacoes_marca_passam in Hf as (_ & _ & _ & _ & _ & _ & H7).
    intros k Hk. unfold insert_consulta in Hk. cbn [consulta] in Hk.
    change (nif_do_paciente (insert_consulta _ _ _ _ _ s) (consulta_ssn k))
      with (nif_do_paciente s (consulta_ssn k)).
    apply in_app_iff in Hk as [Hk | [<- | []]]; [auto|].
    cbn [consulta_ssn consulta_nif]. unfold nif_difere in H7.
    destruct (nif_do_paciente s (str paciente_)) as [nif|]; [|discriminate].
    intros Heq. injection Heq as ->. rewrite String.eqb_refl in H7. discriminate.
  - apply cancela_consulta_store in Hrun as [(-> & _) | (_ & ->)]; [auto|].
    intros k Hk. apply delete_consulta_In in Hk as [Hk _].
    change (nif_do_paciente (delete_consulta _ _ _ _ _ s) (consulta_ssn k))
      with (nif_do_paciente s (consulta_ssn k)).
    auto.
Qed.

Lemma sem_auto_consulta_preservada_witness :
  (forall r s',
     marca_consulta sem_falhas ex_now ex_store "Clinica A" (Some "12345678901")
       (Some "123456789") (Some "2025-01-06") (Some "09:00:00") = inr (r, s') ->
     sem_auto_consulta s')
  /\ (forall r s',
        cancela_consulta sem_falhas ex_now ex_store "Clinica A"
          (Some "12345678901") (Some "123456789") (Some "2025-01-06")
          (Some "09:00:00") = inr (r, s') -> sem_auto_consulta s').
Proof.
  apply (sem_auto_consulta_preservada sem_falhas ex_now ex_store "Clinica A"
           (Some "12345678901") (Some "123456789") (Some "2025-01-06")
           (Some "09:00:00")).
  intros k [].
Defined.

(** A request the validator accepts passes each of the six rules. *)
Lemma validar_marca_aceite (now : datetime) (paciente_ medico_ data hora : arg) :
  validar_marca now paciente_ medico_ data hora = inr None ->
  regra_paciente paciente_ = true /\ regra_medico medico_ = true
  /\ regra_data data = true /\ regra_hora hora = true
  /\ regra_passado now data hora = true /\ regra_janela hora = true.
Proof.
  rewrite validar_marca_regras. unfold regras_validacao, primeira_falha.
  destruct (regra_paciente paciente_); [|discriminate].
  destruct (regra_medico medico_); [|discriminate].
  destruct (regra_data data); [|discriminate].
  destruct (regra_hora hora); [|discriminate].
  destruct (regra_passado now data hora); [|discriminate].
  destruct (regra_janela hora); [|discriminate].
  intros _. repeat split.
Qed.

(** X15: a booking answered with the success response has added exactly
    one row at the end of [consulta], for the patient, doctor and clinic of
    the request, at an instant that is not before [now], at a time of day
    inside the hour window, on a weekday on which the doctor works at the
    clinic. *)
Theorem marca_linha_inserida (falha : falhas) (now : datetime) (s s' : store)
    (clinica_ : string) (paciente_ medico_ data hora : arg) :
  marca_consulta falha now s clinica_ paciente_ medico_ data hora
  = inr (sucesso_marca clinica_ (str paciente_) (str medico_)
           (str data) (str hora), s') ->
  exists k,
    consulta s' = consulta s ++ [k]
    /\ consulta_ssn k = str paciente_
    /\ consulta_nif k = str medico_
    /\ consulta_nome k = clinica_
    /\ now <= combine (consulta_data k) (consulta_hora k)
    /\ na_janela (consulta_hora k) = true
    /\ trabalha_no_dia s (str medico_) clinica_ (weekday (consulta_data k)) = true.
Proof.
  intros Hrun. apply marca_sucesso_inv in Hrun as (Hv & Hf & -> & _).
  apply validar_marca_aceite in Hv as (_ & _ & _ & _ & H5 & H6).
  apply verificacoes_marca_passam in Hf as (_ & _ & _ & H4 & _).
  eexists. split; [reflexivity|].
  cbn [consulta_ssn consulta_nif consulta_nome consulta_data consulta_hora].
  repeat split; try assumption.
  unfold regra_passado in H5. apply negb_true_iff, Z.ltb_ge in H5. exact H5.
Qed.

Lemma marca_linha_inserida_witness :
  exists k,
    consulta ex_store_marcada = consulta ex_store ++ [k]
    /\ consulta_ssn k = str (Some "12345678901")
    /\ consulta_nif k = str (Some "123456789")
    /\ consulta_nome k = "Clinica A"
    /\ ex_now <= combine (consulta_data k) (consulta_hora k)
    /\ na_janela (consulta_hora k) = true
    /\ trabalha_no_dia ex_store (str (Some "123456789")) "Clinica A"
         (weekday (consulta_data k)) = true.
Proof.
  apply (marca_linha_inserida sem_falhas ex_now ex_store ex_store_marcada
           "Clinica A" (Some "12345678901") (Some "123456789")
           (Some "2025-01-06") (Some "09:00:00")).
  vm_compute. reflexivity.
Defined.

(** X16: a slot that has been booked is no longer offered: after a booking
    answered with the success response, no doctors listing, for any clinic,
    specialty and [now], holds the booked (date, time) in the entry of the
    booked doctor. *)
Theorem marcada_nao_listada (falha : falhas) (now : datetime) (s s' : store)
    (clinica_ : string) (paciente_ medico_ data hora : arg)
    (fuel : nat) (now2 : datetime) (clinica2 especialidade : string)
    (resultado : list (string * list (date * time))) (code : Z) :
  marca_consulta falha now s clinica_ paciente_ medico_ data hora
  = inr (sucesso_marca clinica_ (str paciente_) (str medico_)
           (str data) (str hora), s') ->
  lista_medicos_clinica_especialidade fuel now2 s' clinica2 especialidade
  = ret (Medicos resultado, code) ->
  forall label slots, In (label, slots) resultado ->
    exists nif nome,
      In (nif, nome) (select_medicos s' clinica2 especialidade)
      /\ label = nome +s " (" +s nif +s ")"
      /\ (nif = str medico_ ->
          ~ In (data_de (str data), hora_de (str hora)) slots).
Proof.
  intros Hrun Hlist label slots He.
  apply marca_sucesso_inv in Hrun as (_ & _ & -> & _).
  apply (lista_medicos_entries _ _ _ _ _ _ _ Hlist) in He
    as (nif & nome & hs & Hin & Hm & Heq).
  injection Heq as -> ->. exists nif, nome.
  split; [assumption|]. split; [reflexivity|].
  intros -> Hslot. apply in_map_iff in Hslot as (h & Hh & Hhs).
  apply horarios_medico_inv in Hm as (_ & _ & Hall).
  destruct (Hall h Hhs) as (_ & _ & Hfree).
  apply (Hfree {| consulta_id := consulta_id_seq s;
                  consulta_ssn := str paciente_;
                  consulta_nif := str medico_;
                  consulta_nome := clinica_;
                  consulta_data := data_de (str data);
                  consulta_hora := hora_de (str hora) |}).
  - unfold insert_consulta. cbn [consulta]. apply in_app_iff. right. left.
    reflexivity.
  - reflexivity.
  - exact Hh.
Qed.

Lemma marcada_nao_listada_witness :
  exists nif nome,
    In (nif, nome) (select_medicos ex_store_marcada "Clinica A" "Cardiologia")
    /\ "Ana (123456789)" = nome +s " (" +s nif +s ")"
    /\ (nif = str (Some "123456789") ->
        ~ In (data_de (str (Some "2025-01-06")), hora_de (str (Some "09:00:00")))
             [(dia_2025_01_06, mk_time 8 0 0); (dia_2025_01_06, mk_time 8 30 0);
              (dia_2025_01_06, mk_time 9 30 0)]).
Proof.
  apply (marcada_nao_listada sem_falhas ex_now ex_store ex_store_marcada
           "Clinica A" (Some "12345678901") (Some "123456789")
           (Some "2025-01-06") (Some "09:00:00")
           40 ex_now "Clinica A" "Cardiologia"
           [("Ana (123456789)",
             [(dia_2025_01_06, mk_time 8 0 0); (dia_2025_01_06, mk_time 8 30 0);
              (dia_2025_01_06, mk_time 9 30 0)])] 200).
  - vm_compute. reflexivity.
  - vm_compute. reflexivity.
  - left. reflexivity.
Defined.

(** X17: only a 200 answer writes.  Every answer of a booking or of a
    cancellation has status 200, 400, 404 or 500; when the status is not
    200 the store is exactly as before; the tables [clinica], [medico],
    [trabalha] and [paciente] are never changed; a booking never removes an
    appointment and a cancellation never adds one. *)
Theorem so_sucesso_escreve (falha : falhas) (now : datetime) (s : store)
    (clinica_ : string) (paciente_ medico_ data hora : arg) :
  (forall r s',
     marca_consulta falha now s clinica_ paciente_ medico_ data hora
     = inr (r, s') ->
     (snd r = 200 \/ snd r = 400 \/ snd r = 404 \/ snd r = 500)
     /\ (snd r <> 200 -> s' = s)
     /\ clinica s' = clinica s /\ medico s' = medico s
     /\ trabalha s' = trabalha s /\ paciente s' = paciente s
     /\ forall k, In k (consulta s) -> In k (consulta s'))
  /\ (forall r s',
        cancela_consulta falha now s clinica_ paciente_ medico_ data hora
        = inr (r, s') ->
        (snd r = 200 \/ snd r = 400 \/ snd r = 404 \/ snd r = 500)
        /\ (snd r <> 200 -> s' = s)
        /\ clinica s' = clinica s /\ medico s' = medico s
        /\ trabalha s' = trabalha s /\ paciente s' = paciente s
        /\ forall k, In k (consulta s') -> In k (consulta s)).
Proof.
  split; intros r s' Hrun.
  - apply marca_consulta_store in Hrun
      as [(-> & _ & Hcode) | (-> & _ & _ & ->)].
    + split; [tauto|]. split; [reflexivity|]. auto 10.
    + split; [left; reflexivity|]. split; [intros H; now contradiction H|].
      split; [reflexivity|]. split; [reflexivity|]. split; [reflexivity|].
      split; [reflexivity|].
      intros k Hk. unfold insert_consulta. cbn [consulta].
      apply in_app_iff. left. assumption.
  - apply cancela_consulta_store in Hrun as [(-> & Hcode) | (Hcode & ->)].
    + split; [tauto|]. split; [reflexivity|]. auto 10.
    + split; [left; assumption|]. split; [intros H; contradiction|].
      split; [reflexivity|]. split; [reflexivity|]. split; [reflexivity|].
      split; [reflexivity|].
      intros k Hk. apply delete_consulta_In in Hk. apply Hk.
Qed.

(* ===================================================================== *)
(** ** When the scan returns *)
(* ===================================================================== *)

(** The inner loop collects three instants when the day has enough
    acceptable ones. *)
Lemma for_horarios_length (now : datetime) (consultas : list (date * time))
    (hp : list datetime) :
  forall hd,
    (Nat.min 3 (List.length hd
                + List.length (filter (aceitavel now consultas) hp))
     <= List.length (for_horarios now consultas hp hd))%nat.
Proof.
  induction hp as [|horario rest IH]; intros hd; cbn [for_horarios filter].
  - cbn [List.length]. lia.
  - destruct (Z.of_nat (List.length hd) >=? 3) eqn:Hbrk.
    + assert (3 <= List.length hd)%nat by lia. lia.
    + fold (aceitavel now consultas horario).
      destruct (aceitavel now consultas horario).
      * specialize (IH (hd ++ [horario])). rewrite length_app in IH.
        cbn [List.length] in *. lia.
      * apply IH.
Qed.

Lemma scan_devolve_aux (now : datetime) (dias : list Z)
    (consultas : list (date * time)) (D : date) :
  D < MAXORDINAL ->
  In (weekday D) dias ->
  (3 <= List.length (filter (aceitavel now consultas) (grelha_do_dia D)))%nat ->
  forall n fuel hd d,
    1 <= d <= D -> Z.of_nat n = D - d -> (n + 24 <= fuel)%nat ->
    exists r, scan fuel now dias consultas hd d = ret r.
Proof.
  intros HD Hw Hfree. induction n as [|n IH]; intros fuel hd d Hd Hn Hfuel;
    (destruct fuel as [|fuel]; [lia|]); cbn [scan];
    (destruct (Z.of_nat (List.length hd) <? 3) eqn:Hlt; [|eexists; reflexivity]).
  - assert (d = D) by lia. subst d.
    replace (existsb (Z.eqb (weekday D)) dias) with true.
    2: { symmetry. apply existsb_exists. exists (weekday D).
         split; [assumption | apply Z.eqb_refl]. }
    rewrite gerar_dia_ret by lia. cbn [bind ret].
    unfold lift, date_add, timedelta_days.
    replace ((0 <? D + 1) && (D + 1 <=? MAXORDINAL)) with true.
    2: { symmetry. apply andb_true_iff. split; [apply Z.ltb_lt | apply Z.leb_le]; lia. }
    cbn [bind]. destruct fuel as [|fuel]; [lia|]. cbn [scan].
    pose proof (for_horarios_length now consultas (grelha_do_dia D) hd) as Hl.
    replace (Z.of_nat (List.length (for_horarios now consultas (grelha_do_dia D) hd))
             <? 3) with false by (symmetry; apply Z.ltb_ge; lia).
    eexists. reflexivity.
  - assert (Hnext : forall hd',
              exists r, bind (lift (date_add d (timedelta_days 1)))
                          (fun d' => scan fuel now dias consultas hd' d') = ret r).
    { intros hd'. unfold lift, date_add, timedelta_days.
      replace ((0 <? d + 1) && (d + 1 <=? MAXORDINAL)) with true.
      2: { symmetry. apply andb_true_iff.
           split; [apply Z.ltb_lt | apply Z.leb_le]; lia. }
      cbn [bind]. apply IH; lia. }
    destruct (existsb (Z.eqb (weekday d)) dias).
    + rewrite gerar_dia_ret by lia. cbn [bind ret]. apply Hnext.
    + cbn [bind ret]. apply Hnext.
Qed.

(** X18: the scan returns (three slots, no [OverflowError]) whenever some
    day [D], from the date of [now] on and before the last day of the
    calendar, is a working weekday of the doctor and has at least three
    generated instants that are after [now] and at none of the
    appointments; fuel for the days up to [D] suffices. *)
Theorem scan_devolve (now : datetime) (dias : list Z)
    (consultas : list (date * time)) (D : date) (fuel : nat) :
  1 <= dt_date now <= D ->
  D < MAXORDINAL ->
  In (weekday D) dias ->
  (3 <= List.length (filter (aceitavel now consultas) (grelha_do_dia D)))%nat ->
  (Z.to_nat (D - dt_date now) + 24 <= fuel)%nat ->
  exists r,
    scan fuel now dias consultas [] (dt_date now) = ret r
    /\ List.length r = 3%nat.
Proof.
  intros Hd HD Hw Hfree Hfuel.
  destruct (scan_devolve_aux now dias consultas D HD Hw Hfree
              (Z.to_nat (D - dt_date now)) fuel [] (dt_date now))
    as [r Hr]; [lia | lia | lia |].
  exists r. split; [assumption|].
  apply scan_inv in Hr as (Hlen & _);
    [assumption | simpl; lia | constructor | intros h []].
Qed.

Lemma scan_devolve_witness :
  exists r,
    scan ex_fuel ex_now [0] [] [] (dt_date ex_now) = ret r
    /\ List.length r = 3%nat.
Proof.
  apply (scan_devolve ex_now [0] [] dia_2025_01_06 ex_fuel).
  - vm_compute. split; discriminate.
  - reflexivity.
  - left. reflexivity.
  - vm_compute. lia.
  - vm_compute. lia.
Defined.

(** X19: the scan tests its exit only after stepping to the next day, so
    a scan that collects its third slot on 9999-12-31 still ends with the
    [OverflowError] of the step and returns nothing: whatever the fuel,
    the weekdays and the appointments, no scan started on the last day
    with fewer than three slots collected returns a list. *)
Theorem scan_ultimo_dia (fuel : nat) (now : datetime) (dias : list Z)
    (consultas : list (date * time)) (horarios : list datetime)
    (r : list datetime) :
  (List.length horarios < 3)%nat ->
  scan fuel now dias consultas horarios MAXORDINAL <> ret r.
Proof.
  intros Hlen. destruct fuel as [|fuel]; [discriminate|]. cbn [scan].
  replace (Z.of_nat (List.length horarios) <? 3) with true
    by (symmetry; apply Z.ltb_lt; lia).
  destruct (existsb (Z.eqb (weekday MAXORDINAL)) dias).
  - destruct (gerar_horarios_disponiveis (S fuel) _ _ _) as [[e|hp]|];
      cbn [bind ret]; try discriminate.
  - cbn [bind ret]. discriminate.
Qed.

Lemma scan_ultimo_dia_witness :
  scan 30 (combine MAXORDINAL 0) [4] [] [] MAXORDINAL = raise date_overflow
  /\ scan 30 (combine MAXORDINAL 0) [4] [] [] MAXORDINAL
     <> ret [combine MAXORDINAL (mk_time 8 0 0);
             combine MAXORDINAL (mk_time 8 30 0);
             combine MAXORDINAL (mk_time 9 0 0)].
Proof.
  split; [vm_compute; reflexivity|].
  apply (scan_ultimo_dia 30 (combine MAXORDINAL 0) [4] [] []).
  vm_compute. lia.
Defined.
